(** * KeyStalker extraction pipeline: collector, downloader, classifier

    A shallow embedding of [extracting/collecting.py], [extracting/download.py]
    and [extracting/filtering.py], and the properties of the three stages.

    Conventions of the embedding.
    - Python text is a [string]; one character is one code point below 256.
    - A value decoded from JSON is a [json]; a [dict] is the list of its items
      in insertion order (the keys of a real dict are pairwise distinct).
    - A float is carried as the text [repr] prints for it.
    - A Python exception is a [Raise] in the [result] monad; the files the
      code reads and writes are explicit components of the state. *)

From Stdlib Require Import ZArith Ascii List Bool Lia DecimalString.
From Stdlib Require String.
From stdpp Require Import base option list strings gmap sorting.

Local Open Scope Z_scope.

(** ** Exceptions *)

Inductive exn : Type :=
| IndexError | KeyError | ValueError | TypeError | AttributeError
| FileNotFoundError | JSONDecodeError
| RecursionError | UnicodeEncodeError | BadZipFile | ZlibError
| RuntimeError | NotImplementedError | IsADirectoryError.

Inductive result (A : Type) : Type :=
| Ok (a : A)
| Raise (e : exn).
Arguments Ok {A} a.
Arguments Raise {A} e.

#[global] Instance result_ret : MRet result := @Ok.
#[global] Instance result_bind : MBind result :=
  fun A B f m => match m with Ok a => f a | Raise e => Raise e end.

Definition is_ok {A} (r : result A) : bool :=
  match r with Ok _ => true | Raise _ => false end.

(** ** Values decoded from JSON *)

#[warnings="-register-all"]
Inductive json : Type :=
| JNull
| JBool (b : bool)
| JInt (z : Z)
| JFloat (repr : string)
| JStr (s : string)
| JArr (l : list json)
| JObj (items : list (string * json)).

(** ** Text *)

Definition chr (n : nat) : ascii := ascii_of_nat n.
Definition ord (c : ascii) : nat := nat_of_ascii c.
Definition str1 (c : ascii) : string := String c "".

Definition quote : ascii := chr 34.
Definition apostrophe : ascii := chr 39.
Definition backslash : ascii := chr 92.

(** [needle in hay] on two strings. *)
Fixpoint contains (needle hay : string) : bool :=
  String.prefix needle hay
  || match hay with
     | "" => false
     | String _ t => contains needle t
     end.

(** [s.endswith(suffix)]. *)
Fixpoint endswith (s suffix : string) : bool :=
  String.eqb s suffix
  || match s with
     | "" => false
     | String _ t => endswith t suffix
     end.

(** [s.replace(c, '')] for a one-character [c]. *)
Fixpoint remove_char (c : ascii) (s : string) : string :=
  match s with
  | "" => ""
  | String a t =>
      if Ascii.eqb a c then remove_char c t else String a (remove_char c t)
  end.

Fixpoint string_rev (s : string) : string :=
  match s with
  | "" => ""
  | String a t => string_rev t +:+ str1 a
  end.

Fixpoint chars (s : string) : list string :=
  match s with
  | "" => []
  | String a t => str1 a :: chars t
  end.

Fixpoint join (sep : string) (l : list string) : string :=
  match l with
  | [] => ""
  | [x] => x
  | x :: t => x +:+ sep +:+ join sep t
  end.

Definition hex_digit (n : nat) : ascii :=
  if (n <? 10)%nat then chr (48 + n) else chr (87 + n).

Definition hex2 (c : ascii) : string :=
  String (hex_digit (ord c / 16)) (str1 (hex_digit (ord c mod 16))).

Definition string_of_Z (z : Z) : string :=
  DecimalString.NilZero.string_of_int (Z.to_int z).

(** *** [int(s)] *)

(** The characters [int] skips around the number. *)
Definition int_space (c : ascii) : bool :=
  let n := ord c in
  ((9 <=? n) && (n <=? 13) || (n =? 32) || (n =? 133) || (n =? 160))%nat.

Fixpoint lstrip (s : string) : string :=
  match s with
  | "" => ""
  | String a t => if int_space a then lstrip t else s
  end.

Definition strip (s : string) : string :=
  string_rev (lstrip (string_rev (lstrip s))).

Definition digit_of (c : ascii) : option Z :=
  let n := ord c in
  if ((48 <=? n) && (n <=? 57))%nat then Some (Z.of_nat n - 48) else None.

(** Decimal digits with single underscores between them: the value and the
    number of digits. *)
Fixpoint scan_digits (s : string) (acc : Z) (count : nat) (after_digit : bool)
  : option (Z * nat) :=
  match s with
  | "" => if after_digit then Some (acc, count) else None
  | String a t =>
      match digit_of a with
      | Some d => scan_digits t (10 * acc + d) (S count) true
      | None =>
          if Ascii.eqb a "_" && after_digit
          then scan_digits t acc count false
          else None
      end
  end.

Definition int_max_str_digits : nat := 4300.

Definition py_int (s : string) : result Z :=
  let body := strip s in
  let '(negative, ds) :=
    match body with
    | String a t =>
        if Ascii.eqb a "-" then (true, t)
        else if Ascii.eqb a "+" then (false, t)
        else (false, body)
    | "" => (false, body)
    end in
  match scan_digits ds 0 0 false with
  | Some (v, n) =>
      if (int_max_str_digits <? n)%nat then Raise ValueError
      else Ok (if negative then - v else v)
  | None => Raise ValueError
  end.

(** *** [repr] and [str] *)

Definition printable (c : ascii) : bool :=
  let n := ord c in
  ((32 <=? n) && (n <=? 126) || (161 <=? n) && negb (n =? 173))%nat.

Definition repr_char (q : ascii) (c : ascii) : string :=
  if Ascii.eqb c q || Ascii.eqb c backslash then String backslash (str1 c)
  else if Ascii.eqb c (chr 9) then String backslash "t"
  else if Ascii.eqb c (chr 10) then String backslash "n"
  else if Ascii.eqb c (chr 13) then String backslash "r"
  else if printable c then str1 c
  else String backslash ("x" +:+ hex2 c).

Fixpoint concat_map (f : ascii -> string) (s : string) : string :=
  match s with
  | "" => ""
  | String a t => f a +:+ concat_map f t
  end.

Definition repr_str (s : string) : string :=
  let q :=
    if contains (str1 apostrophe) s && negb (contains (str1 quote) s)
    then quote else apostrophe in
  str1 q +:+ concat_map (repr_char q) s +:+ str1 q.

Fixpoint py_repr (v : json) : string :=
  match v with
  | JNull => "None"
  | JBool b => if b then "True" else "False"
  | JInt z => string_of_Z z
  | JFloat r => r
  | JStr s => repr_str s
  | JArr l => "[" +:+ join ", " (map py_repr l) +:+ "]"
  | JObj items =>
      "{" +:+ join ", " (map (fun kv => repr_str (fst kv) +:+ ": " +:+ py_repr (snd kv)) items)
          +:+ "}"
  end.

Definition py_str (v : json) : string :=
  match v with
  | JStr s => s
  | _ => py_repr v
  end.

(** *** [json.dumps] with the default separators and [ensure_ascii] *)

Definition json_escape_char (c : ascii) : string :=
  if Ascii.eqb c quote || Ascii.eqb c backslash then String backslash (str1 c)
  else if Ascii.eqb c (chr 10) then String backslash "n"
  else if Ascii.eqb c (chr 13) then String backslash "r"
  else if Ascii.eqb c (chr 9) then String backslash "t"
  else if Ascii.eqb c (chr 8) then String backslash "b"
  else if Ascii.eqb c (chr 12) then String backslash "f"
  else if ((32 <=? ord c) && (ord c <=? 126))%nat then str1 c
  else String backslash ("u00" +:+ hex2 c).

Definition json_string (s : string) : string :=
  str1 quote +:+ concat_map json_escape_char s +:+ str1 quote.

Definition json_float (r : string) : string :=
  if String.eqb r "nan" then "NaN"
  else if String.eqb r "inf" then "Infinity"
  else if String.eqb r "-inf" then "-Infinity"
  else r.

Fixpoint json_dumps (v : json) : string :=
  match v with
  | JNull => "null"
  | JBool b => if b then "true" else "false"
  | JInt z => string_of_Z z
  | JFloat r => json_float r
  | JStr s => json_string s
  | JArr l => "[" +:+ join ", " (map json_dumps l) +:+ "]"
  | JObj items =>
      "{" +:+ join ", " (map (fun kv => json_string (fst kv) +:+ ": " +:+ json_dumps (snd kv)) items)
          +:+ "}"
  end.

(** ** Operations on values *)

(** [bool(v)]. *)
Definition truthy (v : json) : bool :=
  match v with
  | JNull => false
  | JBool b => b
  | JInt z => negb (z =? 0)
  | JFloat r => negb (String.eqb r "0.0" || String.eqb r "-0.0")
  | JStr s => negb (String.eqb s "")
  | JArr l => match l with [] => false | _ => true end
  | JObj items => match items with [] => false | _ => true end
  end.

Definition is_dict (v : json) : bool :=
  match v with JObj _ => true | _ => false end.

Fixpoint dict_lookup (k : string) (items : list (string * json)) : option json :=
  match items with
  | [] => None
  | (k', v) :: t => if String.eqb k k' then Some v else dict_lookup k t
  end.

(** [v == s] for a string [s]. *)
Definition eq_str (v : json) (s : string) : bool :=
  match v with JStr s' => String.eqb s' s | _ => false end.

(** [v[i]] for a literal index [i >= 0]. *)
Definition subscript (v : json) (i : nat) : result json :=
  match v with
  | JArr l => match l !! i with Some x => Ok x | None => Raise IndexError end
  | JStr s => match String.get i s with Some c => Ok (JStr (str1 c)) | None => Raise IndexError end
  | JObj _ => Raise KeyError
  | _ => Raise TypeError
  end.

(** [v[k]] for a string key [k]. *)
Definition subscript_key (v : json) (k : string) : result json :=
  match v with
  | JObj items => match dict_lookup k items with Some x => Ok x | None => Raise KeyError end
  | _ => Raise TypeError
  end.

(** [v.get(k, default)]. *)
Definition py_get (v : json) (k : string) (default : json) : result json :=
  match v with
  | JObj items => Ok (match dict_lookup k items with Some x => x | None => default end)
  | _ => Raise AttributeError
  end.


(** [for x in v]: the elements the iteration yields. *)
Definition py_iter (v : json) : result (list json) :=
  match v with
  | JArr l => Ok l
  | JStr s => Ok (map JStr (chars s))
  | JObj items => Ok (map (fun kv => JStr (fst kv)) items)
  | _ => Raise TypeError
  end.

(** [k in v] for a string [k]. *)
Definition py_in (k : string) (v : json) : result bool :=
  match v with
  | JObj items => Ok (bool_decide (is_Some (dict_lookup k items)))
  | JStr s => Ok (contains k s)
  | JArr l => Ok (existsb (fun x => eq_str x k) l)
  | _ => Raise TypeError
  end.

(** [len(v)]. *)
Definition py_len (v : json) : result nat :=
  match v with
  | JStr s => Ok (String.length s)
  | JArr l => Ok (length l)
  | JObj items => Ok (length items)
  | _ => Raise TypeError
  end.

(** [any(f(x) for x in l)]: stops at the first true element; an exception
    raised before that propagates. *)
Fixpoint py_any {A} (f : A -> result bool) (l : list A) : result bool :=
  match l with
  | [] => Ok false
  | x :: t =>
      match f x with
      | Raise e => Raise e
      | Ok true => Ok true
      | Ok false => py_any f t
      end
  end.

(** * The collector: [extracting/collecting.py] *)

Module Collecting.

Definition MIN_USER_COUNT : Z := 1.

(** The record log is a text file, the checkpoint file a JSON document;
    [None] is a file that does not exist. *)

Definition is_string_in_file (target_string : json) (file : option string) : result bool :=
  match file with
  | None => Ok false
  | Some text =>
      match target_string with
      | JStr s => Ok (contains s text)
      | _ => Raise TypeError
      end
  end.

Definition newline : string := str1 (chr 10).

Definition append_dict_to_file (data : list (string * json)) (file : string) : string :=
  match data with
  | [] => file
  | _ => file +:+ json_dumps (JObj data) +:+ newline
  end.

Definition load_checkpoint (checkpoint_file : option json) : result json :=
  match checkpoint_file with
  | Some data => py_get data "token" JNull
  | None => Ok JNull
  end.

Definition save_checkpoint (token : json) : option json :=
  Some (JObj [("token", token)]).

(** What a run reads and writes: the record log, the checkpoint file, and
    the page requests sent so far, oldest first. *)
Record store : Type := Store {
  log : string;
  checkpoint : option json;
  requests : list (option string)
}.

(** The constructor creates an empty record log when there is none. *)
Definition init (output_file : option string) (checkpoint_file : option json) : store :=
  {| log := match output_file with Some text => text | None => "" end;
     checkpoint := checkpoint_file;
     requests := [] |}.

(** Every query parameter of the request URL is fixed except [token], which
    is present when the cursor is truthy: a request is identified by it. *)
Definition build_request_url (token : json) : option string :=
  if truthy token then Some (py_str token) else None.

(** [int(raw.replace(',', '').replace('+', ''))]. *)
Definition user_count_of (raw : json) : result Z :=
  match raw with
  | JStr s => py_int (remove_char "+" (remove_char "," s))
  | _ => Raise AttributeError
  end.

Definition parse_extension_info (data : json)
  : result (json * Z * list (string * json)) :=
  let body :=
    extension_id ← subscript data 0;
    raw ← subscript data 23;
    user_count ← user_count_of raw;
    name ← subscript data 1;
    developer ← subscript data 2;
    description ← subscript data 6;
    primary_category ← subscript data 9;
    secondary_category ← subscript data 10;
    rating_score ← subscript data 12;
    star_count ← subscript data 22;
    url ← subscript data 11;
    Ok (extension_id, user_count,
        [("id", extension_id); ("name", name); ("developer", developer);
         ("description", description); ("primary_category", primary_category);
         ("secondary_category", secondary_category); ("rating_score", rating_score);
         ("star_count", star_count); ("user_count", raw); ("url", url)]) in
  match body with
  | Raise IndexError | Raise ValueError => Raise ValueError
  | r => r
  end.

(** The loop of [process_extensions] over the rows still to process. An
    exception leaves the log as the rows before it have made it. *)
Fixpoint process_rows (rows : list json) (new_entries : nat) (file : string)
  : result nat * string :=
  match rows with
  | [] => (Ok new_entries, file)
  | extension_data :: rest =>
      match parse_extension_info extension_data with
      | Raise e => (Raise e, file)
      | Ok (ext_id, user_count, extension_info) =>
          match is_string_in_file ext_id (Some file) with
          | Raise e => (Raise e, file)
          | Ok true => process_rows rest new_entries file
          | Ok false =>
              if MIN_USER_COUNT <=? user_count
              then process_rows rest (S new_entries) (append_dict_to_file extension_info file)
              else process_rows rest new_entries file
          end
      end
  end.

Definition process_extensions (extensions : json) (file : string) : result nat * string :=
  match py_iter extensions with
  | Raise e => (Raise e, file)
  | Ok rows => process_rows rows 0 file
  end.

(** How a run ends. *)
Inductive outcome : Type :=
| Exhausted          (* "No more extensions found" *)
| NoNewExtensions    (* "No new extensions added" *)
| FetchFailed        (* "Failed to fetch data": the exception was caught *)
| Uncaught (e : exn) (* an exception left [run] *).

Section Run.

(** The catalog: what [make_request] followed by [parse_response] gives for
    the [n]-th request of the store's history, [None] when either raises. *)
Variable fetch : nat -> option string -> option json.

Definition page_fields (response_data : json) : result (json * json) :=
  r0 ← subscript response_data 0;
  r1 ← subscript r0 1;
  extension_items ← subscript r1 1;
  cursor ← subscript r1 4;
  Ok (extension_items, if eq_str cursor "#@" then JNull else cursor).

Definition is_none (v : json) : bool :=
  match v with JNull => true | _ => false end.

(** The [while True] loop; [fuel] bounds the number of iterations and [None]
    means the bound was reached. *)
Fixpoint run_loop (fuel : nat) (next_page_token : json) (st : store)
  : option (outcome * store) :=
  match fuel with
  | O => None
  | S fuel' =>
      let url := build_request_url next_page_token in
      let st1 := {| log := log st; checkpoint := checkpoint st;
                    requests := requests st ++ [url] |} in
      match fetch (length (requests st)) url with
      | None => Some (FetchFailed, st1)
      | Some response_data =>
          match page_fields response_data with
          | Raise e => Some (Uncaught e, st1)
          | Ok (extension_items, next_page_token') =>
              if negb (truthy extension_items) then Some (Exhausted, st1)
              else
                match process_extensions extension_items (log st1) with
                | (Raise e, file) =>
                    Some (Uncaught e,
                          {| log := file; checkpoint := checkpoint st1;
                             requests := requests st1 |})
                | (Ok saved_this_page, file) =>
                    let st2 :=
                      {| log := file;
                         checkpoint :=
                           if truthy next_page_token'
                           then save_checkpoint next_page_token'
                           else checkpoint st1;
                         requests := requests st1 |} in
                    if (saved_this_page =? 0)%nat && is_none next_page_token'
                    then Some (NoNewExtensions, st2)
                    else run_loop fuel' next_page_token' st2
                end
          end
      end
  end.

Definition run (fuel : nat) (st : store) : option (outcome * store) :=
  match load_checkpoint (checkpoint st) with
  | Raise e => Some (Uncaught e, st)
  | Ok next_page_token => run_loop fuel next_page_token st
  end.

End Run.

(** ** The transport of the collector *)

Definition API_HOST : string := "https://chrome.google.com/webstore/ajax/item?".
Definition STORE_VERSION : string := "20210820".
Definition page_limit : Z := 200.

(** The characters [urllib.parse.quote] never escapes. *)
Definition always_safe (c : ascii) : bool :=
  let n := ord c in
  ((65 <=? n) && (n <=? 90) || (97 <=? n) && (n <=? 122) || (48 <=? n) && (n <=? 57)
   || (n =? 95) || (n =? 46) || (n =? 45) || (n =? 126))%nat.

Definition upper_hex_digit (n : nat) : ascii :=
  if (n <? 10)%nat then chr (48 + n) else chr (55 + n).

Definition percent (byte : nat) : string :=
  String "%" (String (upper_hex_digit (byte / 16)) (str1 (upper_hex_digit (byte mod 16)))).

(** The UTF-8 bytes of a code point below 256. *)
Definition utf8 (c : ascii) : list nat :=
  let n := ord c in
  if (n <? 128)%nat then [n] else [(192 + n / 64)%nat; (128 + n mod 64)%nat].

(** [urllib.parse.quote_plus] on one character. *)
Definition quote_plus_char (c : ascii) : string :=
  if always_safe c then str1 c
  else if Ascii.eqb c " " then "+"
  else foldr (fun byte acc => percent byte +:+ acc) "" (utf8 c).

Definition quote_plus (s : string) : string := concat_map quote_plus_char s.

(** [urllib.parse.urlencode] on text keys and values. *)
Definition urlencode (query : list (string * string)) : string :=
  join "&" (map (fun kv => quote_plus (fst kv) +:+ "=" +:+ quote_plus (snd kv)) query).

Definition query_params : list (string * string) :=
  [("hl", "en");
   ("pv", STORE_VERSION);
   ("mce", "atf,pii,rtr,rlb,gtc,hcn,svp,wtd,hap,nma,dpb,utb,hbh,ebo,hqb,ifm,"
           +:+ "ndd,ntd,oiw,uga,c3d,ncr,hns,ctm,ac,hot,hfi,dtp,mac,bga,pon,fcf,rai,hbs,rma,"
           +:+ "ibg,pot,evt,hib");
   ("requestedCounts", "infiniteWall:" +:+ string_of_Z page_limit +:+ ":0:false");
   ("category", "extensions");
   ("rt", "j")].

(** The text [build_request_url] returns, by the token it puts in the
    query: [request_url (build_request_url token)] is the URL for [token]. *)
Definition request_url (request : option string) : string :=
  API_HOST
  +:+ urlencode (query_params
                 ++ match request with Some token => [("token", token)] | None => [] end).

(** What [requests.post] gives: an exception, or a response. *)
Inductive reply : Type :=
| NoReply
| Reply (status_code : nat) (text : string).

(** [make_request]: the text of the response; [None] when [requests.post]
    raises or the status is not 200. *)
Definition make_request (post : string -> reply) (url : string) : option string :=
  match post url with
  | NoReply => None
  | Reply status_code text => if (status_code =? 200)%nat then Some text else None
  end.

(** [s.lstrip(chars)]. *)
Fixpoint lstrip_chars (set : string) (s : string) : string :=
  match s with
  | "" => ""
  | String a t => if contains (str1 a) set then lstrip_chars set t else s
  end.

Definition anti_csrf : string := ")]}'" +:+ newline.

(** [parse_response], [json.loads] being a parameter; [None] when it
    raises. *)
Definition parse_response (json_loads : string -> option json) (text : string)
  : option json :=
  json_loads (lstrip_chars anti_csrf text).

(** The catalog as [run] meets it through the transport: [post n] answers
    the [n]-th request. *)
Definition fetch_through (post : nat -> string -> reply)
    (json_loads : string -> option json) (n : nat) (request : option string)
  : option json :=
  match make_request (post n) (request_url request) with
  | Some text => parse_response json_loads text
  | None => None
  end.

End Collecting.

(** * The downloader: [extracting/download.py] *)

Module Download.

Definition DOWNLOAD_DIR : string := "./data/extension/".
Definition CHROME_VERSION : string := "121.0.6167".
Definition NACL_ARCH : string := "x86-64".

(** [os.path.join] of two components. *)
Definition path_join (a b : string) : string :=
  if String.prefix "/" b then b
  else if String.eqb a "" || endswith a "/" then a +:+ b
  else a +:+ "/" +:+ b.

Definition build_crx_download_url (extension_id : json) : string :=
  "https://clients2.google.com/service/update2/crx" +:+ "?"
  +:+ "response=redirect&prodversion=" +:+ CHROME_VERSION
  +:+ "&acceptformat=crx2,crx3&x=id%3D" +:+ py_str extension_id +:+ "%26uc"
  +:+ "&nacl_arch=" +:+ NACL_ARCH.

(** What [requests.get] gives: an exception, or the final response. *)
Inductive response : Type :=
| NoResponse
| Response (status_code : nat) (content : list Byte.byte).

(** Why a download failed: [requests.get] raised, [raise_for_status] raised
    (it does for the statuses 400 to 599), or the archive could not be
    opened for writing or the write raised. *)
Inductive failure : Type :=
| RequestException
| HTTPError (status_code : nat)
| OSError.

Inductive status : Type :=
| Downloaded
| Failed (e : failure).

(** What a run does besides writing files. *)
Inductive event : Type :=
| PrintTotal (total : nat)
| Get (url : string)
| SetPostfix (ext_id : json) (st : status)
| Sleep.

Record state : Type := State {
  files : gmap string (list Byte.byte);
  trace : list event
}.

Definition emit (evs : list event) (st : state) : state :=
  {| files := files st; trace := trace st ++ evs |}.

Definition is_get (e : event) : bool :=
  match e with Get _ => true | _ => false end.

Definition network_calls (t : list event) : list event := List.filter is_get t.

Definition isfile (path : string) (st : state) : bool :=
  bool_decide (is_Some (files st !! path)).

Section Downloader.

(** [json.loads] on one line of the list file: the value, or the exception
    it raises. [JSONDecodeError] is the one [load_extension_list] catches;
    a [ValueError] that is not a [JSONDecodeError] (an integer beyond the
    digit limit) and [RecursionError] are not. *)
Variable json_loads : string -> result json.

(** The answer to the [n]-th network call of the trace. *)
Variable http_get : nat -> string -> response.

(** Whether [open(path, 'wb')] succeeds; when it does the file exists. *)
Variable open_wb : string -> bool.

(** [file.write(content)] on the archive just opened: [None] when it
    returns, and the bytes the file is left with when it raises. *)
Variable file_write : string -> list Byte.byte -> option (list Byte.byte).

Fixpoint load_lines (lines : list string) (extensions : list json)
  : result (list json) :=
  match lines with
  | [] => Ok extensions
  | line :: rest =>
      match json_loads line with
      | Ok v => load_lines rest (extensions ++ [v])
      | Raise JSONDecodeError => load_lines rest extensions
      | Raise e => Raise e
      end
  end.

(** The list file is the sequence of its lines; [None] when it is absent. *)
Definition load_extension_list (file : option (list string)) : result (list json) :=
  match file with
  | None => Raise FileNotFoundError
  | Some lines => load_lines lines []
  end.

Definition download_extension (extension_id : json) (output_path : string) (st : state)
  : option failure * state :=
  let url := build_crx_download_url extension_id in
  let st1 := emit [Get url] st in
  match http_get (length (network_calls (trace st))) url with
  | NoResponse => (Some RequestException, st1)
  | Response status_code content =>
      if ((400 <=? status_code) && (status_code <? 600))%nat
      then (Some (HTTPError status_code), st1)
      else if open_wb output_path
      then
        match file_write output_path content with
        | None =>
            (None, {| files := <[output_path := content]> (files st1); trace := trace st1 |})
        | Some partial =>
            (Some OSError,
             {| files := <[output_path := partial]> (files st1); trace := trace st1 |})
        end
      else (Some OSError, st1)
  end.

Definition output_file_of (ext_id : json) : string :=
  path_join DOWNLOAD_DIR (py_str ext_id +:+ ".crx").

(** The loop of [main] over the records still to process. *)
Fixpoint download_all (extensions : list json) (st : state) : result unit * state :=
  match extensions with
  | [] => (Ok tt, st)
  | ext :: rest =>
      match py_get ext "id" JNull with
      | Raise e => (Raise e, st)
      | Ok ext_id =>
          if negb (truthy ext_id) then download_all rest st
          else
            let output_file := output_file_of ext_id in
            if isfile output_file st then download_all rest st
            else
              match download_extension ext_id output_file st with
              | (None, st') =>
                  download_all rest (emit [SetPostfix ext_id Downloaded; Sleep] st')
              | (Some e, st') =>
                  download_all rest (emit [SetPostfix ext_id (Failed e)] st')
              end
      end
  end.

Definition main (list_file : option (list string)) (st : state) : result unit * state :=
  match load_extension_list list_file with
  | Raise e => (Raise e, st)
  | Ok extensions => download_all extensions (emit [PrintTotal (length extensions)] st)
  end.

End Downloader.

End Download.

(** * The classifier: [extracting/filtering.py] *)

Module Filtering.

(** ** The capability predicate *)

Definition res_matches (res : json) : result bool :=
  match res with
  | JStr s => Ok (endswith s "html" || endswith s "js")
  | _ => Raise AttributeError
  end.

Definition resource_matches (resource : json) : result bool :=
  if is_dict resource then
    resources ← py_get resource "resources" (JArr []);
    l ← py_iter resources;
    py_any res_matches l
  else Ok false.

Definition web_accessible (manifest : json) : result bool :=
  entries ← py_get manifest "web_accessible_resources" (JArr []);
  l ← py_iter entries;
  py_any resource_matches l.

Definition content_scripts (manifest : json) : result bool :=
  scripts ← py_get manifest "content_scripts" (JArr []);
  l ← py_iter scripts;
  py_any (py_in "js") l.

Definition permissions_flags : list string := ["://"; "<all_urls>"; "webRequest"].

Definition has_permissions (manifest : json) : result bool :=
  permissions ← py_get manifest "permissions" (JArr []);
  Ok (existsb (fun flag => contains flag (py_str permissions)) permissions_flags).

Definition has_action (manifest : json) : result bool :=
  browser_action ← py_in "browser_action" manifest;
  declared ← (if browser_action : bool then Ok true else py_in "action" manifest);
  if declared : bool then
    fallback ← py_get manifest "browser_action" JNull;
    action ← py_get manifest "action" fallback;
    if truthy action then
      has_popup ← py_in "default_popup" action;
      if has_popup : bool then
        popup ← subscript_key action "default_popup";
        n ← py_len popup;
        Ok (0 <? n)%nat
      else Ok false
    else Ok false
  else Ok false.

Definition is_network_related (manifest : json) : result bool :=
  web_accessible ← web_accessible manifest;
  host_permissions ← py_in "host_permissions" manifest;
  chrome_url_overrides ← py_in "chrome_url_overrides" manifest;
  content_scripts ← content_scripts manifest;
  has_permissions ← has_permissions manifest;
  has_action ← has_action manifest;
  optional_permissions ← py_in "optional_permissions" manifest;
  Ok (web_accessible || has_permissions || host_permissions
      || content_scripts || has_action || optional_permissions
      || chrome_url_overrides).

(** ** Stripping *)

Definition keys_to_remove : list string :=
  ["update_url"; "name"; "description"; "short_name"; "icons"; "version";
   "default_locale"].

(** [d.pop(key, None)] on the items of a dict. *)
Definition dict_pop (key : string) (items : list (string * json)) : list (string * json) :=
  filter (fun kv => kv.1 ≠ key) items.

(** The descriptor after the in-place removal. A list has [pop], with one
    argument only; the other values have none. *)
Definition clean_manifest (manifest : json) : result json :=
  match manifest with
  | JObj items => Ok (JObj (foldl (fun acc key => dict_pop key acc) items keys_to_remove))
  | JArr _ => Raise TypeError
  | _ => Raise AttributeError
  end.

(** ** The disk *)

(** What extracting one member of an archive does: the member is read
    completely, or reading it raises. When it raises the directory of the
    target exists already; the target file exists, holding what was copied
    before the exception, only when the member could be opened (a check sum
    that fails, a stream that does not inflate), and not when opening it
    raised (a bad local header, an unsupported method, a password). *)
Inductive member : Type :=
| Stored (text : string)
| Broken (e : exn) (written : option string).

(** A file of the download directory: one on which [zipfile.ZipFile]
    raises ([BadZipFile] for a file that is no archive), or an archive with
    its members in the order of its directory. *)
Inductive package : Type :=
| Unopened (e : exn)
| Zip (members : list (string * member)).

(** The download directory lists file names with their packages, in the
    order [os.listdir] gives them; the source directory holds one tree per
    directory name, a tree being its files by relative path. The classifier
    also looks at [manifest.json] in the working directory. *)
Record disk : Type := Disk {
  downloads : list (string * package);
  source : gmap string (gmap string string);
  cwd_manifest : option string
}.

Fixpoint after_dot (s : string) : option string :=
  match s with
  | "" => None
  | String a t => if Ascii.eqb a "." then Some t else after_dot t
  end.

Fixpoint all_dots (s : string) : bool :=
  match s with
  | "" => true
  | String a t => Ascii.eqb a "." && all_dots t
  end.

(** [os.path.splitext(name)[0]] for a file name without directory part. *)
Definition splitext_root (name : string) : string :=
  match after_dot (string_rev name) with
  | Some p => if all_dots p then name else string_rev p
  | None => name
  end.

Definition set_source (d : disk) (s : gmap string (gmap string string)) : disk :=
  {| downloads := downloads d; source := s; cwd_manifest := cwd_manifest d |}.

Definition tree_of (d : disk) (ext_id : string) : gmap string string :=
  match source d !! ext_id with Some t => t | None => ∅ end.

(** [os.makedirs] of the directory of [ext_id] when it does not exist. *)
Definition makedirs (ext_id : string) (d : disk) : disk :=
  set_source d (<[ext_id := tree_of d ext_id]> (source d)).

(** A file of the directory of [ext_id] opened for writing and left with
    [text]. *)
Definition write_file (ext_id path text : string) (d : disk) : disk :=
  set_source d (<[ext_id := <[path := text]> (tree_of d ext_id)]> (source d)).

(** [ZipFile.getinfo]: of the members of that name, the last one. *)
Fixpoint getinfo (name : string) (members : list (string * member)) : option member :=
  match members with
  | [] => None
  | (n, m) :: rest =>
      match getinfo name rest with
      | Some m' => Some m'
      | None => if String.eqb n name then Some m else None
      end
  end.

(** The components of a path, between its slashes. *)
Fixpoint split_slash (s : string) : list string :=
  match s with
  | "" => [""]
  | String a t =>
      if Ascii.eqb a "/" then "" :: split_slash t
      else
        match split_slash t with
        | c :: cs => String a c :: cs
        | [] => [String a ""]
        end
  end.

(** The path, relative to the directory of the extraction, at which
    [zipfile] puts the member [name]: the empty components and the
    components [.] and [..] are dropped. *)
Definition arcname (name : string) : string :=
  join "/" (List.filter
              (fun c => negb (String.eqb c "" || String.eqb c "." || String.eqb c ".."))
              (split_slash name)).

(** [ZipInfo.is_dir]. *)
Definition is_dir (name : string) : bool := endswith name "/".

(** [ZipFile._extract_member] of the member [name] into the directory of
    [ext_id]: the exception that leaves it, if any, and the disk. A name
    the archive does not have raises before anything is created. A member
    that is a directory creates directories only; a tree holds files, so
    only the directory of [ext_id] shows. A member whose target is the
    directory of [ext_id] itself cannot be opened for writing (when that
    directory does not exist yet a file takes its place, which the disk
    does not represent, as it does not represent a file and a directory
    of the same path inside a tree). *)
Definition extract_member (ext_id name : string) (members : list (string * member))
    (d : disk) : option exn * disk :=
  match getinfo name members with
  | None => (Some KeyError, d)
  | Some m =>
      if is_dir name then (None, makedirs ext_id d)
      else if String.eqb (arcname name) "" then
        match m with
        | Broken e None => (Some e, d)
        | _ => (Some IsADirectoryError, d)
        end
      else
        match m with
        | Stored text => (None, write_file ext_id (arcname name) text d)
        | Broken e None => (Some e, makedirs ext_id d)
        | Broken e (Some written) => (Some e, write_file ext_id (arcname name) written d)
        end
  end.

(** [ZipFile.extractall]: the names of the archive, one after the other,
    until one raises. *)
Fixpoint extract_names (ext_id : string) (names : list string)
    (members : list (string * member)) (d : disk) : option exn * disk :=
  match names with
  | [] => (None, d)
  | name :: rest =>
      match extract_member ext_id name members d with
      | (None, d1) => extract_names ext_id rest members d1
      | (Some e, d1) => (Some e, d1)
      end
  end.

Definition extractall (ext_id : string) (members : list (string * member)) (d : disk)
  : option exn * disk :=
  extract_names ext_id (map fst members) members d.

(** An [except] clause: the exceptions of [caught] are printed and the
    function returns; the others leave it. *)
Definition swallow (caught : exn -> bool) (r : option exn * disk) : option exn * disk :=
  match r with
  | (Some e, d) => if caught e then (None, d) else (Some e, d)
  | (None, d) => (None, d)
  end.

Definition caught_by_unzip_manifest_only (e : exn) : bool :=
  match e with
  | UnicodeEncodeError | KeyError | BadZipFile => true
  | _ => false
  end.

Definition caught_by_unzip_all_files (e : exn) : bool :=
  match e with
  | UnicodeEncodeError | BadZipFile => true
  | _ => false
  end.

(** [unzip_manifest_only] on the file [name] of the download directory:
    the exception that leaves it, if any, and the disk. *)
Definition unzip_manifest_only (name : string) (p : package) (d : disk)
  : option exn * disk :=
  let ext_id := splitext_root name in
  if bool_decide (is_Some (tree_of d ext_id !! "manifest.json")) then (None, d)
  else
    swallow caught_by_unzip_manifest_only
      match p with
      | Unopened e => (Some e, d)
      | Zip members => extract_member ext_id "manifest.json" members d
      end.

(** [unzip_all_files] with [force=True]: the members are extracted one
    after the other over what the directory holds, until one raises; what
    was written before stays. *)
Definition unzip_all_files (name : string) (p : package) (d : disk) : option exn * disk :=
  let ext_id := splitext_root name in
  swallow caught_by_unzip_all_files
    match p with
    | Unopened e => (Some e, d)
    | Zip members => extractall ext_id members d
    end.

Definition list_extension_ids (d : disk) : list string :=
  merge_sort String.le
    (map splitext_root (List.filter (fun name => endswith name ".crx") (map fst (downloads d)))).

(** [find_extracted_dir_by_id]: the directory name under the source
    directory, [None] for the empty path. *)
Definition find_extracted_dir_by_id (ext_id : string) (d : disk) : option string :=
  if bool_decide (is_Some (source d !! ext_id)) then Some ext_id else None.

Fixpoint assoc_lookup {A} (k : string) (l : list (string * A)) : option A :=
  match l with
  | [] => None
  | (k', v) :: t => if String.eqb k k' then Some v else assoc_lookup k t
  end.

Definition find_crx_file_by_id (ext_id : string) (d : disk) : option (string * package) :=
  let name := ext_id +:+ ".crx" in
  match assoc_lookup name (downloads d) with
  | Some p => Some (name, p)
  | None => None
  end.

(** The descriptor file [identify_network_related_extensions] opens for an
    id, when there is one. *)
Definition manifest_file (ext_id : string) (d : disk) : option string :=
  match find_extracted_dir_by_id ext_id d with
  | Some dir => tree_of d dir !! "manifest.json"
  | None => cwd_manifest d
  end.

(** Step 1 of [main] over the files still to look at: it stops at the
    first exception that leaves [unzip_manifest_only]. *)
Fixpoint extract_manifests_from (files : list (string * package)) (d : disk)
  : option exn * disk :=
  match files with
  | [] => (None, d)
  | file :: rest =>
      if endswith file.1 ".crx" then
        match unzip_manifest_only file.1 file.2 d with
        | (None, d1) => extract_manifests_from rest d1
        | (Some e, d1) => (Some e, d1)
        end
      else extract_manifests_from rest d
  end.

Definition extract_manifests (d : disk) : option exn * disk :=
  extract_manifests_from (downloads d) d.

(** Step 3 of [main] over the ids still to extract. *)
Fixpoint extract_selected (network_ext_ids : list string) (d : disk) : option exn * disk :=
  match network_ext_ids with
  | [] => (None, d)
  | ext_id :: rest =>
      match find_crx_file_by_id ext_id d with
      | Some (name, p) =>
          match unzip_all_files name p d with
          | (None, d1) => extract_selected rest d1
          | (Some e, d1) => (Some e, d1)
          end
      | None => extract_selected rest d
      end
  end.

Section Classifier.

(** [json.load] on the text of a descriptor file; [None] when it raises.
    Nothing catches the exception, whichever it is; the loop gives it as
    [JSONDecodeError]. *)
Variable json_load : string -> option json.

(** The loop of [identify_network_related_extensions]. Besides the set of
    network-related ids it gives, for every id whose descriptor was loaded,
    the descriptor object as the iteration leaves it in memory. *)
Fixpoint identify_loop (d : disk) (ext_ids : list string)
    (network_exts : gset string) (memory : list (string * json))
  : result (gset string * list (string * json)) :=
  match ext_ids with
  | [] => Ok (network_exts, memory)
  | ext_id :: rest =>
      match manifest_file ext_id d with
      | None => identify_loop d rest network_exts memory
      | Some text =>
          match json_load text with
          | None => Raise JSONDecodeError
          | Some manifest =>
              match is_network_related manifest with
              | Raise e => Raise e
              | Ok true =>
                  identify_loop d rest ({[ext_id]} ∪ network_exts)
                                (memory ++ [(ext_id, manifest)])
              | Ok false =>
                  match clean_manifest manifest with
                  | Raise e => Raise e
                  | Ok cleaned =>
                      identify_loop d rest network_exts (memory ++ [(ext_id, cleaned)])
                  end
              end
          end
      end
  end.

Definition identify_network_related_extensions (d : disk)
  : result (list string * list (string * json)) :=
  match identify_loop d (list_extension_ids d) ∅ [] with
  | Raise e => Raise e
  | Ok (network_exts, memory) => Ok (merge_sort String.le (elements network_exts), memory)
  end.

Definition main (d : disk) : result unit * disk :=
  match extract_manifests d with
  | (Some e, d1) => (Raise e, d1)
  | (None, d1) =>
      match identify_network_related_extensions d1 with
      | Raise e => (Raise e, d1)
      | Ok (network_ext_ids, _) =>
          match extract_selected network_ext_ids d1 with
          | (Some e, d2) => (Raise e, d2)
          | (None, d2) => (Ok tt, d2)
          end
      end
  end.

End Classifier.

(** [unzip_all_files] with its [force] parameter: without it an existing
    directory is left alone. *)
Definition unzip_all_files_force (force : bool) (name : string) (p : package) (d : disk)
  : option exn * disk :=
  if bool_decide (is_Some (source d !! splitext_root name)) && negb force then (None, d)
  else unzip_all_files name p d.

End Filtering.

(** * Vocabulary of the properties *)

(** ** User counts as text *)

Definition is_digit (c : ascii) : bool := bool_decide (is_Some (digit_of c)).

(** The number the decimal digits of [s] spell, other characters skipped. *)
Fixpoint decimal (s : string) (acc : Z) : Z :=
  match s with
  | "" => acc
  | String a t =>
      match digit_of a with
      | Some d => decimal t (10 * acc + d)
      | None => decimal t acc
      end
  end.

Fixpoint digit_count (s : string) : nat :=
  match s with
  | "" => 0
  | String a t => (if is_digit a then 1 else 0) + digit_count t
  end.

(** Only digits, thousands separators and plus signs. *)
Fixpoint count_chars (s : string) : bool :=
  match s with
  | "" => true
  | String a t => (is_digit a || Ascii.eqb a "," || Ascii.eqb a "+") && count_chars t
  end.

Fixpoint all_digits (s : string) : bool :=
  match s with
  | "" => true
  | String a t => is_digit a && all_digits t
  end.

(** ** Record ids and the record log *)

(** The characters [json.dumps] writes as they are. *)
Definition plain_char (c : ascii) : bool :=
  ((32 <=? ord c) && (ord c <=? 126))%nat
  && negb (Ascii.eqb c quote) && negb (Ascii.eqb c backslash).

Fixpoint plain (s : string) : bool :=
  match s with
  | "" => true
  | String a t => plain_char a && plain t
  end.

(** The row's id is text made of plain characters. *)
Definition row_id_plain (row : json) : bool :=
  match subscript row 0 with
  | Ok (JStr s) => plain s
  | _ => false
  end.

(** The text of a log made of the given records, one per line. *)
Fixpoint record_lines (records : list (list (string * json))) : string :=
  match records with
  | [] => ""
  | r :: t => json_dumps (JObj r) +:+ Collecting.newline +:+ record_lines t
  end.

(** The row parses and its user count is below the threshold. *)
Definition below_threshold (row : json) : bool :=
  match Collecting.parse_extension_info row with
  | Ok (_, user_count, _) => user_count <? Collecting.MIN_USER_COUNT
  | Raise _ => false
  end.

(** The records of the rows that parse and reach the threshold, in the
    order of the rows. *)
Fixpoint admitted (rows : list json) : list (list (string * json)) :=
  match rows with
  | [] => []
  | row :: rest =>
      match Collecting.parse_extension_info row with
      | Ok (_, user_count, extension_info) =>
          if Collecting.MIN_USER_COUNT <=? user_count
          then extension_info :: admitted rest
          else admitted rest
      | Raise _ => admitted rest
      end
  end.

(** The rows are well formed and each is new when its turn comes: the row
    parses, its id is a text, and that text occurs nowhere in the log made
    of [file] and of the records of the rows before it. *)
Fixpoint new_rows (rows : list json) (file : string) : bool :=
  match rows with
  | [] => true
  | row :: rest =>
      match Collecting.parse_extension_info row with
      | Ok (JStr s, _, _) =>
          negb (contains s file) && new_rows rest (file +:+ record_lines (admitted [row]))
      | _ => false
      end
  end.

(** ** The list file of the downloader *)




(** ** A catalog to run the collector on *)

Module Fixture.

(** A catalog row with the fields the collector reads. *)
Definition row (id name users : string) : json :=
  JArr ([JStr id; JStr name; JStr "dev"; JNull; JNull; JNull; JStr "desc"; JNull;
         JNull; JStr "tools"; JStr "fun"; JStr "https://example.test/"; JFloat "4.5"]
        ++ replicate 9 JNull ++ [JStr "12"; JStr users]).

(** The record the collector writes for such a row. *)
Definition record (id name users : string) : list (string * json) :=
  [("id", JStr id); ("name", JStr name); ("developer", JStr "dev");
   ("description", JStr "desc"); ("primary_category", JStr "tools");
   ("secondary_category", JStr "fun"); ("rating_score", JFloat "4.5");
   ("star_count", JStr "12"); ("user_count", JStr users);
   ("url", JStr "https://example.test/")].

(** A decoded response: the rows and the next cursor at their offsets. *)
Definition catalog_page (rows : list json) (cursor : json) : json :=
  JArr [JArr [JNull; JArr [JNull; JArr rows; JNull; JNull; cursor]]].

(** Two pages: three rows, one of them below the threshold, then one new
    row and the sentinel. *)
Definition page1 : list json :=
  [row "aaa" "A" "10,000+"; row "bbb" "B" "0"; row "ccc" "C" "5"].
Definition page2 : list json := [row "ddd" "D" "1"].

Definition two_pages (n : nat) (request : option string) : option json :=
  match request with
  | None => Some (catalog_page page1 (JStr "tok1"))
  | Some token =>
      if String.eqb token "tok1" then Some (catalog_page page2 (JStr "#@")) else None
  end.

(** A page whose second row is too short to parse. *)
Definition broken_page : list json :=
  [row "aaa" "A" "7"; JArr [JStr "bbb"]; row "ccc" "C" "5"].

Definition one_broken_page (n : nat) (request : option string) : option json :=
  Some (catalog_page broken_page (JStr "tok1")).

(** Two one-row pages; the third request meets a transport error. *)
Definition failing_third (n : nat) (request : option string) : option json :=
  if (n =? 2)%nat then None
  else
    match request with
    | None => Some (catalog_page [row "aaa" "A" "7"] (JStr "tok1"))
    | Some _ => Some (catalog_page [row "bbb" "B" "5"] (JStr "#@"))
    end.

(** An id with a character outside ASCII. *)
Definition accented_id : string := "caf" +:+ str1 (chr 233).

End Fixture.

(** ** A record list and a network to run the downloader on *)

Module Served.

Definition entry (id : string) : json := JObj (Fixture.record id "A" "7").

(** The line the collector writes for a record. *)
Definition line_of (v : json) : string := json_dumps v +:+ Collecting.newline.

Definition nameless : json := JObj [("name", JStr "B")].

Definition list_file : list string :=
  [line_of (entry "aaa"); "not json"; line_of nameless; line_of (entry "ccc")].

(** The decoder on the lines of [list_file], and on a line that holds a
    list and one that holds an integer of five thousand digits. *)
Definition decode (line : string) : result json :=
  if String.eqb line (line_of (entry "aaa")) then Ok (entry "aaa")
  else if String.eqb line (line_of nameless) then Ok nameless
  else if String.eqb line (line_of (entry "ccc")) then Ok (entry "ccc")
  else if String.eqb line "[1]" then Ok (JArr [JInt 1])
  else if String.eqb line "9...9" then Raise ValueError
  else Raise JSONDecodeError.

Definition nothing : Download.state := {| Download.files := ∅; Download.trace := [] |}.

(** A disk that already holds the archive of ["aaa"]. *)
Definition has_aaa : Download.state :=
  {| Download.files := {[ Download.output_file_of (JStr "aaa") := [Byte.x50; Byte.x4b] ]};
     Download.trace := [] |}.

(** Networks: one that answers 304 with an empty body, one that answers
    404, one that cannot be reached. *)
Definition not_modified (n : nat) (url : string) : Download.response :=
  Download.Response 304 [].
Definition not_found (n : nat) (url : string) : Download.response :=
  Download.Response 404 [].
Definition unreachable (n : nat) (url : string) : Download.response :=
  Download.NoResponse.

Definition writable (path : string) : bool := true.

(** A disk on which every write returns, and one that is full: the write
    raises and leaves the file empty. *)
Definition flushes (path : string) (content : list Byte.byte) : option (list Byte.byte) :=
  None.
Definition full (path : string) (content : list Byte.byte) : option (list Byte.byte) :=
  Some [].

End Served.

(** ** Descriptors *)

(** Some entry of [web_accessible_resources] that is an object lists, under
    [resources], a text ending in one of the suffixes. *)
Definition lists_resource_ending (suffixes : list string) (manifest : json) : Prop :=
  ∃ declared entries resource listed resources s suffix,
    py_get manifest "web_accessible_resources" (JArr []) = Ok declared
    ∧ py_iter declared = Ok entries
    ∧ resource ∈ entries ∧ is_dict resource = true
    ∧ py_get resource "resources" (JArr []) = Ok listed
    ∧ py_iter listed = Ok resources
    ∧ JStr s ∈ resources
    ∧ suffix ∈ suffixes ∧ endswith s suffix = true.

(** The six disjuncts of the capability predicate other than the first
    evaluate to false. *)
Definition other_disjuncts_false (manifest : json) : Prop :=
  Filtering.has_permissions manifest = Ok false
  ∧ py_in "host_permissions" manifest = Ok false
  ∧ Filtering.content_scripts manifest = Ok false
  ∧ Filtering.has_action manifest = Ok false
  ∧ py_in "optional_permissions" manifest = Ok false
  ∧ py_in "chrome_url_overrides" manifest = Ok false.

Definition is_text (v : json) : bool :=
  match v with JStr _ => true | _ => false end.

(** Every entry that is an object lists its resources as a list of texts. *)
Definition typed_entry (resource : json) : bool :=
  match resource with
  | JObj items =>
      match dict_lookup "resources" items with
      | Some (JArr l) => forallb is_text l
      | Some _ => false
      | None => true
      end
  | _ => true
  end.

Definition typed_resources (manifest : json) : bool :=
  match manifest with
  | JObj items =>
      match dict_lookup "web_accessible_resources" items with
      | Some (JArr entries) => forallb typed_entry entries
      | Some _ => false
      | None => true
      end
  | _ => false
  end.

(** ** Changes of the disk *)

(** From [d] to [d'] the download directory and the working directory are
    as they were, and so is every directory under the source directory
    other than the one of [ext_id]. *)
Definition touches_only (ext_id : string) (d d' : Filtering.disk) : Prop :=
  Filtering.downloads d' = Filtering.downloads d
  ∧ Filtering.cwd_manifest d' = Filtering.cwd_manifest d
  ∧ ∀ x, x ≠ ext_id → Filtering.source d' !! x = Filtering.source d !! x.

Module Descriptors.

(** A resource path that ends in "js" without being a script. *)
Definition nojs : json :=
  JObj [("name", JStr "x"); ("version", JStr "1.0");
        ("web_accessible_resources", JArr [JObj [("resources", JArr [JStr "nojs"])]])].

Definition page_script : json :=
  JObj [("name", JStr "x");
        ("web_accessible_resources",
         JArr [JObj [("resources", JArr [JStr "img/logo.png"; JStr "inject.js"])]])].

(** No capability signal at all. *)
Definition plain_theme : json :=
  JObj [("manifest_version", JInt 3); ("name", JStr "Theme"); ("version", JStr "1.0");
        ("description", JStr "colours"); ("icons", JObj [("16", JStr "i.png")]);
        ("default_locale", JStr "en"); ("short_name", JStr "T");
        ("update_url", JStr "https://example.test/u"); ("theme", JObj [])].

End Descriptors.

(** ** A download directory to run the classifier on *)

Module Shelf.

(** The descriptor texts and their decoder. *)
Definition decode (text : string) : option json :=
  if String.eqb text "theme" then Some Descriptors.plain_theme
  else if String.eqb text "script" then Some Descriptors.page_script
  else None.

Definition disk0 : Filtering.disk :=
  {| Filtering.downloads :=
       [("theme.crx",
         Filtering.Zip [("manifest.json", Filtering.Stored "theme");
                        ("bg.png", Filtering.Stored "pixels")]);
        ("script.crx",
         Filtering.Zip [("manifest.json", Filtering.Stored "script");
                        ("inject.js", Filtering.Stored "code")])];
     Filtering.source := ∅;
     Filtering.cwd_manifest := None |}.

End Shelf.

(** ** Reading a request URL back *)

Definition hex_value (c : ascii) : nat :=
  let n := ord c in
  if ((48 <=? n) && (n <=? 57))%nat then (n - 48)%nat
  else if ((65 <=? n) && (n <=? 70))%nat then (n - 55)%nat
  else 0%nat.

(** The bytes a percent-encoded text stands for. *)
Fixpoint unquote_bytes (s : string) : list nat :=
  match s with
  | "" => []
  | String a t =>
      if Ascii.eqb a "%" then
        match t with
        | String h (String l t') => (16 * hex_value h + hex_value l)%nat :: unquote_bytes t'
        | _ => [ord a]
        end
      else (if Ascii.eqb a "+" then 32%nat else ord a) :: unquote_bytes t
  end.

(** The text of UTF-8 bytes that encode code points below 256. *)
Fixpoint utf8_decode (bytes : list nat) : string :=
  match bytes with
  | [] => ""
  | b :: rest =>
      if (b <? 128)%nat then String (chr b) (utf8_decode rest)
      else
        match rest with
        | b2 :: rest' => String (chr ((b - 192) * 64 + (b2 - 128))) (utf8_decode rest')
        | [] => ""
        end
  end.

Definition unquote_plus (s : string) : string := utf8_decode (unquote_bytes s).

(** ** Rows the collector can process *)

(** The row parses and its id is text. *)
Definition row_ok (row : json) : bool :=
  match Collecting.parse_extension_info row with
  | Ok (JStr _, _, _) => true
  | _ => false
  end.

(** A catalog that answers every request with the same one-row page and the
    same cursor. *)
Definition endless (n : nat) (request : option string) : option json :=
  Some (Fixture.catalog_page [Fixture.row "aaa" "A" "7"] (JStr "again")).

(** The collector's transport on the two pages of [Fixture.two_pages]: the
    body is recognised by its length. *)
Module Wire.

Definition body1 : string := "[page one]".

Definition decode (text : string) : option json :=
  if String.eqb text body1
  then Some (Fixture.catalog_page Fixture.page1 (JStr "tok1"))
  else None.

(** A server that redirects every request. *)
Definition moved (n : nat) (url : string) : Collecting.reply :=
  Collecting.Reply 302 "".

End Wire.

(** ** The trace of a download run *)

(** The events are attempts, one after the other: a request followed by the
    report of a failure, or a request followed by the report of the
    download and the delay. *)
Fixpoint paced (evs : list Download.event) : bool :=
  match evs with
  | [] => true
  | Download.Get _ :: Download.SetPostfix _ Download.Downloaded :: Download.Sleep :: t =>
      paced t
  | Download.Get _ :: Download.SetPostfix _ (Download.Failed _) :: t => paced t
  | _ => false
  end.

(** A network on which every download succeeds. *)
Definition always_ok (n : nat) (url : string) : Download.response :=
  Download.Response 200 [Byte.x50; Byte.x4b].

(** ** The keys the capability predicate reads *)

Definition capability_keys : list string :=
  ["web_accessible_resources"; "host_permissions"; "chrome_url_overrides";
   "content_scripts"; "permissions"; "browser_action"; "action";
   "optional_permissions"].

(** ** The ids the classifier selects *)

(** The descriptor file of [ext_id] is read, decodes, and is classified
    network-related. *)
Definition selected (json_load : string → option json) (d : Filtering.disk)
    (ext_id : string) : Prop :=
  ∃ text manifest,
    Filtering.manifest_file ext_id d = Some text ∧ json_load text = Some manifest
    ∧ Filtering.is_network_related manifest = Ok true.

(** ** Download directories with a damaged package *)

Module Damaged.

(** A file that is not an archive, and a descriptor in the working
    directory. *)
Definition stray : Filtering.disk :=
  {| Filtering.downloads := [("broken.crx", Filtering.Unopened BadZipFile)];
     Filtering.source := ∅;
     Filtering.cwd_manifest := Some "script" |}.

(** A package whose descriptor does not decode, listed after a
    network-related one. *)
Definition garbled : Filtering.disk :=
  {| Filtering.downloads :=
       [("script.crx",
         Filtering.Zip [("manifest.json", Filtering.Stored "script");
                        ("inject.js", Filtering.Stored "code")]);
        ("zzz.crx", Filtering.Zip [("manifest.json", Filtering.Stored "garbage")])];
     Filtering.source := ∅;
     Filtering.cwd_manifest := None |}.

(** A network-related package whose second member has a check sum that
    fails once the member is copied, and a third member after it. *)
Definition torn : Filtering.disk :=
  {| Filtering.downloads :=
       [("script.crx",
         Filtering.Zip [("manifest.json", Filtering.Stored "script");
                        ("inject.js", Filtering.Broken BadZipFile (Some "co"));
                        ("late.js", Filtering.Stored "more")])];
     Filtering.source := ∅;
     Filtering.cwd_manifest := None |}.

End Damaged.

(** ** The disk through the descriptor extraction *)

(** From [d] to [d'] nothing was removed or rewritten, and only descriptor
    files were added. *)
Definition only_descriptors_added (d d' : Filtering.disk) : Prop :=
  Filtering.downloads d' = Filtering.downloads d
  ∧ Filtering.cwd_manifest d' = Filtering.cwd_manifest d
  ∧ (∀ ext_id, is_Some (Filtering.source d !! ext_id)
               → is_Some (Filtering.source d' !! ext_id))
  ∧ (∀ ext_id path text,
       Filtering.tree_of d ext_id !! path = Some text
       → Filtering.tree_of d' ext_id !! path = Some text)
  ∧ (∀ ext_id path,
       path ≠ "manifest.json"
       → Filtering.tree_of d' ext_id !! path = Filtering.tree_of d ext_id !! path).

(** From [d] to [d'] nothing was removed: the download directory and the
    working directory are as they were, and every directory and every file
    of the source directory is still there. *)
Definition nothing_removed (d d' : Filtering.disk) : Prop :=
  Filtering.downloads d' = Filtering.downloads d
  ∧ Filtering.cwd_manifest d' = Filtering.cwd_manifest d
  ∧ (∀ ext_id, is_Some (Filtering.source d !! ext_id)
               → is_Some (Filtering.source d' !! ext_id))
  ∧ (∀ ext_id path, is_Some (Filtering.tree_of d ext_id !! path)
                    → is_Some (Filtering.tree_of d' ext_id !! path)).



(** One iteration of step 1 of [main] returns and leaves the disk as it
    is. *)
Definition settled (file : string * Filtering.package) (d : Filtering.disk) : Prop :=
  endswith file.1 ".crx" = true →
  Filtering.unzip_manifest_only file.1 file.2 d = (None, d).

(** * Properties *)

Import Collecting.

(** ** Text *)

Lemma sapp_cons a s t : String a s +:+ t = String a (s +:+ t).
Proof. reflexivity. Qed.

Lemma sapp_empty_l t : "" +:+ t = t.
Proof. reflexivity. Qed.

Lemma sapp_empty_r s : s +:+ "" = s.
Proof. induction s as [|a s IH]; [done|]. by rewrite sapp_cons, IH. Qed.

Lemma sapp_assoc s t u : (s +:+ t) +:+ u = s +:+ t +:+ u.
Proof. induction s as [|a s IH]; [done|]. by rewrite !sapp_cons, IH. Qed.

Lemma string_rev_app s t : string_rev (s +:+ t) = string_rev t +:+ string_rev s.
Proof.
  induction s as [|a s IH]; simpl.
  - by rewrite sapp_empty_l, sapp_empty_r.
  - rewrite IH. by rewrite sapp_assoc.
Qed.

Lemma string_rev_involutive s : string_rev (string_rev s) = s.
Proof.
  induction s as [|a s IH]; [done|].
  simpl. by rewrite string_rev_app, IH.
Qed.

Lemma all_digits_app s t : all_digits (s +:+ t) = all_digits s && all_digits t.
Proof.
  induction s as [|a s IH]; [done|].
  rewrite sapp_cons; simpl. by rewrite IH, andb_assoc.
Qed.

Lemma all_digits_rev s : all_digits (string_rev s) = all_digits s.
Proof.
  induction s as [|a s IH]; [done|].
  simpl. rewrite all_digits_app, IH. simpl. rewrite andb_true_r. apply andb_comm.
Qed.

Lemma is_digit_not_space a : is_digit a = true → int_space a = false.
Proof.
  unfold is_digit, digit_of, int_space.
  destruct (_ && _)%nat eqn:E.
  - intros _. apply andb_true_iff in E as [?%Nat.leb_le ?%Nat.leb_le].
    repeat match goal with |- (_ || _ = false)%bool => apply orb_false_iff; split end.
    + apply andb_false_iff. right. apply Nat.leb_gt. lia.
    + apply Nat.eqb_neq. lia.
    + apply Nat.eqb_neq. lia.
    + apply Nat.eqb_neq. lia.
  - intros H. apply bool_decide_eq_true in H. by destruct H.
Qed.

Lemma lstrip_digits s : all_digits s = true → lstrip s = s.
Proof.
  destruct s as [|a s]; [done|]. simpl.
  intros [Ha _]%andb_true_iff. by rewrite (is_digit_not_space a Ha).
Qed.

Lemma strip_digits s : all_digits s = true → strip s = s.
Proof.
  intros H. unfold strip. rewrite (lstrip_digits s H).
  rewrite lstrip_digits by (by rewrite all_digits_rev).
  apply string_rev_involutive.
Qed.

Lemma scan_digits_all s acc cnt b :
  all_digits s = true → (s ≠ "" ∨ b = true) →
  scan_digits s acc cnt b = Some (decimal s acc, (cnt + String.length s)%nat).
Proof.
  revert acc cnt b. induction s as [|a s IH]; intros acc cnt b Hd Hne; simpl.
  - destruct Hne as [? | ->]; [done|]. by rewrite Nat.add_0_r.
  - simpl in Hd. apply andb_true_iff in Hd as [Ha Hs].
    unfold is_digit in Ha. apply bool_decide_eq_true in Ha as [d Hd].
    rewrite Hd. rewrite IH by auto. do 2 f_equal. lia.
Qed.

Lemma is_digit_not_sign a : is_digit a = true → Ascii.eqb a "-" = false ∧ Ascii.eqb a "+" = false.
Proof.
  intros H. split; apply Ascii.eqb_neq; intros ->; vm_compute in H; discriminate.
Qed.

Lemma py_int_digits s :
  all_digits s = true → s ≠ "" → (String.length s ≤ int_max_str_digits)%nat →
  py_int s = Ok (decimal s 0).
Proof.
  intros Hd Hne Hlen. unfold py_int. rewrite (strip_digits s Hd).
  destruct s as [|a t] eqn:Es; [done|]. rewrite <- Es in *.
  assert (Ha : is_digit a = true).
  { rewrite Es in Hd. simpl in Hd. by apply andb_true_iff in Hd as [? _]. }
  destruct (is_digit_not_sign a Ha) as [-> ->].
  rewrite (scan_digits_all s 0 0 false Hd) by auto.
  simpl. destruct (_ <? _)%nat eqn:E; [|done].
  apply Nat.ltb_lt in E. lia.
Qed.

Lemma separators_removed s acc :
  count_chars s = true →
  all_digits (remove_char "+" (remove_char "," s)) = true
  ∧ decimal (remove_char "+" (remove_char "," s)) acc = decimal s acc
  ∧ String.length (remove_char "+" (remove_char "," s)) = digit_count s.
Proof.
  revert acc. induction s as [|a s IH]; intros acc H; [done|].
  simpl in H. apply andb_true_iff in H as [Ha Hs].
  destruct (is_digit a) eqn:Hd.
  - destruct (is_digit_not_sign a Hd) as [_ Hplus].
    assert (Hcomma : Ascii.eqb a "," = false).
    { apply Ascii.eqb_neq; intros ->; vm_compute in Hd; discriminate. }
    pose proof Hd as Hd'. unfold is_digit in Hd'.
    apply bool_decide_eq_true in Hd' as [d Hd'].
    destruct (IH (10 * acc + d) Hs) as (H1 & H2 & H3).
    simpl. rewrite Hcomma. simpl. rewrite Hplus. simpl. rewrite Hd, Hd', H1, H2, H3.
    done.
  - simpl in Ha. assert (Hnd : digit_of a = None).
    { unfold is_digit in Hd. apply bool_decide_eq_false in Hd.
      destruct (digit_of a); [|done]. destruct Hd; eauto. }
    destruct (IH acc Hs) as (H1 & H2 & H3).
    simpl. rewrite Hnd, Hd. destruct (Ascii.eqb a ",") eqn:Hc.
    + done.
    + simpl in Ha. simpl. rewrite Ha. done.
Qed.

Lemma user_count_of_text s :
  count_chars s = true → (0 < digit_count s ≤ int_max_str_digits)%nat →
  user_count_of (JStr s) = Ok (decimal s 0).
Proof.
  intros Hc [Hpos Hmax].
  destruct (separators_removed s 0 Hc) as (Hd & Hv & Hl). simpl in *.
  rewrite <- Hv. apply py_int_digits; [done| |lia].
  intros E. rewrite E in Hl. simpl in Hl. lia.
Qed.

Lemma subscript_list l i x : l !! i = Some x → subscript (JArr l) i = Ok x.
Proof. intros H. simpl. by rewrite H. Qed.

Lemma parse_row_user_count l raw uc :
  l !! 23%nat = Some raw → user_count_of raw = Ok uc →
  ∃ ext_id info, parse_extension_info (JArr l) = Ok (ext_id, uc, info)
                 ∧ l !! 0%nat = Some ext_id.
Proof.
  intros H23 Huc.
  assert (Hlt : ∀ i, (i < 24)%nat → is_Some (l !! i)).
  { intros i Hi. apply lookup_lt_is_Some. apply lookup_lt_Some in H23. lia. }
  unfold parse_extension_info.
  destruct (Hlt 0%nat) as [x0 E0]; [lia|].
  destruct (Hlt 1%nat) as [x1 E1]; [lia|].
  destruct (Hlt 2%nat) as [x2 E2]; [lia|].
  destruct (Hlt 6%nat) as [x6 E6]; [lia|].
  destruct (Hlt 9%nat) as [x9 E9]; [lia|].
  destruct (Hlt 10%nat) as [x10 E10]; [lia|].
  destruct (Hlt 11%nat) as [x11 E11]; [lia|].
  destruct (Hlt 12%nat) as [x12 E12]; [lia|].
  destruct (Hlt 22%nat) as [x22 E22]; [lia|].
  rewrite (subscript_list _ _ _ E0), (subscript_list _ _ _ H23),
    (subscript_list _ _ _ E1), (subscript_list _ _ _ E2), (subscript_list _ _ _ E6),
    (subscript_list _ _ _ E9), (subscript_list _ _ _ E10), (subscript_list _ _ _ E11),
    (subscript_list _ _ _ E12), (subscript_list _ _ _ E22).
  cbn [mbind result_bind]. rewrite Huc. cbn [mbind result_bind]. eauto.
Qed.

Lemma below_minimum_not_appended data rest n file ext_id uc info :
  parse_extension_info data = Ok (ext_id, uc, info) → uc < MIN_USER_COUNT →
  snd (process_rows [data] n file) = file
  ∧ (∀ s, ext_id = JStr s → process_rows (data :: rest) n file = process_rows rest n file).
Proof.
  intros Hp Hlt. assert (Hmin : (MIN_USER_COUNT <=? uc) = false) by (apply Z.leb_gt; lia).
  split.
  - simpl. rewrite Hp. destruct ext_id; simpl; try done.
    destruct (contains _ _); [done|]. by rewrite Hmin.
  - intros s ->. simpl. rewrite Hp. simpl.
    destruct (contains _ _); [done|]. by rewrite Hmin.
Qed.

(** ** Substring search *)

Lemma prefix_app_r p s t : String.prefix p s = true → String.prefix p (s +:+ t) = true.
Proof.
  revert s. induction p as [|a p IH]; intros [|b s]; simpl; try done.
  - intros _. by destruct t.
  - destruct (ascii_dec a b); [auto|done].
Qed.

Lemma prefix_self s t : String.prefix s (s +:+ t) = true.
Proof.
  induction s as [|a s IH]; simpl.
  - by destruct t.
  - by destruct (ascii_dec a a).
Qed.

Lemma contains_app_r n h t : contains n h = true → contains n (h +:+ t) = true.
Proof.
  induction h as [|a h IH]; simpl.
  - rewrite orb_false_r. intros H. destruct n; [|done]. by destruct t.
  - intros [H|H]%orb_true_iff; apply orb_true_iff.
    + left. by apply (prefix_app_r n (String a h) t).
    + right. auto.
Qed.

Lemma contains_app_l n p h : contains n h = true → contains n (p +:+ h) = true.
Proof.
  intros H. induction p as [|a p IH]; [done|].
  rewrite sapp_cons. simpl. rewrite IH. apply orb_true_r.
Qed.

Lemma contains_unfold n h :
  contains n h
  = String.prefix n h || match h with "" => false | String _ t => contains n t end.
Proof. by destruct h. Qed.

Lemma contains_prefix n h : String.prefix n h = true → contains n h = true.
Proof. intros H. by rewrite contains_unfold, H. Qed.

Lemma contains_middle a s b : contains s (a +:+ s +:+ b) = true.
Proof. apply contains_app_l, contains_prefix, prefix_self. Qed.

(** ** The text of a record *)

Lemma json_escape_plain c : plain_char c = true → json_escape_char c = str1 c.
Proof.
  unfold plain_char, json_escape_char.
  intros [[Hr Hq]%andb_true_iff Hb]%andb_true_iff.
  apply negb_true_iff in Hq, Hb. rewrite Hq, Hb, Hr. simpl.
  apply andb_true_iff in Hr as [Hlo%Nat.leb_le _].
  repeat match goal with
  | |- context [Ascii.eqb c (chr ?n)] =>
      replace (Ascii.eqb c (chr n)) with false;
      [| symmetry; apply Ascii.eqb_neq; intros ->; vm_compute in Hlo; lia ]
  end.
  done.
Qed.

Lemma concat_map_plain s : plain s = true → concat_map json_escape_char s = s.
Proof.
  induction s as [|a s IH]; [done|]. simpl.
  intros [Ha Hs]%andb_true_iff. by rewrite (json_escape_plain a Ha), IH.
Qed.

Lemma record_contains_id s fields :
  plain s = true → contains s (json_dumps (JObj (("id", JStr s) :: fields))) = true.
Proof.
  intros Hs. simpl json_dumps.
  assert (∃ rest, ∀ x, match map (λ kv : string * json,
                                  json_string kv.1 +:+ ": " +:+ json_dumps kv.2) fields with
                       | [] => x
                       | _ :: _ => x +:+ ", " +:+ join ", "
                           (map (λ kv : string * json,
                                   json_string kv.1 +:+ ": " +:+ json_dumps kv.2) fields)
                       end = x +:+ rest) as [rest ->].
  { destruct (map _ fields).
    - exists "". intros x. by rewrite sapp_empty_r.
    - eauto. }
  unfold json_string at 2. rewrite (concat_map_plain s Hs).
  rewrite !sapp_assoc.
  rewrite <- (sapp_assoc "{" (json_string "id")).
  rewrite <- (sapp_assoc _ ": ").
  rewrite <- (sapp_assoc _ (str1 quote)).
  apply contains_middle.
Qed.
(** One step through a chain of binds: the computation succeeded, or the
    chain is the exception and the goal's premise is absurd. *)
Ltac bind_ok c :=
  let e := fresh "e" in
  destruct c as [?|e]; cbn [mbind result_bind]; [|by destruct e].

Lemma parse_extension_info_inv data ext_id uc info :
  parse_extension_info data = Ok (ext_id, uc, info) →
  subscript data 0 = Ok ext_id ∧ ∃ fields, info = ("id", ext_id) :: fields.
Proof.
  unfold parse_extension_info.
  bind_ok (subscript data 0).
  match goal with |- context [subscript data 23 ≫= _] => bind_ok (subscript data 23) end.
  match goal with |- context [user_count_of ?raw] => bind_ok (user_count_of raw) end.
  bind_ok (subscript data 1). bind_ok (subscript data 2). bind_ok (subscript data 6).
  bind_ok (subscript data 9). bind_ok (subscript data 10). bind_ok (subscript data 12).
  bind_ok (subscript data 22). bind_ok (subscript data 11).
  intros [= <- <- <-]. eauto.
Qed.

(** ** Processing a page *)

#[local] Arguments is_string_in_file : simpl never.
#[local] Arguments parse_extension_info : simpl never.
#[local] Arguments append_dict_to_file : simpl never.

Lemma process_rows_app l1 l2 n file :
  process_rows (l1 ++ l2) n file
  = match process_rows l1 n file with
    | (Ok n', file') => process_rows l2 n' file'
    | (Raise e, file') => (Raise e, file')
    end.
Proof.
  revert n file. induction l1 as [|row l1 IH]; intros n file; [done|].
  simpl. destruct (parse_extension_info row) as [[[ext_id uc] info]|e]; [|done].
  destruct (is_string_in_file ext_id (Some file)) as [[]|e]; [auto| |done].
  destruct (MIN_USER_COUNT <=? uc); auto.
Qed.

Lemma record_lines_cons r t :
  record_lines (r :: t) = json_dumps (JObj r) +:+ newline +:+ record_lines t.
Proof. reflexivity. Qed.

Lemma record_lines_app l1 l2 : record_lines (l1 ++ l2) = record_lines l1 +:+ record_lines l2.
Proof.
  induction l1 as [|r l1 IH]; [done|].
  rewrite <- app_comm_cons, !record_lines_cons, IH. by rewrite !sapp_assoc.
Qed.

(** A page appends as many records as it counts, and nothing else. *)
Lemma process_rows_appends rows n file m file' :
  process_rows rows n file = (Ok m, file') →
  ∃ records, file' = file +:+ record_lines records ∧ m = (n + length records)%nat.
Proof.
  revert n file. induction rows as [|row rows IH]; intros n file; simpl.
  - intros [= <- <-]. exists []. by rewrite sapp_empty_r, Nat.add_0_r.
  - destruct (parse_extension_info row) as [[[ext_id uc] info]|e] eqn:Hp; [|done].
    destruct (is_string_in_file ext_id (Some file)) as [[]|e]; [auto| |done].
    destruct (MIN_USER_COUNT <=? uc); [|auto].
    intros H. apply IH in H as (records & -> & ->).
    apply parse_extension_info_inv in Hp as (_ & fields & ->).
    exists ((("id", ext_id) :: fields) :: records). split; [|simpl; lia].
    unfold append_dict_to_file. rewrite record_lines_cons. by rewrite !sapp_assoc.
Qed.

(** Once a page has been processed, processing it again over the log it
    left, however extended, appends nothing. *)
Lemma process_rows_settled rows n file m file' :
  Forall (λ row, row_id_plain row = true) rows →
  process_rows rows n file = (Ok m, file') →
  ∀ k more, process_rows rows k (file' +:+ more) = (Ok k, file' +:+ more).
Proof.
  intros Hplain. revert n file.
  induction Hplain as [|row rows Hrow _ IH]; intros n file; simpl; [done|].
  destruct (parse_extension_info row) as [[[ext_id uc] info]|e] eqn:Hp; [|done].
  destruct (parse_extension_info_inv _ _ _ _ Hp) as (H0 & fields & ->).
  unfold row_id_plain in Hrow. rewrite H0 in Hrow.
  destruct ext_id as [| | | |s| |]; try done. unfold is_string_in_file.
  destruct (contains s file) eqn:Hin.
  - intros H k more. destruct (process_rows_appends _ _ _ _ _ H) as (records & -> & _).
    rewrite sapp_assoc, (contains_app_r s file _ Hin).
    rewrite <- sapp_assoc. by apply (IH _ _ H).
  - destruct (MIN_USER_COUNT <=? uc) eqn:Hmin.
    + intros H k more. destruct (process_rows_appends _ _ _ _ _ H) as (records & -> & _).
      unfold append_dict_to_file.
      replace (contains s _) with true.
      2:{ symmetry. rewrite !sapp_assoc. apply contains_app_l.
          apply contains_app_r. by apply record_contains_id. }
      by apply (IH _ _ H).
    + intros H k more. rewrite (IH _ _ H k more).
      by destruct (contains s (file' +:+ more)).
Qed.
Lemma page_fields_catalog_page rows cursor :
  page_fields (Fixture.catalog_page rows cursor)
  = Ok (JArr rows, if eq_str cursor "#@" then JNull else cursor).
Proof. reflexivity. Qed.

(** ** One iteration of the collection loop *)

Section Iteration.

Context (fetch : nat → option string → option json).
Context (fuel : nat) (next_page_token : json) (st : store).

Let url := build_request_url next_page_token.
Let sent := requests st ++ [url].

Lemma run_loop_fetch_failed :
  fetch (length (requests st)) url = None →
  run_loop fetch (S fuel) next_page_token st
  = Some (FetchFailed, {| log := log st; checkpoint := checkpoint st; requests := sent |}).
Proof. intros H. simpl. fold url. by rewrite H. Qed.

Lemma run_loop_malformed_page response_data e :
  fetch (length (requests st)) url = Some response_data →
  page_fields response_data = Raise e →
  run_loop fetch (S fuel) next_page_token st
  = Some (Uncaught e, {| log := log st; checkpoint := checkpoint st; requests := sent |}).
Proof. intros H1 H2. simpl. fold url. by rewrite H1, H2. Qed.

Lemma run_loop_rows_raise response_data extension_items cursor e file :
  fetch (length (requests st)) url = Some response_data →
  page_fields response_data = Ok (extension_items, cursor) →
  truthy extension_items = true →
  process_extensions extension_items (log st) = (Raise e, file) →
  run_loop fetch (S fuel) next_page_token st
  = Some (Uncaught e, {| log := file; checkpoint := checkpoint st; requests := sent |}).
Proof. intros H1 H2 H3 H4. simpl. fold url. by rewrite H1, H2, H3, H4. Qed.

Lemma run_loop_page response_data extension_items cursor saved file :
  fetch (length (requests st)) url = Some response_data →
  page_fields response_data = Ok (extension_items, cursor) →
  truthy extension_items = true →
  process_extensions extension_items (log st) = (Ok saved, file) →
  run_loop fetch (S fuel) next_page_token st
  = let st' := {| log := file;
                  checkpoint := if truthy cursor then save_checkpoint cursor
                                else checkpoint st;
                  requests := sent |} in
    if (saved =? 0)%nat && is_none cursor then Some (NoNewExtensions, st')
    else run_loop fetch fuel cursor st'.
Proof. intros H1 H2 H3 H4. simpl. fold url. by rewrite H1, H2, H3, H4. Qed.

End Iteration.

(** ** The collector's claims *)

Import Fixture.

(** C7. User-count parsing removes the thousands separators and the plus
    sign and reads the rest as a decimal integer: ["10,000+"] is 10000 and
    ["1"] is 1, and so for every text of digits, separators and plus signs.
    That count is the one the row is parsed with, and a row whose count is
    below the configured minimum leaves the record log as it was. *)
Theorem user_count_parsing_and_threshold :
  user_count_of (JStr "10,000+") = Ok 10000
  ∧ user_count_of (JStr "1") = Ok 1
  ∧ (∀ s, count_chars s = true → (0 < digit_count s ≤ int_max_str_digits)%nat →
          user_count_of (JStr s) = Ok (decimal s 0))
  ∧ (∀ l raw uc, l !! 23%nat = Some raw → user_count_of raw = Ok uc →
          ∃ ext_id info, parse_extension_info (JArr l) = Ok (ext_id, uc, info)
                         ∧ l !! 0%nat = Some ext_id)
  ∧ (∀ data rest n file ext_id uc info,
          parse_extension_info data = Ok (ext_id, uc, info) → uc < MIN_USER_COUNT →
          snd (process_rows [data] n file) = file
          ∧ (∀ s, ext_id = JStr s →
                  process_rows (data :: rest) n file = process_rows rest n file)).
Proof.
  split; [reflexivity|]. split; [reflexivity|].
  split; [exact user_count_of_text|].
  split; [exact parse_row_user_count|].
  exact below_minimum_not_appended.
Qed.

Lemma user_count_parsing_and_threshold_witness :
  user_count_of (JStr "3,141,592+") = Ok 3141592
  ∧ snd (process_rows [row "bbb" "B" "0"] 0 "") = ""
  ∧ process_rows (row "bbb" "B" "0" :: page2) 0 "" = process_rows page2 0 "".
Proof.
  destruct user_count_parsing_and_threshold as (_ & _ & Htext & _ & Hmin).
  split.
  - apply (Htext "3,141,592+"); [reflexivity | vm_compute; lia].
  - destruct (Hmin (row "bbb" "B" "0") page2 0%nat "" (JStr "bbb") 0 (record "bbb" "B" "0"))
      as [Hlog Hskip]; [reflexivity | reflexivity |].
    split; [exact Hlog | exact (Hskip "bbb" eq_refl)].
Defined.

(** C1, as the code has it. A row that fails to parse ends the processing
    of its page: the rows before it have been processed, the rows after it
    are not, and the exception leaves [run], which stops without committing
    the page's cursor. *)
Theorem malformed_row_aborts_page pre bad post e n file n' file' :
  parse_extension_info bad = Raise e →
  process_rows pre n file = (Ok n', file') →
  process_rows (pre ++ bad :: post) n file = (Raise e, file')
  ∧ ∀ fetch fuel token st response_data cursor,
      n = 0%nat → file = log st →
      fetch (length (requests st)) (build_request_url token) = Some response_data →
      page_fields response_data = Ok (JArr (pre ++ bad :: post), cursor) →
      run_loop fetch (S fuel) token st
      = Some (Uncaught e,
              {| log := file'; checkpoint := checkpoint st;
                 requests := requests st ++ [build_request_url token] |}).
Proof.
  intros Hbad Hpre.
  assert (Hrows : process_rows (pre ++ bad :: post) n file = (Raise e, file')).
  { rewrite process_rows_app, Hpre. simpl. by rewrite Hbad. }
  split; [done|].
  intros fetch fuel token st response_data cursor -> -> Hfetch Hpage.
  apply (run_loop_rows_raise _ _ _ _ _ _ _ _ _ Hfetch Hpage); [|done].
  by destruct pre.
Qed.

Lemma malformed_row_aborts_page_witness :
  process_rows broken_page 0 "" = (Raise ValueError, record_lines [record "aaa" "A" "7"])
  ∧ run_loop one_broken_page 1 JNull (init None None)
    = Some (Uncaught ValueError,
            {| log := record_lines [record "aaa" "A" "7"]; checkpoint := None;
               requests := [None] |}).
Proof.
  destruct (malformed_row_aborts_page [row "aaa" "A" "7"] (JArr [JStr "bbb"])
              [row "ccc" "C" "5"] ValueError 0 "" 1
              (record_lines [record "aaa" "A" "7"])) as [Hrows Hrun];
    [reflexivity | reflexivity |].
  split; [exact Hrows|].
  apply (Hrun one_broken_page 0%nat JNull (init None None)
              (catalog_page broken_page (JStr "tok1")) (JStr "tok1"));
    reflexivity.
Defined.

(** C1, as stated, fails: after a row that does not parse, the remaining
    row of the page is not processed and the run is aborted. *)
Lemma malformed_row_is_not_skipped :
  parse_extension_info (JArr [JStr "bbb"]) = Raise ValueError
  ∧ process_extensions (JArr broken_page) ""
    = (Raise ValueError, record_lines [record "aaa" "A" "7"])
  ∧ process_extensions (JArr [row "aaa" "A" "7"; row "ccc" "C" "5"]) ""
    = (Ok 2%nat, record_lines [record "aaa" "A" "7"; record "ccc" "C" "5"])
  ∧ run one_broken_page 5 (init None None)
    = Some (Uncaught ValueError,
            {| log := record_lines [record "aaa" "A" "7"]; checkpoint := None;
               requests := [None] |}).
Proof. vm_compute. repeat split; reflexivity. Qed.
Lemma process_rows_again rows n file m file' :
  Forall (λ row, row_id_plain row = true) rows →
  process_rows rows n file = (Ok m, file') →
  ∀ k, process_rows rows k file' = (Ok k, file').
Proof.
  intros Hplain H k. rewrite <- (sapp_empty_r file').
  by apply (process_rows_settled _ _ _ _ _ Hplain H).
Qed.

(** ** Rows that are new *)

Lemma admitted_app l1 l2 : admitted (l1 ++ l2) = admitted l1 ++ admitted l2.
Proof.
  induction l1 as [|row l1 IH]; [done|].
  cbn [app admitted]. destruct (parse_extension_info row) as [[[ext_id uc] info]|e]; [|done].
  destruct (MIN_USER_COUNT <=? uc); [|done]. by rewrite IH.
Qed.

Lemma admitted_one row rest : admitted (row :: rest) = admitted [row] ++ admitted rest.
Proof. apply (admitted_app [row] rest). Qed.

Lemma new_rows_app l1 l2 file :
  new_rows (l1 ++ l2) file
  = new_rows l1 file && new_rows l2 (file +:+ record_lines (admitted l1)).
Proof.
  revert file. induction l1 as [|row l1 IH]; intros file.
  - cbn [app new_rows admitted record_lines andb]. by rewrite sapp_empty_r.
  - cbn [app new_rows].
    destruct (parse_extension_info row) as [[[ext_id uc] info]|e]; [|done].
    destruct ext_id; try done.
    rewrite IH, (admitted_one row l1), record_lines_app, sapp_assoc.
    by rewrite andb_assoc.
Qed.

Lemma append_dict_to_file_record field fields file :
  append_dict_to_file (field :: fields) file = file +:+ record_lines [field :: fields].
Proof.
  unfold append_dict_to_file. cbn [record_lines]. by rewrite sapp_empty_r.
Qed.

(** Rows that are new are all processed: those that reach the threshold
    are appended, in their order, and counted. *)
Lemma process_rows_new rows n file :
  new_rows rows file = true →
  process_rows rows n file
  = (Ok (n + length (admitted rows))%nat, file +:+ record_lines (admitted rows)).
Proof.
  revert n file. induction rows as [|row rows IH]; intros n file.
  - intros _. cbn [process_rows admitted record_lines length].
    by rewrite Nat.add_0_r, sapp_empty_r.
  - cbn [new_rows process_rows]. rewrite (admitted_one row rows).
    cbn [admitted].
    destruct (parse_extension_info row) as [[[ext_id uc] info]|e] eqn:Hp; [|done].
    destruct ext_id as [| | | |s| |]; try done.
    intros [Hnew Hrest]%andb_true_iff. apply negb_true_iff in Hnew.
    unfold is_string_in_file. rewrite Hnew.
    apply parse_extension_info_inv in Hp as [_ [fields ->]].
    destruct (MIN_USER_COUNT <=? uc).
    + rewrite append_dict_to_file_record, (IH _ _ Hrest).
      rewrite (record_lines_app [_]), sapp_assoc. cbn [app length].
      f_equal. f_equal. lia.
    + cbn [record_lines] in Hrest. rewrite sapp_empty_r in Hrest.
      rewrite (IH _ _ Hrest). by cbn [app].
Qed.

Lemma new_rows_count rows file :
  new_rows rows file = true →
  (length (admitted rows) + length (List.filter below_threshold rows))%nat = length rows.
Proof.
  revert file. induction rows as [|row rows IH]; intros file; [done|].
  cbn [new_rows admitted List.filter]. unfold below_threshold at 1.
  destruct (parse_extension_info row) as [[[ext_id uc] info]|e]; [|done].
  destruct ext_id; try done. intros [_ Hrest]%andb_true_iff. apply IH in Hrest.
  destruct (Z.leb_spec MIN_USER_COUNT uc), (Z.ltb_spec uc MIN_USER_COUNT);
    cbn [length]; lia.
Qed.

(** C2, as the code has it. The catalog answers the request without token
    with a page of three rows and a non-empty cursor other than the
    sentinel, and the request with that cursor with a page of one row and
    the sentinel. The four rows are well formed, their ids are plain text,
    each is new when its turn comes, one of the first three is below the
    threshold and the fourth is not. Then a run from scratch terminates
    after four requests (both pages are fetched a second time, adding
    nothing), the log holds exactly the three records of the rows that
    reach the threshold, and the checkpoint file holds the cursor of the
    second page: the sentinel is never written to it. *)
Theorem two_page_run fetch tok1 rows1 row4 :
  tok1 ≠ "" → tok1 ≠ "#@" →
  (∀ n, fetch n None = Some (catalog_page rows1 (JStr tok1))) →
  (∀ n, fetch n (Some tok1) = Some (catalog_page [row4] (JStr "#@"))) →
  length rows1 = 3%nat →
  length (List.filter below_threshold rows1) = 1%nat →
  below_threshold row4 = false →
  Forall (λ row, row_id_plain row = true) (rows1 ++ [row4]) →
  new_rows (rows1 ++ [row4]) "" = true →
  ∀ fuel, (4 ≤ fuel)%nat →
    run fetch fuel (init None None)
    = Some (NoNewExtensions,
            {| log := record_lines (admitted (rows1 ++ [row4]));
               checkpoint := save_checkpoint (JStr tok1);
               requests := [None; Some tok1; None; Some tok1] |})
    ∧ length (admitted (rows1 ++ [row4])) = 3%nat.
Proof.
  intros Hne Hsent Hp1 Hp2 Hlen Hbelow Hfour Hplain Hnew fuel Hfuel.
  apply Forall_app in Hplain as [Hplain1 Hplain2].
  pose proof (new_rows_count _ _ Hnew) as Hcount.
  rewrite new_rows_app in Hnew. apply andb_true_iff in Hnew as [Hnew1 Hnew2].
  rewrite sapp_empty_l in Hnew2.
  pose proof (new_rows_count _ _ Hnew1) as Hcount1.
  pose proof (process_rows_new rows1 0 "" Hnew1) as H1.
  pose proof (process_rows_new [row4] 0 _ Hnew2) as H2.
  rewrite sapp_empty_l in H1. rewrite <- record_lines_app, <- admitted_app in H2.
  set (file1 := record_lines (admitted rows1)) in *.
  set (file2 := record_lines (admitted (rows1 ++ [row4]))) in *.
  assert (Hrows1 : rows1 ≠ []) by (intros ->; discriminate).
  assert (Ht1 : truthy (JArr rows1) = true) by (by destruct rows1).
  assert (Htok : truthy (JStr tok1) = true).
  { simpl. apply negb_true_iff, String.eqb_neq. done. }
  assert (Hcur : eq_str (JStr tok1) "#@" = false) by (by apply String.eqb_neq).
  assert (Hurl : build_request_url (JStr tok1) = Some tok1).
  { unfold build_request_url. by rewrite Htok. }
  assert (Hsaved1 : length (admitted rows1) = 2%nat) by lia.
  assert (Hsaved2 : length (admitted [row4]) = 1%nat).
  { rewrite admitted_app, length_app in Hcount. rewrite List.filter_app, !length_app in Hcount.
    cbn [List.filter] in Hcount. rewrite Hfour in Hcount. cbn [length] in Hcount. lia. }
  split.
  2:{ rewrite admitted_app, length_app. lia. }
  rewrite Hsaved1 in H1. rewrite Hsaved2 in H2. cbn [Nat.add] in H1, H2.
  do 4 (destruct fuel as [|fuel]; [lia|]).
  unfold run, init. cbn [checkpoint load_checkpoint].
  (* page 1 *)
  erewrite run_loop_page;
    [| apply Hp1 | apply page_fields_catalog_page | exact Ht1 | exact H1].
  rewrite Hcur. cbn zeta. rewrite Htok. cbn [Nat.eqb andb requests log checkpoint].
  (* page 2 *)
  erewrite run_loop_page;
    [| rewrite Hurl; apply Hp2 | apply page_fields_catalog_page | reflexivity | exact H2].
  cbn [eq_str String.eqb Ascii.eqb Bool.eqb]. cbn zeta.
  cbn [truthy Nat.eqb andb is_none requests log checkpoint].
  (* page 1 again *)
  erewrite (run_loop_page _ _ _ _ _ _ _ 0%nat file2);
    [| apply Hp1 | apply page_fields_catalog_page | exact Ht1 | ].
  2:{ cbn [log process_extensions py_iter].
      assert (file2 = file1 +:+ record_lines (admitted [row4])) as ->.
      { unfold file2, file1. by rewrite admitted_app, record_lines_app. }
      apply (process_rows_settled _ _ _ _ _ Hplain1 H1). }
  rewrite Hcur. cbn zeta. rewrite Htok. cbn [Nat.eqb andb is_none requests log checkpoint].
  (* page 2 again *)
  erewrite (run_loop_page _ _ _ _ _ _ _ 0%nat file2);
    [| rewrite Hurl; apply Hp2 | apply page_fields_catalog_page | reflexivity | ].
  2:{ cbn [log process_extensions py_iter].
      apply (process_rows_again _ _ _ _ _ Hplain2 H2). }
  cbn [eq_str String.eqb Ascii.eqb Bool.eqb]. cbn zeta.
  cbn [truthy Nat.eqb andb is_none requests log checkpoint].
  rewrite Hurl. reflexivity.
Qed.

Lemma two_page_run_witness :
  run two_pages 4 (init None None)
  = Some (NoNewExtensions,
          {| log := record_lines (admitted (page1 ++ [row "ddd" "D" "1"]));
             checkpoint := save_checkpoint (JStr "tok1");
             requests := [None; Some "tok1"; None; Some "tok1"] |})
  ∧ length (admitted (page1 ++ [row "ddd" "D" "1"])) = 3%nat.
Proof.
  apply (two_page_run two_pages "tok1" page1 (row "ddd" "D" "1")); try reflexivity.
  - discriminate.
  - discriminate.
  - repeat constructor.
Defined.

(** C2, as stated, fails: after the run over the two-page catalog the
    checkpoint file exists and holds the cursor of the second page. *)
Lemma checkpoint_after_two_pages_is_not_absent :
  ∃ st, run two_pages 4 (init None None) = Some (NoNewExtensions, st)
        ∧ log st = record_lines [record "aaa" "A" "10,000+"; record "ccc" "C" "5";
                                 record "ddd" "D" "1"]
        ∧ checkpoint st = Some (JObj [("token", JStr "tok1")])
        ∧ checkpoint st ≠ None.
Proof.
  eexists. split; [vm_compute; reflexivity|].
  cbn [log checkpoint]. split; [reflexivity|]. split; [reflexivity|]. discriminate.
Qed.

(** C4 on an id that [json.dumps] escapes: the log never contains the id as
    written, the search misses it, and two rows with the same id give two
    records. *)
Theorem escaped_id_is_recorded_twice :
  process_extensions (JArr [row accented_id "A" "7"; row accented_id "A" "7"]) ""
  = (Ok 2%nat, record_lines [record accented_id "A" "7"; record accented_id "A" "7"])
  ∧ is_string_in_file (JStr accented_id)
      (Some (record_lines [record accented_id "A" "7"])) = Ok false.
Proof. vm_compute. split; reflexivity. Qed.

(** ** Requests of a run *)

Lemma run_loop_first_request fetch fuel token st o st' :
  run_loop fetch (S fuel) token st = Some (o, st') →
  ∃ later, requests st' = requests st ++ build_request_url token :: later.
Proof.
  assert (Hgen : ∀ fuel token st o st',
    run_loop fetch fuel token st = Some (o, st') →
    ∃ later, requests st' = requests st ++ later).
  { clear. intros fuel. induction fuel as [|fuel IH]; intros token st o st'; [done|].
    simpl.
    destruct (fetch _ _) as [rd|].
    2:{ intros [= <- <-]. eauto. }
    destruct (page_fields rd) as [[items cursor]|e].
    2:{ intros [= <- <-]. eauto. }
    destruct (truthy items); simpl.
    2:{ intros [= <- <-]. eauto. }
    destruct (process_extensions items (log st)) as [[saved|e] file].
    2:{ intros [= <- <-]. simpl. eauto. }
    destruct (_ && _).
    { intros [= <- <-]. simpl. eauto. }
    intros H. apply IH in H as [later ->]. simpl.
    rewrite <- app_assoc. eauto. }
  simpl.
  destruct (fetch _ _) as [rd|].
  2:{ intros [= <- <-]. by exists []. }
  destruct (page_fields rd) as [[items cursor]|e].
  2:{ intros [= <- <-]. by exists []. }
  destruct (truthy items); simpl.
  2:{ intros [= <- <-]. by exists []. }
  destruct (process_extensions items (log st)) as [[saved|e] file].
  2:{ intros [= <- <-]. by exists []. }
  destruct (_ && _).
  { intros [= <- <-]. by exists []. }
  intros H. apply Hgen in H as [later ->]. simpl.
  rewrite <- app_assoc. eauto.
Qed.

(** C5, as the code has it. An error while a page is fetched or decoded
    stops the run at once: one request was sent, and the record log and the
    checkpoint file are as they were. A processed page whose cursor is
    truthy, the sentinel having been normalized to absent, writes that
    cursor to the checkpoint and the loop goes on from it; a processed page
    with any other cursor writes nothing. A run started later is the loop
    started at the cursor the checkpoint holds, and its first request is
    the one built from that cursor. *)
Theorem abort_preserves_checkpoint :
  (∀ fetch fuel token st,
      fetch (length (requests st)) (build_request_url token) = None →
      run_loop fetch (S fuel) token st
      = Some (FetchFailed,
              {| log := log st; checkpoint := checkpoint st;
                 requests := requests st ++ [build_request_url token] |}))
  ∧ (∀ fetch fuel token st response_data e,
      fetch (length (requests st)) (build_request_url token) = Some response_data →
      page_fields response_data = Raise e →
      run_loop fetch (S fuel) token st
      = Some (Uncaught e,
              {| log := log st; checkpoint := checkpoint st;
                 requests := requests st ++ [build_request_url token] |}))
  ∧ (∀ fetch fuel token st response_data extension_items cursor saved file,
      fetch (length (requests st)) (build_request_url token) = Some response_data →
      page_fields response_data = Ok (extension_items, cursor) →
      truthy extension_items = true →
      process_extensions extension_items (log st) = (Ok saved, file) →
      (truthy cursor = true →
       run_loop fetch (S fuel) token st
       = run_loop fetch fuel cursor
           {| log := file; checkpoint := save_checkpoint cursor;
              requests := requests st ++ [build_request_url token] |})
      ∧ (truthy cursor = false →
         run_loop fetch (S fuel) token st
         = let st' := {| log := file; checkpoint := checkpoint st;
                         requests := requests st ++ [build_request_url token] |} in
           if (saved =? 0)%nat && is_none cursor then Some (NoNewExtensions, st')
           else run_loop fetch fuel cursor st'))
  ∧ (∀ fetch fuel st cursor,
      checkpoint st = save_checkpoint cursor →
      run fetch fuel st = run_loop fetch fuel cursor st
      ∧ ∀ o st', run fetch (S fuel) st = Some (o, st') →
          ∃ later, requests st' = requests st ++ build_request_url cursor :: later).
Proof.
  split; [exact run_loop_fetch_failed|].
  split; [exact run_loop_malformed_page|].
  split.
  - intros fetch fuel token st rd items cursor saved file H1 H2 H3 H4.
    rewrite (run_loop_page _ _ _ _ _ _ _ _ _ H1 H2 H3 H4). cbn zeta.
    split; intros Hc; rewrite Hc; [|done].
    replace (is_none cursor) with false by (by destruct cursor).
    by rewrite andb_false_r.
  - intros fetch fuel st cursor Hck.
    assert (Hrun : ∀ fuel, run fetch fuel st = run_loop fetch fuel cursor st).
    { intros fuel'. unfold run, load_checkpoint. by rewrite Hck. }
    split; [apply Hrun|]. intros o st'. rewrite Hrun. apply run_loop_first_request.
Qed.

Lemma abort_preserves_checkpoint_witness :
  run_loop failing_third 1 JNull
    {| log := record_lines [record "aaa" "A" "7"; record "bbb" "B" "5"];
       checkpoint := save_checkpoint (JStr "tok1");
       requests := [None; Some "tok1"] |}
  = Some (FetchFailed,
          {| log := record_lines [record "aaa" "A" "7"; record "bbb" "B" "5"];
             checkpoint := save_checkpoint (JStr "tok1");
             requests := [None; Some "tok1"; None] |})
  ∧ run_loop failing_third 2 JNull (init None None)
    = run_loop failing_third 1 (JStr "tok1")
        {| log := record_lines [record "aaa" "A" "7"];
           checkpoint := save_checkpoint (JStr "tok1");
           requests := [None] |}
  ∧ ∃ later, [Some "tok1"] = [] ++ Some "tok1" :: later.
Proof.
  destruct abort_preserves_checkpoint as (Hfail & _ & Hcommit & Hresume).
  pose proof (λ fetch fuel token st rd items cursor saved file H1 H2 H3 H4,
                proj1 (Hcommit fetch fuel token st rd items cursor saved file
                         H1 H2 H3 H4)) as Hcommit'.
  pose proof (λ fetch fuel st cursor H, proj2 (Hresume fetch fuel st cursor H))
    as Hresume'.
  split.
  { apply (Hfail failing_third 0%nat JNull
             {| log := record_lines [record "aaa" "A" "7"; record "bbb" "B" "5"];
                checkpoint := save_checkpoint (JStr "tok1");
                requests := [None; Some "tok1"] |}).
    reflexivity. }
  split.
  { apply (Hcommit' failing_third 1%nat JNull (init None None)
             (catalog_page [row "aaa" "A" "7"] (JStr "tok1"))
             (JArr [row "aaa" "A" "7"]) (JStr "tok1") 1%nat
             (record_lines [record "aaa" "A" "7"])); reflexivity. }
  apply (Hresume' two_pages 0%nat
           (init (Some (record_lines [record "ddd" "D" "1"])) (save_checkpoint (JStr "tok1")))
           (JStr "tok1") eq_refl NoNewExtensions
           {| log := record_lines [record "ddd" "D" "1"];
              checkpoint := save_checkpoint (JStr "tok1");
              requests := [Some "tok1"] |}).
  vm_compute. reflexivity.
Defined.

(** C5, as stated, fails: the second page was processed completely, its
    sentinel cursor committed nothing, the third request met a transport
    error, and the run started afterwards resumes from the cursor of the
    second page and fetches that page again. *)
Lemma resumed_run_fetches_completed_page_again :
  ∃ st1 st2,
    run failing_third 9 (init None None) = Some (FetchFailed, st1)
    ∧ log st1 = record_lines [record "aaa" "A" "7"; record "bbb" "B" "5"]
    ∧ checkpoint st1 = save_checkpoint (JStr "tok1")
    ∧ requests st1 = [None; Some "tok1"; None]
    ∧ run failing_third 9 st1 = Some (NoNewExtensions, st2)
    ∧ requests st2 = requests st1 ++ [Some "tok1"]
    ∧ log st2 = log st1.
Proof.
  do 2 eexists. split; [vm_compute; reflexivity|].
  cbn [log checkpoint requests].
  split; [reflexivity|]. split; [reflexivity|]. split; [reflexivity|].
  split; [vm_compute; reflexivity|].
  cbn [log checkpoint requests]. split; reflexivity.
Qed.
(** * The downloader's properties *)

Import Download.

Section DownloaderProperties.

Context (http_get : nat → string → response) (open_wb : string → bool).
Context (file_write : string → list Byte.byte → option (list Byte.byte)).

#[local] Abbreviation download_all := (Download.download_all http_get open_wb file_write).
#[local] Abbreviation download_extension :=
  (Download.download_extension http_get open_wb file_write).

Lemma string_app_inv_r x y b : x +:+ b = y +:+ b → x = y.
Proof.
  intros H. apply (f_equal string_rev) in H. rewrite !string_rev_app in H.
  apply (inj (String.app _)) in H.
  by rewrite <- (string_rev_involutive x), H, string_rev_involutive.
Qed.

Lemma build_crx_download_url_inj id1 id2 :
  build_crx_download_url id1 = build_crx_download_url id2 → py_str id1 = py_str id2.
Proof.
  unfold build_crx_download_url. intros H.
  do 5 apply (inj (String.app _)) in H.
  by apply string_app_inv_r in H.
Qed.

Lemma download_extension_state ext_id path st o st' :
  download_extension ext_id path st = (o, st') →
  trace st' = trace st ++ [Get (build_crx_download_url ext_id)]
  ∧ (files st' = files st ∨ ∃ content, files st' = <[path := content]> (files st)).
Proof.
  unfold Download.download_extension.
  destruct (http_get _ _) as [|code content].
  - intros [= <- <-]. auto.
  - destruct (_ && _)%nat.
    + intros [= <- <-]. auto.
    + destruct (open_wb path); [|intros [= <- <-]; auto].
      destruct (file_write path content); intros [= <- <-]; simpl; eauto.
Qed.

Lemma emit_emit evs1 evs2 st : emit evs2 (emit evs1 st) = emit (evs1 ++ evs2) st.
Proof. unfold emit. simpl. by rewrite <- app_assoc. Qed.

Lemma isfile_false path st : isfile path st = false ↔ files st !! path = None.
Proof.
  unfold isfile. rewrite bool_decide_eq_false. split.
  - intros H. destruct (files st !! path); [|done]. destruct H; eauto.
  - intros -> [? ?]. done.
Qed.


(** A run keeps every file it finds and sends requests only for ids that
    had no archive when it started. *)
Lemma download_all_frame exts st r st' :
  download_all exts st = (r, st') →
  (∀ path content, files st !! path = Some content → files st' !! path = Some content)
  ∧ ∃ evs, trace st' = trace st ++ evs
           ∧ ∀ url, Get url ∈ evs →
               ∃ ext_id, url = build_crx_download_url ext_id
                         ∧ isfile (output_file_of ext_id) st = false.
Proof.
  revert st r st'. induction exts as [|ext exts IH]; intros st r st'; simpl.
  { intros [= <- <-]. split; [done|]. exists []. rewrite app_nil_r.
    split; [done|]. intros url H. by apply elem_of_nil in H. }
  destruct (py_get ext "id" JNull) as [ext_id|e].
  2:{ intros [= <- <-]. split; [done|]. exists []. rewrite app_nil_r.
      split; [done|]. intros url H. by apply elem_of_nil in H. }
  destruct (negb (truthy ext_id)); [apply IH|].
  destruct (isfile _ st) eqn:Hfile; [apply IH|].
  apply isfile_false in Hfile.
  destruct (download_extension _ _ _) as [o st1] eqn:Hd.
  apply download_extension_state in Hd as [Htr Hfiles].
  assert (Hkeep : ∀ path content,
             files st !! path = Some content → files st1 !! path = Some content).
  { intros path content Hp. destruct Hfiles as [->|(c & ->)]; [done|].
    rewrite lookup_insert_ne; [done|]. intros <-. congruence. }
  assert (Hstep : ∀ evs0 r st',
    download_all exts (emit evs0 st1) = (r, st') →
    (∀ path content, files st !! path = Some content → files st' !! path = Some content)
    ∧ ∃ evs, trace st' = trace st ++ evs
           ∧ ∀ url, Get url ∈ evs →
               (∃ ext_id, url = build_crx_download_url ext_id
                         ∧ isfile (output_file_of ext_id) st = false)
               ∨ Get url ∈ evs0).
  { intros evs0 r0 st0 H. apply IH in H as (Hk & evs & He & Hg).
    split; [auto|].
    exists ([Get (build_crx_download_url ext_id)] ++ evs0 ++ evs).
    split.
    { rewrite He. simpl. rewrite Htr. by rewrite <- !app_assoc. }
    intros url Hin. rewrite !elem_of_app in Hin.
    destruct Hin as [Hin|[Hin|Hin]].
    - apply list_elem_of_singleton in Hin as [= ->]. left.
      exists ext_id. split; [done|]. by apply isfile_false.
    - by right.
    - left. destruct (Hg url Hin) as (id' & -> & Hnone).
      exists id'. split; [done|].
      apply isfile_false. apply isfile_false in Hnone. simpl in Hnone.
      destruct (files st !! output_file_of id') eqn:E; [|done].
      apply Hkeep in E. congruence. }
  destruct o as [e|]; intros H; apply Hstep in H as (Hk & evs & He & Hg);
    (split; [done|]); exists evs; (split; [done|]);
    intros url Hin; destruct (Hg url Hin) as [?|Hin']; try done.
  - apply list_elem_of_singleton in Hin'. done.
  - rewrite elem_of_cons, list_elem_of_singleton in Hin'. by destruct Hin'.
Qed.

(** C8. A record whose archive exists is skipped: its step changes nothing
    and sends nothing. Through a whole run every file present at the start
    stays as it is and no request is sent for such a record; when every
    record has its archive the run leaves the state, trace included, as it
    found it, so a second run sends no request either. *)
Theorem existing_archive_is_skipped :
  (∀ ext ext_id rest st,
      py_get ext "id" JNull = Ok ext_id →
      isfile (output_file_of ext_id) st = true →
      download_all (ext :: rest) st = download_all rest st)
  ∧ (∀ exts st r st',
      download_all exts st = (r, st') →
      (∀ path content,
          files st !! path = Some content → files st' !! path = Some content)
      ∧ ∃ evs, trace st' = trace st ++ evs
               ∧ ∀ ext ext_id,
                   ext ∈ exts → py_get ext "id" JNull = Ok ext_id →
                   isfile (output_file_of ext_id) st = true →
                   Get (build_crx_download_url ext_id) ∉ evs)
  ∧ (∀ exts st,
      Forall (λ ext, ∃ ext_id, py_get ext "id" JNull = Ok ext_id
                               ∧ isfile (output_file_of ext_id) st = true) exts →
      download_all exts st = (Ok tt, st)
      ∧ download_all exts (download_all exts st).2 = (Ok tt, st)).
Proof.
  assert (Hskip : ∀ ext ext_id rest st,
      py_get ext "id" JNull = Ok ext_id →
      isfile (output_file_of ext_id) st = true →
      download_all (ext :: rest) st = download_all rest st).
  { intros ext ext_id rest st Hid Hfile. simpl. rewrite Hid, Hfile.
    by destruct (negb (truthy ext_id)). }
  assert (Hall : ∀ exts st,
      Forall (λ ext, ∃ ext_id, py_get ext "id" JNull = Ok ext_id
                               ∧ isfile (output_file_of ext_id) st = true) exts →
      download_all exts st = (Ok tt, st)).
  { intros exts st H. induction H as [|ext exts (ext_id & Hid & Hfile) _ IH]; [done|].
    by rewrite (Hskip _ _ _ _ Hid Hfile). }
  split; [exact Hskip|]. split.
  - intros exts st r st' H.
    destruct (download_all_frame _ _ _ _ H) as (Hkeep & evs & Htr & Hget).
    split; [done|]. exists evs. split; [done|].
    intros ext ext_id _ _ Hfile Hin.
    destruct (Hget _ Hin) as (id' & Hurl & Hnone).
    apply build_crx_download_url_inj in Hurl.
    unfold output_file_of in *. rewrite Hurl in Hfile. congruence.
  - intros exts st H. rewrite (Hall _ _ H). split; [done|]. by apply Hall.
Qed.

(** C9, as the code has it. A download that fails (the request raised, the
    final status is between 400 and 599, the archive cannot be opened for
    writing, or the write raises) does not stop the batch: the failure is
    shown on the progress bar with the id and the cause, no delay is taken,
    and the run goes on with the next record; no file is written, except
    that a write that raises leaves the file it had opened. A response with
    any other status is written to the archive and shown as downloaded. *)
Theorem failed_download_is_reported ext ext_id rest st :
  py_get ext "id" JNull = Ok ext_id →
  truthy ext_id = true →
  isfile (output_file_of ext_id) st = false →
  let url := build_crx_download_url ext_id in
  let failed e := download_all rest (emit [Get url; SetPostfix ext_id (Failed e)] st) in
  download_all (ext :: rest) st
  = match http_get (length (network_calls (trace st))) url with
    | NoResponse => failed RequestException
    | Response code content =>
        if ((400 <=? code) && (code <? 600))%nat then failed (HTTPError code)
        else if open_wb (output_file_of ext_id) then
          match file_write (output_file_of ext_id) content with
          | None =>
              download_all rest
                {| files := <[output_file_of ext_id := content]> (files st);
                   trace := trace st ++ [Get url; SetPostfix ext_id Downloaded; Sleep] |}
          | Some partial =>
              download_all rest
                {| files := <[output_file_of ext_id := partial]> (files st);
                   trace := trace st ++ [Get url; SetPostfix ext_id (Failed OSError)] |}
          end
        else failed OSError
    end.
Proof.
  intros Hid Htruthy Hfile url failed. subst failed. simpl.
  rewrite Hid, Htruthy, Hfile. simpl. unfold Download.download_extension. fold url.
  destruct (http_get _ url) as [|code content]; [by rewrite emit_emit|].
  destruct (_ && _)%nat; [by rewrite emit_emit|].
  destruct (open_wb _); [|by rewrite emit_emit].
  destruct (file_write _ _); unfold emit; simpl; by rewrite <- app_assoc.
Qed.

End DownloaderProperties.

Section ListFile.

Context (json_loads : string → result json).
Context (http_get : nat → string → response) (open_wb : string → bool).
Context (file_write : string → list Byte.byte → option (list Byte.byte)).

#[local] Abbreviation download_all' := (Download.download_all http_get open_wb file_write).
#[local] Abbreviation main' := (Download.main json_loads http_get open_wb file_write).










End ListFile.



Lemma existing_archive_is_skipped_witness :
  download_all Served.unreachable Served.writable Served.flushes
    [Served.entry "aaa"; Served.nameless] Served.has_aaa
  = download_all Served.unreachable Served.writable Served.flushes [Served.nameless] Served.has_aaa
  ∧ download_all Served.unreachable Served.writable Served.flushes [Served.entry "aaa"] Served.has_aaa
    = (Ok tt, Served.has_aaa).
Proof.
  destruct (existing_archive_is_skipped Served.unreachable Served.writable Served.flushes)
    as (Hskip & _ & Hall).
  split.
  - apply (Hskip (Served.entry "aaa") (JStr "aaa")); [reflexivity|].
    vm_compute. reflexivity.
  - apply Hall. constructor; [|constructor].
    exists (JStr "aaa"). split; [reflexivity | vm_compute; reflexivity].
Defined.

Lemma failed_download_is_reported_witness :
  download_all Served.not_found Served.writable Served.flushes
    [Served.entry "aaa"; Served.entry "ccc"] Served.nothing
  = download_all Served.not_found Served.writable Served.flushes [Served.entry "ccc"]
      (emit [Get (build_crx_download_url (JStr "aaa"));
             SetPostfix (JStr "aaa") (Failed (HTTPError 404))] Served.nothing).
Proof.
  apply (failed_download_is_reported Served.not_found Served.writable Served.flushes
           (Served.entry "aaa") (JStr "aaa") [Served.entry "ccc"] Served.nothing);
    [reflexivity | reflexivity | vm_compute; reflexivity].
Defined.

(** C9, as stated, fails: a final response with status 304 is not a success
    status, yet the record is shown as downloaded, the empty body is stored
    as its archive, and no failure is reported. *)
Lemma status_304_is_stored_as_archive :
  ∃ st', download_all Served.not_modified Served.writable Served.flushes [Served.entry "aaa"] Served.nothing
         = (Ok tt, st')
         ∧ trace st' = [Get (build_crx_download_url (JStr "aaa"));
                        SetPostfix (JStr "aaa") Downloaded; Sleep]
         ∧ files st' !! output_file_of (JStr "aaa") = Some [].
Proof.
  eexists. split; [reflexivity|]. split; [reflexivity|]. vm_compute. reflexivity.
Qed.
(** * The classifier's properties *)

Import Filtering.

Lemma py_any_true {A} (f : A → result bool) l :
  py_any f l = Ok true → ∃ x, x ∈ l ∧ f x = Ok true.
Proof.
  induction l as [|x l IH]; simpl; [done|].
  destruct (f x) as [[]|e] eqn:E; try done.
  - intros _. exists x. split; [left|done].
  - intros H. destruct (IH H) as (y & Hy & Hf). exists y. split; [by right|done].
Qed.

Lemma py_any_false {A} (f : A → result bool) l :
  py_any f l = Ok false → ∀ x, x ∈ l → f x = Ok false.
Proof.
  induction l as [|x l IH]; simpl; intros H y Hy.
  - by apply elem_of_nil in Hy.
  - destruct (f x) as [[]|e] eqn:E; try done.
    apply elem_of_cons in Hy as [->|Hy]; auto.
Qed.

Lemma py_any_total {A} (f : A → result bool) l :
  (∀ x, x ∈ l → is_ok (f x) = true) → is_ok (py_any f l) = true.
Proof.
  induction l as [|x l IH]; simpl; intros H; [done|].
  pose proof (H x (list_elem_of_here _ _)) as Hx.
  destruct (f x) as [[]|e]; try done.
  apply IH. intros y Hy. apply H. by right.
Qed.

Lemma endswith_refl s : endswith s s = true.
Proof. destruct s; simpl; [done|]. by rewrite Ascii.eqb_refl, String.eqb_refl. Qed.

Lemma endswith_app p t : endswith (p +:+ t) t = true.
Proof.
  induction p as [|a p IH].
  - apply endswith_refl.
  - rewrite sapp_cons. simpl. rewrite IH. apply orb_true_r.
Qed.

Lemma endswith_unfold s suffix :
  endswith s suffix
  = String.eqb s suffix || match s with "" => false | String _ t => endswith t suffix end.
Proof. by destruct s. Qed.

(** A text that ends in [p +:+ t] ends in [t]. *)
Lemma endswith_shorter s p t : endswith s (p +:+ t) = true → endswith s t = true.
Proof.
  induction s as [|a s IH]; rewrite (endswith_unfold _ (p +:+ t)).
  - rewrite orb_false_r. intros ->%String.eqb_eq. apply endswith_app.
  - intros [->%String.eqb_eq|H]%orb_true_iff; [apply endswith_app|].
    rewrite endswith_unfold. rewrite (IH H). apply orb_true_r.
Qed.

(** ** The first disjunct *)

Lemma res_matches_true res :
  res_matches res = Ok true ↔
  ∃ s suffix, res = JStr s ∧ suffix ∈ ["html"; "js"] ∧ endswith s suffix = true.
Proof.
  split.
  - destruct res as [| | | |s| |]; simpl; try done.
    intros [= [H|H]%orb_true_iff]; exists s.
    + exists "html". split; [done|]. split; [left|done].
    + exists "js". split; [done|]. split; [right; left|done].
  - intros (s & suffix & -> & Hin & Hs). simpl. f_equal.
    apply elem_of_cons in Hin as [->|Hin]; [by rewrite Hs|].
    apply list_elem_of_singleton in Hin as ->. rewrite Hs. apply orb_true_r.
Qed.

Lemma web_accessible_spec manifest b :
  web_accessible manifest = Ok b →
  (b = true ↔ lists_resource_ending ["html"; "js"] manifest).
Proof.
  unfold web_accessible, lists_resource_ending.
  destruct (py_get manifest _ _) as [declared|e]; cbn [mbind result_bind]; [|done].
  destruct (py_iter declared) as [entries|e] eqn:Hiter; cbn [mbind result_bind]; [|done].
  intros Hany. split.
  - intros ->. apply py_any_true in Hany as (resource & Hin & Hm).
    unfold resource_matches in Hm.
    destruct (is_dict resource) eqn:Hd; [|done].
    destruct (py_get resource _ _) as [listed|e] eqn:Hget;
      cbn [mbind result_bind] in Hm; [|done].
    destruct (py_iter listed) as [resources|e] eqn:Hit;
      cbn [mbind result_bind] in Hm; [|done].
    apply py_any_true in Hm as (res & Hres & Hr).
    apply res_matches_true in Hr as (s & suffix & -> & Hsuf & Hs).
    exists declared, entries, resource, listed, resources, s, suffix. done.
  - intros (declared' & entries' & resource & listed & resources & s & suffix
            & [= <-] & Hit & Hin & Hd & Hget & Hit' & Hres & Hsuf & Hs).
    assert (entries' = entries) as -> by congruence.
    destruct b; [done|].
    pose proof (py_any_false _ _ Hany resource Hin) as Hm.
    unfold resource_matches in Hm. rewrite Hd, Hget in Hm.
    cbn [mbind result_bind] in Hm. rewrite Hit' in Hm. cbn [mbind result_bind] in Hm.
    pose proof (py_any_false _ _ Hm (JStr s) Hres) as Hr.
    assert (res_matches (JStr s) = Ok true) as Ht; [|congruence].
    apply res_matches_true. eauto.
Qed.

Lemma web_accessible_typed manifest :
  typed_resources manifest = true → is_ok (web_accessible manifest) = true.
Proof.
  destruct manifest as [| | | | | |items]; try done.
  unfold typed_resources, web_accessible. simpl py_get.
  destruct (dict_lookup _ items) as [declared|]; cbn [mbind result_bind]; [|done].
  destruct declared as [| | | | |entries|]; try done. simpl py_iter.
  cbn [mbind result_bind]. intros Hall. apply py_any_total.
  intros resource Hin. rewrite forallb_forall in Hall.
  apply list_elem_of_In, Hall in Hin.
  destruct resource as [| | | | | |ritems]; try done.
  unfold resource_matches. simpl is_dict. cbv iota. simpl py_get.
  simpl in Hin. destruct (dict_lookup _ ritems) as [listed|]; cbn [mbind result_bind];
    [|done].
  destruct listed as [| | | | |l|]; try done. simpl py_iter. cbn [mbind result_bind].
  apply py_any_total. intros res Hres. rewrite forallb_forall in Hin.
  apply list_elem_of_In, Hin in Hres. by destruct res.
Qed.

Lemma web_accessible_dict manifest b :
  web_accessible manifest = Ok b → ∃ items, manifest = JObj items.
Proof. destruct manifest; try done. eauto. Qed.

(** C3, as the code has it. On a descriptor whose web-accessible resources
    are typed (the value under [web_accessible_resources], when there is
    one, is a list, and every entry of it that is an object has a list of
    texts under [resources]) the first disjunct raises nothing and holds
    exactly when an object entry lists a resource ending in "html" or
    "js", no dot required; so it holds whenever a resource ends in ".html"
    or ".js". Such a descriptor is classified network-related when the
    other disjuncts raise nothing, and a typed descriptor that lists no
    such resource, the other six disjuncts being false, is classified
    not-network-related. *)
Theorem web_accessible_disjunct manifest :
  typed_resources manifest = true →
  (web_accessible manifest = Ok true ↔ lists_resource_ending ["html"; "js"] manifest)
  ∧ (web_accessible manifest = Ok false
     ↔ ¬ lists_resource_ending ["html"; "js"] manifest)
  ∧ (lists_resource_ending [".html"; ".js"] manifest → web_accessible manifest = Ok true)
  ∧ (lists_resource_ending ["html"; "js"] manifest →
     is_ok (content_scripts manifest) = true → is_ok (has_action manifest) = true →
     is_network_related manifest = Ok true)
  ∧ (¬ lists_resource_ending ["html"; "js"] manifest →
     other_disjuncts_false manifest →
     is_network_related manifest = Ok false).
Proof.
  intros Htyped. apply web_accessible_typed in Htyped.
  destruct (web_accessible manifest) as [b|e] eqn:Hw; [|done]. clear Htyped.
  pose proof (web_accessible_spec manifest b Hw) as Hspec.
  assert (Hdot : lists_resource_ending [".html"; ".js"] manifest →
                 lists_resource_ending ["html"; "js"] manifest).
  { intros (declared & entries & resource & listed & resources & s & suffix
            & H1 & H2 & H3 & H4 & H5 & H6 & H7 & Hsuf & Hs).
    apply elem_of_cons in Hsuf as [->|Hsuf].
    - exists declared, entries, resource, listed, resources, s, "html".
      repeat (split; [done|]). split; [left|].
      by apply (endswith_shorter s "." "html").
    - apply list_elem_of_singleton in Hsuf as ->.
      exists declared, entries, resource, listed, resources, s, "js".
      repeat (split; [done|]). split; [right; left|].
      by apply (endswith_shorter s "." "js"). }
  assert (Hnet : ∀ w, web_accessible manifest = Ok w → ∃ items, manifest = JObj items).
  { intros w. apply web_accessible_dict. }
  split; [|split; [|split; [|split]]].
  - split; [intros [= ->]; by apply Hspec|]. intros Hl. f_equal. by apply Hspec.
  - split.
    + intros [= ->] Hl. apply Hspec in Hl. discriminate.
    + intros Hn. f_equal. destruct b; [|done]. destruct Hn. by apply Hspec.
  - intros Hl. f_equal. by apply Hspec, Hdot.
  - intros Hl Hc Ha. apply Hspec in Hl as ->.
    destruct (Hnet _ Hw) as [items ->].
    unfold is_network_related. rewrite Hw. cbn [mbind result_bind py_in].
    destruct (content_scripts _) as [c|]; [|done].
    destruct (has_action _) as [a|]; [|done].
    cbn [mbind result_bind has_permissions py_get]. done.
  - intros Hn (Hp & Hh & Hc & Ha & Ho & Hu). unfold is_network_related.
    rewrite Hw. cbn [mbind result_bind].
    rewrite Hh, Hu, Hc, Hp, Ha, Ho. cbn [mbind result_bind].
    rewrite !orb_false_r. f_equal. destruct b; [|done]. destruct Hn. by apply Hspec.
Qed.

Lemma web_accessible_disjunct_witness :
  (web_accessible Descriptors.page_script = Ok true
   ↔ lists_resource_ending ["html"; "js"] Descriptors.page_script)
  ∧ is_network_related Descriptors.page_script = Ok true
  ∧ is_network_related Descriptors.plain_theme = Ok false.
Proof.
  destruct (web_accessible_disjunct Descriptors.page_script eq_refl)
    as (Hspec & _ & _ & Hnet & _).
  destruct (web_accessible_disjunct Descriptors.plain_theme eq_refl)
    as (_ & Hnone & _ & _ & Hfalse).
  split; [exact Hspec|]. split.
  - apply Hnet; [by apply Hspec|reflexivity..].
  - apply Hfalse; [by apply Hnone|repeat split].
Defined.

(** C3, as stated, fails: no web-accessible resource of this descriptor
    ends in ".html" or ".js" and its other six disjuncts are false, yet it
    is classified network-related, because "nojs" ends in "js". *)
Lemma resource_without_dot_is_network_related :
  is_network_related Descriptors.nojs = Ok true
  ∧ other_disjuncts_false Descriptors.nojs
  ∧ ¬ lists_resource_ending [".html"; ".js"] Descriptors.nojs.
Proof.
  split; [reflexivity|]. split; [repeat split|].
  intros (declared & entries & resource & listed & resources & s & suffix
          & [= <-] & [= <-] & Hin & _ & Hget & Hit & Hres & Hsuf & Hs).
  apply list_elem_of_singleton in Hin as ->.
  injection Hget as <-. injection Hit as <-.
  apply list_elem_of_singleton in Hres as [= ->].
  apply elem_of_cons in Hsuf as [->|Hsuf]; [done|].
  apply list_elem_of_singleton in Hsuf as ->. done.
Qed.
(** ** Stripping *)

Lemma dict_pop_keys keys items :
  foldl (λ acc key, dict_pop key acc) items keys
  = filter (λ kv, kv.1 ∉ keys) items.
Proof.
  revert items. induction keys as [|key keys IH]; intros items; simpl.
  - induction items as [|kv items IHi]; [done|].
    rewrite filter_cons_True; [by f_equal|]. apply not_elem_of_nil.
  - rewrite IH. unfold dict_pop. rewrite list_filter_filter.
    apply list_filter_iff. intros kv. rewrite not_elem_of_cons. tauto.
Qed.

Lemma dict_lookup_without (keys : list string) k items :
  dict_lookup k (filter (λ kv : string * json, kv.1 ∉ keys) items)
  = if decide (k ∈ keys) then None else dict_lookup k items.
Proof.
  induction items as [|[k' v] items IH]; simpl.
  - by destruct (decide (k ∈ keys)).
  - rewrite filter_cons. simpl. destruct (String.eqb_spec k k') as [<-|Hne].
    + destruct (decide (k ∉ keys)) as [Hn|Hn]; destruct (decide (k ∈ keys)); try done.
      simpl. by rewrite String.eqb_refl.
    + destruct (decide (k' ∉ keys)); [|done]. simpl.
      destruct (String.eqb_spec k k'); [done|]. exact IH.
Qed.

(** ** Directory names *)

Lemma all_dots_app s t : all_dots (s +:+ t) = all_dots s && all_dots t.
Proof.
  induction s as [|a s IH]; [done|].
  rewrite sapp_cons. simpl. by rewrite IH, andb_assoc.
Qed.

Lemma all_dots_rev s : all_dots (string_rev s) = all_dots s.
Proof.
  induction s as [|a s IH]; [done|].
  simpl. rewrite all_dots_app, IH. simpl. rewrite andb_true_r. apply andb_comm.
Qed.



(** The package name built from such an id gives the id back. *)
Lemma splitext_root_crx ext_id :
  all_dots ext_id = false → splitext_root (ext_id +:+ ".crx") = ext_id.
Proof.
  intros H. unfold splitext_root. rewrite string_rev_app.
  change (string_rev ".crx") with "xrc.". rewrite !sapp_cons. simpl after_dot.
  rewrite sapp_empty_l, all_dots_rev, H. apply string_rev_involutive.
Qed.

(** ** The disk through the three steps *)

Lemma tree_of_set_source d ext_id tree x :
  tree_of (set_source d (<[ext_id := tree]> (source d))) x
  = if decide (x = ext_id) then tree else tree_of d x.
Proof.
  unfold tree_of. simpl. destruct (decide (x = ext_id)) as [->|Hne].
  - by rewrite lookup_insert_eq.
  - by rewrite lookup_insert_ne.
Qed.

Lemma touches_only_refl ext_id d : touches_only ext_id d d.
Proof. by repeat split. Qed.


Lemma set_source_touches ext_id tree d :
  touches_only ext_id d (set_source d (<[ext_id := tree]> (source d))).
Proof.
  split; [done|]. split; [done|]. intros x Hx. simpl. by rewrite lookup_insert_ne.
Qed.

(** What extracting a member leaves: the disk as it was, with the
    directory made, or with one file written. *)
Lemma extract_member_disk ext_id name members d :
  (extract_member ext_id name members d).2 = d
  ∨ (extract_member ext_id name members d).2 = makedirs ext_id d
  ∨ ∃ path text, (extract_member ext_id name members d).2 = write_file ext_id path text d.
Proof.
  unfold extract_member. destruct (getinfo name members) as [m|]; [|by left].
  destruct (is_dir name); [right; by left|].
  destruct (String.eqb (arcname name) ""); [left; by destruct m as [|e []]|].
  destruct m as [text|e [written|]]; simpl; eauto.
Qed.

Lemma extract_member_touches ext_id name members d :
  touches_only ext_id d (extract_member ext_id name members d).2.
Proof.
  destruct (extract_member_disk ext_id name members d) as [->|[->|(path & text & ->)]].
  - apply touches_only_refl.
  - apply set_source_touches.
  - apply set_source_touches.
Qed.


Lemma swallow_disk caught r : (swallow caught r).2 = r.2.
Proof. destruct r as [[e|] d]; [|done]. simpl. by destruct (caught e). Qed.


Lemma unzip_manifest_only_touches name p d :
  touches_only (splitext_root name) d (unzip_manifest_only name p d).2.
Proof.
  unfold unzip_manifest_only. destruct (bool_decide _); [apply touches_only_refl|].
  rewrite swallow_disk.
  destruct p as [e|members]; [apply touches_only_refl|]. apply extract_member_touches.
Qed.

Lemma extract_selected_cons ext_id ids d :
  extract_selected (ext_id :: ids) d
  = match find_crx_file_by_id ext_id d with
    | Some (name, p) =>
        match unzip_all_files name p d with
        | (None, d1) => extract_selected ids d1
        | (Some e, d1) => (Some e, d1)
        end
    | None => extract_selected ids d
    end.
Proof. reflexivity. Qed.


Section ClassifierProperties.

Context (json_load : string → option json).





End ClassifierProperties.


(** * Further properties of the collector *)

(** ** Substrings *)

Lemma prefix_iff p s : String.prefix p s = true ↔ ∃ b, s = p +:+ b.
Proof.
  revert s. induction p as [|a p IH]; intros s.
  - split; [intros _; by exists s|]. intros _. by destruct s.
  - destruct s as [|c s]; simpl.
    + split; [done|]. by intros [b Hb].
    + destruct (ascii_dec a c) as [->|Hne].
      * rewrite IH. split; intros [b Hb]; exists b.
        -- by rewrite sapp_cons, <- Hb.
        -- rewrite sapp_cons in Hb. by injection Hb.
      * split; [done|]. intros [b Hb]. rewrite sapp_cons in Hb. injection Hb. done.
Qed.

Lemma contains_iff n h : contains n h = true ↔ ∃ a b, h = a +:+ n +:+ b.
Proof.
  induction h as [|c h IH]; rewrite contains_unfold.
  - rewrite orb_false_r, prefix_iff. split.
    + intros [b Hb]. by exists "", b.
    + intros (a & b & Hab). destruct a; [by exists b|]. by rewrite sapp_cons in Hab.
  - rewrite orb_true_iff, prefix_iff, IH. split.
    + intros [[b Hb]|(a & b & ->)]; [by exists "", b|]. by exists (String c a), b.
    + intros (a & b & Hab). destruct a as [|c' a].
      * left. by exists b.
      * right. rewrite sapp_cons in Hab. injection Hab as _ ->. by exists a, b.
Qed.

Lemma contains_trans s t h : contains s t = true → contains t h = true → contains s h = true.
Proof.
  rewrite !contains_iff. intros (a & b & ->) (a' & b' & ->).
  exists (a' +:+ a), (b +:+ b'). by rewrite !sapp_assoc.
Qed.

Lemma contains_empty h : contains "" h = true.
Proof. apply contains_iff. by exists "", h. Qed.

(** ** The record log through a page and through a run *)

Lemma process_rows_raise rows n file e file' :
  process_rows rows n file = (Raise e, file') →
  ∃ records, file' = file +:+ record_lines records.
Proof.
  revert n file. induction rows as [|row rows IH]; intros n file; simpl; [done|].
  destruct (parse_extension_info row) as [[[ext_id uc] info]|e0] eqn:Hp.
  2:{ intros [= <- <-]. exists []. by rewrite sapp_empty_r. }
  destruct (is_string_in_file ext_id (Some file)) as [[]|e0]; [eauto| |].
  2:{ intros [= <- <-]. exists []. by rewrite sapp_empty_r. }
  destruct (MIN_USER_COUNT <=? uc); [|eauto].
  intros H. apply IH in H as (records & ->).
  apply parse_extension_info_inv in Hp as (_ & fields & ->).
  exists ((("id", ext_id) :: fields) :: records).
  unfold append_dict_to_file. rewrite record_lines_cons. by rewrite !sapp_assoc.
Qed.

Lemma process_extensions_log extensions file r file' :
  process_extensions extensions file = (r, file') →
  ∃ records, file' = file +:+ record_lines records.
Proof.
  unfold process_extensions. destruct (py_iter extensions) as [rows|e].
  2:{ intros [= <- <-]. exists []. by rewrite sapp_empty_r. }
  destruct r as [n|e]; intros H.
  - apply process_rows_appends in H as (records & -> & ->). by exists records.
  - apply process_rows_raise in H as (records & ->). by exists records.
Qed.

(** X1. Whatever [process_extensions] returns or raises, the log it leaves is
    the log it found followed by whole record lines, and when it returns,
    the number it returns is the number of those lines. *)
Theorem process_extensions_appends_whole_records extensions file r file' :
  process_extensions extensions file = (r, file') →
  ∃ records, file' = file +:+ record_lines records
             ∧ ∀ n, r = Ok n → n = length records.
Proof.
  unfold process_extensions. destruct (py_iter extensions) as [rows|e].
  2:{ intros [= <- <-]. exists []. by rewrite sapp_empty_r. }
  destruct r as [n|e]; intros H.
  - apply process_rows_appends in H as (records & -> & ->).
    exists records. split; [done|]. by intros ? [= <-].
  - apply process_rows_raise in H as (records & ->). by exists records.
Qed.

Lemma process_extensions_appends_whole_records_witness :
  ∃ records,
    record_lines [Fixture.record "aaa" "A" "7"]
    = "" +:+ record_lines records
    ∧ ∀ n, @Raise nat ValueError = Ok n → n = length records.
Proof.
  apply (process_extensions_appends_whole_records (JArr Fixture.broken_page) ""
           (Raise ValueError) (record_lines [Fixture.record "aaa" "A" "7"])).
  vm_compute. reflexivity.
Defined.

Lemma run_loop_log fetch fuel token st o st' :
  run_loop fetch fuel token st = Some (o, st') →
  ∃ records, log st' = log st +:+ record_lines records.
Proof.
  revert token st. induction fuel as [|fuel IH]; intros token st; [done|].
  assert (Hsame : ∃ records, log st = log st +:+ record_lines records).
  { exists []. by rewrite sapp_empty_r. }
  simpl.
  destruct (fetch _ _) as [rd|]; [|by intros [= <- <-]].
  destruct (page_fields rd) as [[items cursor]|e]; [|by intros [= <- <-]].
  destruct (truthy items); simpl; [|by intros [= <- <-]].
  destruct (process_extensions items (log st)) as [r file] eqn:Hp.
  apply process_extensions_log in Hp as (records & ->).
  destruct r as [saved|e]; [|intros [= <- <-]; simpl; eauto].
  destruct (_ && _); [intros [= <- <-]; simpl; eauto|].
  intros H. apply IH in H as (records' & ->). simpl.
  exists (records ++ records'). by rewrite record_lines_app, sapp_assoc.
Qed.

(** X2. The record log is append-only through a run: however the run ends,
    the log it leaves is the log it found followed by whole record lines,
    and the requests it sent come after those sent before. *)
Theorem run_appends_to_log fetch fuel st o st' :
  run fetch fuel st = Some (o, st') →
  (∃ records, log st' = log st +:+ record_lines records)
  ∧ ∃ sent, requests st' = requests st ++ sent.
Proof.
  unfold run. destruct (load_checkpoint (checkpoint st)) as [token|e].
  2:{ intros [= <- <-]. split; [exists []; by rewrite sapp_empty_r|].
      exists []. by rewrite app_nil_r. }
  intros H. split; [by apply (run_loop_log _ _ _ _ _ _ H)|].
  destruct fuel as [|fuel]; [done|].
  apply run_loop_first_request in H as [later ->]. eauto.
Qed.

Lemma run_appends_to_log_witness :
  (∃ records,
      record_lines [Fixture.record "aaa" "A" "7"; Fixture.record "bbb" "B" "5"]
      = "" +:+ record_lines records)
  ∧ ∃ sent, [None; Some "tok1"; None] = [] ++ sent.
Proof.
  apply (run_appends_to_log Fixture.failing_third 9 (init None None) FetchFailed
           {| log := record_lines [Fixture.record "aaa" "A" "7";
                                   Fixture.record "bbb" "B" "5"];
              checkpoint := save_checkpoint (JStr "tok1");
              requests := [None; Some "tok1"; None] |}).
  vm_compute. reflexivity.
Defined.

(** ** Rows already recorded *)

(** X3. A page whose row ids are plain text, processed again over the log
    its first processing left, however much was appended since, adds
    nothing and counts zero. *)
Theorem processed_page_adds_nothing rows file saved file' more :
  Forall (λ row, row_id_plain row = true) rows →
  process_extensions (JArr rows) file = (Ok saved, file') →
  process_extensions (JArr rows) (file' +:+ more) = (Ok 0%nat, file' +:+ more).
Proof.
  unfold process_extensions. simpl. intros Hplain H.
  apply (process_rows_settled _ _ _ _ _ Hplain H).
Qed.

Lemma processed_page_adds_nothing_witness :
  process_extensions (JArr Fixture.page1)
    (record_lines [Fixture.record "aaa" "A" "10,000+"; Fixture.record "ccc" "C" "5"]
     +:+ record_lines [Fixture.record "ddd" "D" "1"])
  = (Ok 0%nat,
     record_lines [Fixture.record "aaa" "A" "10,000+"; Fixture.record "ccc" "C" "5"]
     +:+ record_lines [Fixture.record "ddd" "D" "1"]).
Proof.
  apply (processed_page_adds_nothing Fixture.page1 "" 2).
  - repeat constructor.
  - vm_compute. reflexivity.
Defined.

(** X4. A run resumed at a page it had already processed, when the row ids
    of that page are plain text and the page is the last one (its cursor is
    the sentinel), sends that one request, adds nothing to the log, keeps
    the checkpoint and ends normally. *)
Theorem resumed_at_last_page_changes_nothing
    fetch fuel st cursor response_data rows file0 saved file1 more :
  checkpoint st = save_checkpoint cursor →
  fetch (length (requests st)) (build_request_url cursor) = Some response_data →
  page_fields response_data = Ok (JArr rows, JNull) →
  rows ≠ [] →
  Forall (λ row, row_id_plain row = true) rows →
  process_extensions (JArr rows) file0 = (Ok saved, file1) →
  log st = file1 +:+ more →
  run fetch (S fuel) st
  = Some (NoNewExtensions,
          {| log := log st; checkpoint := checkpoint st;
             requests := requests st ++ [build_request_url cursor] |}).
Proof.
  intros Hck Hfetch Hpage Hrows Hplain Hfirst Hlog.
  unfold run, load_checkpoint. rewrite Hck.
  cbn [save_checkpoint py_get dict_lookup String.eqb Ascii.eqb Bool.eqb].
  rewrite (run_loop_page _ _ _ _ _ _ _ 0%nat (log st) Hfetch Hpage).
  - by rewrite <- Hck.
  - by destruct rows.
  - rewrite Hlog. unfold process_extensions in Hfirst |- *.
    cbn [py_iter] in Hfirst |- *. apply (process_rows_settled _ _ _ _ _ Hplain Hfirst).
Qed.

Lemma resumed_at_last_page_changes_nothing_witness :
  run Fixture.two_pages 1
    {| log := record_lines [Fixture.record "aaa" "A" "10,000+";
                            Fixture.record "ccc" "C" "5"; Fixture.record "ddd" "D" "1"];
       checkpoint := save_checkpoint (JStr "tok1");
       requests := [None; Some "tok1"; None; Some "tok1"] |}
  = Some (NoNewExtensions,
          {| log := record_lines [Fixture.record "aaa" "A" "10,000+";
                                  Fixture.record "ccc" "C" "5";
                                  Fixture.record "ddd" "D" "1"];
             checkpoint := save_checkpoint (JStr "tok1");
             requests := [None; Some "tok1"; None; Some "tok1"]
                         ++ [build_request_url (JStr "tok1")] |}).
Proof.
  apply (resumed_at_last_page_changes_nothing Fixture.two_pages 0
           {| log := record_lines [Fixture.record "aaa" "A" "10,000+";
                                   Fixture.record "ccc" "C" "5";
                                   Fixture.record "ddd" "D" "1"];
              checkpoint := save_checkpoint (JStr "tok1");
              requests := [None; Some "tok1"; None; Some "tok1"] |}
           (JStr "tok1") (Fixture.catalog_page Fixture.page2 (JStr "#@"))
           Fixture.page2
           (record_lines [Fixture.record "aaa" "A" "10,000+"; Fixture.record "ccc" "C" "5"])
           1
           (record_lines [Fixture.record "aaa" "A" "10,000+"; Fixture.record "ccc" "C" "5";
                          Fixture.record "ddd" "D" "1"])
           "").
  - reflexivity.
  - reflexivity.
  - reflexivity.
  - discriminate.
  - repeat constructor.
  - vm_compute. reflexivity.
  - vm_compute. reflexivity.
Defined.

(** X5. The search for an id is a search for a substring of the log: a row
    whose id is a substring of the plain id of a record the log holds is
    taken for already collected and skipped, whatever its user count. *)
Theorem substring_of_recorded_id_is_skipped
    row rest n s uc info t fields before after :
  parse_extension_info row = Ok (JStr s, uc, info) →
  plain t = true → contains s t = true →
  let file := before +:+ json_dumps (JObj (("id", JStr t) :: fields)) +:+ newline
              +:+ after in
  process_rows (row :: rest) n file = process_rows rest n file.
Proof.
  intros Hp Hplain Hsub file. simpl. rewrite Hp. unfold is_string_in_file.
  replace (contains s file) with true; [done|]. symmetry.
  apply (contains_trans s t); [done|]. unfold file.
  apply contains_app_l, contains_app_r. by apply record_contains_id.
Qed.

Lemma substring_of_recorded_id_is_skipped_witness :
  process_rows [Fixture.row "aa" "Shorter" "900"] 0
    ("" +:+ json_dumps (JObj (Fixture.record "aaa" "A" "7")) +:+ newline +:+ "")
  = process_rows [] 0
      ("" +:+ json_dumps (JObj (Fixture.record "aaa" "A" "7")) +:+ newline +:+ "").
Proof.
  apply (substring_of_recorded_id_is_skipped (Fixture.row "aa" "Shorter" "900") [] 0
           "aa" 900 (Fixture.record "aa" "Shorter" "900") "aaa"
           (tail (Fixture.record "aaa" "A" "7")) "" "");
    reflexivity.
Defined.

(** X6. A row with an empty id is never recorded, whatever the log holds,
    and a row whose id is not text stops the page with [TypeError], the log
    being left as it was. *)
Theorem empty_or_untyped_id row rest n file ext_id uc info :
  parse_extension_info row = Ok (ext_id, uc, info) →
  (ext_id = JStr "" → process_rows (row :: rest) n file = process_rows rest n file)
  ∧ ((∀ s, ext_id ≠ JStr s) →
     process_rows (row :: rest) n file = (Raise TypeError, file)).
Proof.
  intros Hp. split.
  - intros ->. simpl. rewrite Hp. unfold is_string_in_file. by rewrite contains_empty.
  - intros Hne. simpl. rewrite Hp. unfold is_string_in_file.
    destruct ext_id; try done. by destruct (Hne s).
Qed.

Lemma empty_or_untyped_id_witness :
  process_rows [Fixture.row "" "Nameless" "12"; Fixture.row "ddd" "D" "1"] 0 ""
  = process_rows [Fixture.row "ddd" "D" "1"] 0 "".
Proof.
  apply (empty_or_untyped_id (Fixture.row "" "Nameless" "12") [Fixture.row "ddd" "D" "1"]
           0 "" (JStr "") 12 (Fixture.record "" "Nameless" "12"));
    reflexivity.
Defined.

(** ** When the loop ends *)

Lemma process_rows_total rows n file :
  Forall (λ row, row_ok row = true) rows →
  ∃ m file', process_rows rows n file = (Ok m, file').
Proof.
  intros H. revert n file. induction H as [|row rows Hrow _ IH]; intros n file; simpl.
  - eauto.
  - unfold row_ok in Hrow.
    destruct (parse_extension_info row) as [[[ext_id uc] info]|e]; [|done].
    destruct ext_id as [| | | |s| |]; try done. unfold is_string_in_file.
    destruct (contains s file); [apply IH|].
    destruct (MIN_USER_COUNT <=? uc); apply IH.
Qed.

(** X7. The loop ends only on an error, on an empty page, or on a page that
    has no cursor and saves nothing. On a catalog that answers every
    request with a page of well-formed rows and a truthy cursor it never
    ends, whether the rows are new or not: every bound on the number of
    iterations is reached. *)
Theorem run_never_ends_while_pages_have_cursors fetch :
  (∀ n request, ∃ response_data rows cursor,
      fetch n request = Some response_data
      ∧ page_fields response_data = Ok (JArr rows, cursor)
      ∧ rows ≠ [] ∧ truthy cursor = true
      ∧ Forall (λ row, row_ok row = true) rows) →
  ∀ fuel token st, run_loop fetch fuel token st = None.
Proof.
  intros Hcat fuel. induction fuel as [|fuel IH]; intros token st; [done|].
  destruct (Hcat (length (requests st)) (build_request_url token))
    as (rd & rows & cursor & Hfetch & Hpage & Hrows & Hcur & Hok).
  destruct (process_rows_total rows 0 (log st) Hok) as (m & file' & Hp).
  rewrite (run_loop_page _ _ _ _ _ _ _ m file' Hfetch Hpage).
  - cbn zeta. replace (is_none cursor) with false by (by destruct cursor).
    rewrite andb_false_r. apply IH.
  - by destruct rows.
  - exact Hp.
Qed.

Lemma run_never_ends_while_pages_have_cursors_witness :
  run_loop endless 50 JNull (init None None) = None.
Proof.
  apply (run_never_ends_while_pages_have_cursors endless).
  intros n request.
  exists (Fixture.catalog_page [Fixture.row "aaa" "A" "7"] (JStr "again")),
         [Fixture.row "aaa" "A" "7"], (JStr "again").
  split; [reflexivity|]. split; [reflexivity|]. split; [discriminate|].
  split; [reflexivity|]. repeat constructor.
Defined.

(** ** The checkpoint file *)

Lemma run_loop_checkpoint fetch fuel token st o st' :
  run_loop fetch fuel token st = Some (o, st') →
  checkpoint st' = checkpoint st
  ∨ ∃ c, truthy c = true ∧ checkpoint st' = save_checkpoint c.
Proof.
  revert token st. induction fuel as [|fuel IH]; intros token st; [done|].
  simpl.
  destruct (fetch _ _) as [rd|]; [|intros [= <- <-]; by left].
  destruct (page_fields rd) as [[items cursor]|e]; [|intros [= <- <-]; by left].
  destruct (truthy items); simpl; [|intros [= <- <-]; by left].
  destruct (process_extensions items (log st)) as [[saved|e] file];
    [|intros [= <- <-]; by left].
  destruct (_ && _).
  - intros [= <- <-]. simpl. destruct (truthy cursor) eqn:Hc; eauto.
  - intros H. apply IH in H as [->|?]; [|by right].
    simpl. destruct (truthy cursor) eqn:Hc; eauto.
Qed.

(** X8. Saving and loading a checkpoint are inverse: [load_checkpoint] gives
    back the token [save_checkpoint] wrote, and the absent token for a
    missing file. A run leaves the checkpoint file it found or one that
    holds a truthy token, so a file the collector wrote always loads, and
    never as the absent token. *)
Theorem checkpoint_round_trip :
  (∀ token, load_checkpoint (save_checkpoint token) = Ok token)
  ∧ load_checkpoint None = Ok JNull
  ∧ (∀ fetch fuel st o st',
       run fetch fuel st = Some (o, st') →
       checkpoint st' = checkpoint st
       ∨ ∃ token, truthy token = true ∧ checkpoint st' = save_checkpoint token
                  ∧ load_checkpoint (checkpoint st') = Ok token).
Proof.
  assert (Hload : ∀ token, load_checkpoint (save_checkpoint token) = Ok token) by done.
  split; [exact Hload|]. split; [done|].
  intros fetch fuel st o st'. unfold run.
  destruct (load_checkpoint (checkpoint st)) as [token|e]; [|intros [= <- <-]; by left].
  intros H. apply run_loop_checkpoint in H as [?|(c & Hc & ->)]; [by left|].
  right. exists c. by rewrite Hload.
Qed.

Lemma checkpoint_round_trip_witness :
  checkpoint {| log := record_lines [Fixture.record "aaa" "A" "7";
                                     Fixture.record "bbb" "B" "5"];
                checkpoint := save_checkpoint (JStr "tok1");
                requests := [None; Some "tok1"; None] |}
  = checkpoint (init None None)
  ∨ ∃ token, truthy token = true
      ∧ checkpoint {| log := record_lines [Fixture.record "aaa" "A" "7";
                                           Fixture.record "bbb" "B" "5"];
                      checkpoint := save_checkpoint (JStr "tok1");
                      requests := [None; Some "tok1"; None] |}
        = save_checkpoint token
      ∧ load_checkpoint
          (checkpoint {| log := record_lines [Fixture.record "aaa" "A" "7";
                                              Fixture.record "bbb" "B" "5"];
                         checkpoint := save_checkpoint (JStr "tok1");
                         requests := [None; Some "tok1"; None] |})
        = Ok token.
Proof.
  destruct checkpoint_round_trip as (_ & _ & Hrun).
  apply (Hrun Fixture.failing_third 9%nat (init None None) FetchFailed).
  vm_compute. reflexivity.
Defined.

(** ** The request URL *)

Lemma unquote_bytes_char c rest :
  unquote_bytes (quote_plus_char c +:+ rest) = utf8 c ++ unquote_bytes rest.
Proof. destruct c as [[] [] [] [] [] [] [] []]; reflexivity. Qed.

Lemma utf8_decode_char c bytes :
  utf8_decode (utf8 c ++ bytes) = String c (utf8_decode bytes).
Proof. destruct c as [[] [] [] [] [] [] [] []]; reflexivity. Qed.

Lemma unquote_plus_quote_plus s : unquote_plus (quote_plus s) = s.
Proof.
  unfold unquote_plus, quote_plus.
  induction s as [|c s IH]; [done|].
  simpl concat_map. by rewrite unquote_bytes_char, utf8_decode_char, IH.
Qed.

Lemma request_url_token token :
  request_url (Some token) = request_url None +:+ "&token=" +:+ quote_plus token.
Proof. vm_compute. reflexivity. Qed.

(** X9. The request URL determines the token it was built from: percent
    encoding can be read back, so two requests have the same URL only when
    both carry no token or both carry the same one. A falsy cursor gives
    the URL without a [token] parameter. *)
Theorem request_url_determines_token :
  (∀ s, unquote_plus (quote_plus s) = s)
  ∧ (∀ request1 request2, request_url request1 = request_url request2 →
                          request1 = request2)
  ∧ (∀ token, truthy token = false →
              request_url (build_request_url token) = request_url None).
Proof.
  split; [exact unquote_plus_quote_plus|]. split.
  - intros [t1|] [t2|]; rewrite ?request_url_token; intros H.
    + do 2 apply (inj (String.app _)) in H.
      apply (f_equal unquote_plus) in H. rewrite !unquote_plus_quote_plus in H.
      by subst.
    + rewrite <- (sapp_empty_r (request_url None)) in H at 2.
      by apply (inj (String.app _)) in H.
    + rewrite <- (sapp_empty_r (request_url None)) in H at 1.
      by apply (inj (String.app _)) in H.
    + done.
  - intros token Hf. unfold build_request_url. by rewrite Hf.
Qed.

Lemma request_url_determines_token_witness :
  Some "tok1" = Some ("tok" +:+ "1")
  ∧ request_url (build_request_url (JStr "")) = request_url None.
Proof.
  destruct request_url_determines_token as (_ & Hinj & Hfalsy).
  split; [apply Hinj; reflexivity | apply Hfalsy; reflexivity].
Defined.

(** ** The transport *)

Lemma lstrip_chars_run set p s :
  (∀ c, contains (str1 c) p = true → contains (str1 c) set = true) →
  lstrip_chars set (p +:+ s) = lstrip_chars set s.
Proof.
  induction p as [|a p IH]; intros Hp; [done|].
  rewrite sapp_cons. simpl. rewrite (Hp a).
  - apply IH. intros c Hc. apply Hp. rewrite contains_unfold, Hc. apply orb_true_r.
  - rewrite contains_unfold. simpl. destruct (ascii_dec a a); [|done].
    by destruct p.
Qed.

Lemma lstrip_chars_stop set c s :
  contains (str1 c) set = false → lstrip_chars set (String c s) = String c s.
Proof. intros H. simpl. by rewrite H. Qed.

(** X10. [parse_response] strips a set of characters, not a fixed prefix: it
    decodes the text that follows the longest run of the characters
    [)]}'] and newline at the start. The anti-CSRF prefix before a body
    that starts with none of them is removed exactly; a body that starts
    with one of them loses that start too. *)
Theorem parse_response_strips_a_character_set json_loads :
  (∀ p body,
      (∀ c, contains (str1 c) p = true → contains (str1 c) anti_csrf = true) →
      parse_response json_loads (p +:+ body) = parse_response json_loads body)
  ∧ (∀ c body,
      contains (str1 c) anti_csrf = false →
      parse_response json_loads (anti_csrf +:+ String c body)
      = json_loads (String c body)).
Proof.
  split.
  - intros p body Hp. unfold parse_response. by rewrite lstrip_chars_run.
  - intros c body Hc. unfold parse_response. rewrite lstrip_chars_run; [|done].
    by rewrite lstrip_chars_stop.
Qed.

Lemma parse_response_strips_a_character_set_witness :
  parse_response Wire.decode ("]}" +:+ Wire.body1) = parse_response Wire.decode Wire.body1
  ∧ parse_response Wire.decode (anti_csrf +:+ Wire.body1) = Wire.decode Wire.body1.
Proof.
  destruct (parse_response_strips_a_character_set Wire.decode) as [Hrun Hbody].
  split.
  - apply (Hrun "]}" Wire.body1). intros c.
    destruct c as [[] [] [] [] [] [] [] []]; intros Hc; vm_compute in Hc;
      try discriminate Hc; reflexivity.
  - apply (Hbody "["%char "page one]"). reflexivity.
Defined.

(** X11. Through the transport, a request that raises, an answer whose
    status is not 200 (redirects are not followed, so a redirect is one),
    and a text [json.loads] rejects all end the run the same way: the
    failure is caught, one request was sent, and the log and the checkpoint
    are as they were. *)
Theorem transport_failure_ends_run post json_loads fuel token st :
  let url := request_url (build_request_url token) in
  let answer := post (length (requests st)) url in
  (answer = NoReply
   ∨ (∃ status_code text, answer = Reply status_code text ∧ status_code ≠ 200%nat)
   ∨ (∃ text, answer = Reply 200 text ∧ parse_response json_loads text = None)) →
  run_loop (fetch_through post json_loads) (S fuel) token st
  = Some (FetchFailed,
          {| log := log st; checkpoint := checkpoint st;
             requests := requests st ++ [build_request_url token] |}).
Proof.
  intros url answer H. apply run_loop_fetch_failed.
  unfold fetch_through, make_request. fold url answer.
  destruct H as [->|[(code & text & -> & Hcode)|(text & -> & Hparse)]]; [done| |done].
  by apply Nat.eqb_neq in Hcode as ->.
Qed.

Lemma transport_failure_ends_run_witness :
  run_loop (fetch_through Wire.moved Wire.decode) 1 JNull (init None None)
  = Some (FetchFailed, {| log := ""; checkpoint := None; requests := [] ++ [None] |}).
Proof.
  apply (transport_failure_ends_run Wire.moved Wire.decode 0 JNull (init None None)).
  right. left. exists 302%nat, "". split; [reflexivity | discriminate].
Defined.

(** * Further properties of the downloader *)

Lemma prefix_slash_crx s :
  String.prefix "/" (s +:+ ".crx") = String.prefix "/" s.
Proof.
  apply eq_true_iff_eq. rewrite !prefix_iff. split; intros [b Hb].
  - destruct s as [|a s]; [done|]. rewrite sapp_cons in Hb.
    injection Hb as -> _. by exists s.
  - rewrite Hb. exists (b +:+ ".crx"). by rewrite sapp_assoc.
Qed.

Lemma output_file_of_relative ext_id :
  String.prefix "/" (py_str ext_id) = false →
  output_file_of ext_id = DOWNLOAD_DIR +:+ py_str ext_id +:+ ".crx".
Proof.
  intros H. unfold output_file_of, path_join. by rewrite prefix_slash_crx, H.
Qed.

Lemma output_file_of_absolute ext_id :
  String.prefix "/" (py_str ext_id) = true →
  output_file_of ext_id = py_str ext_id +:+ ".crx".
Proof.
  intros H. unfold output_file_of, path_join. by rewrite prefix_slash_crx, H.
Qed.

(** X12. The archive of an id is [DOWNLOAD_DIR] followed by the id and
    [.crx], unless the id starts with a slash: then the path is the id
    itself followed by [.crx], outside the download directory. Either way
    ids with different texts have different archive paths, and different
    download URLs. *)
Theorem archive_path_and_url_determine_id id1 id2 :
  (String.prefix "/" (py_str id1) = false →
   output_file_of id1 = DOWNLOAD_DIR +:+ py_str id1 +:+ ".crx")
  ∧ (String.prefix "/" (py_str id1) = true →
     output_file_of id1 = py_str id1 +:+ ".crx")
  ∧ (output_file_of id1 = output_file_of id2 → py_str id1 = py_str id2)
  ∧ (build_crx_download_url id1 = build_crx_download_url id2 → py_str id1 = py_str id2).
Proof.
  split; [apply output_file_of_relative|]. split; [apply output_file_of_absolute|].
  split; [|apply build_crx_download_url_inj].
  destruct (String.prefix "/" (py_str id1)) eqn:H1;
    destruct (String.prefix "/" (py_str id2)) eqn:H2.
  - rewrite !output_file_of_absolute by done. apply string_app_inv_r.
  - rewrite output_file_of_absolute, output_file_of_relative by done.
    intros H. apply prefix_iff in H1 as [b Hb]. rewrite Hb in H. by rewrite sapp_cons in H.
  - rewrite output_file_of_relative, output_file_of_absolute by done.
    intros H. apply prefix_iff in H2 as [b Hb]. rewrite Hb in H. by rewrite sapp_cons in H.
  - rewrite !output_file_of_relative by done. intros H.
    apply (inj (String.app _)) in H. by apply string_app_inv_r in H.
Qed.

Lemma archive_path_and_url_determine_id_witness :
  output_file_of (JStr "abc") = DOWNLOAD_DIR +:+ "abc" +:+ ".crx"
  ∧ output_file_of (JStr "/tmp/abc") = "/tmp/abc" +:+ ".crx"
  ∧ py_str (JInt 5) = py_str (JStr "5").
Proof.
  destruct (archive_path_and_url_determine_id (JStr "abc") (JStr "abc")) as (Hrel & _).
  destruct (archive_path_and_url_determine_id (JStr "/tmp/abc") (JStr "abc"))
    as (_ & Habs & _).
  destruct (archive_path_and_url_determine_id (JInt 5) (JStr "5")) as (_ & _ & Hpath & _).
  split; [apply Hrel; reflexivity|]. split; [apply Habs; reflexivity|].
  apply Hpath. reflexivity.
Defined.

Section DownloaderRuns.

Context (http_get : nat → string → response) (open_wb : string → bool).
Context (file_write : string → list Byte.byte → option (list Byte.byte)).

#[local] Abbreviation download_all := (Download.download_all http_get open_wb file_write).
#[local] Abbreviation download_extension :=
  (Download.download_extension http_get open_wb file_write).

Lemma network_calls_app t1 t2 : network_calls (t1 ++ t2) = network_calls t1 ++ network_calls t2.
Proof. unfold network_calls. apply List.filter_app. Qed.

(** One download: the request is sent, and a file is touched only when the
    archive was opened; then the download succeeded, or the write raised. *)
Lemma download_extension_outcome ext_id path st o st' :
  download_extension ext_id path st = (o, st') →
  trace st' = trace st ++ [Get (build_crx_download_url ext_id)]
  ∧ (files st' = files st
     ∨ ∃ content, files st' = <[path := content]> (files st)
                  ∧ (o = None ∨ o = Some OSError)).
Proof.
  unfold Download.download_extension.
  destruct (http_get _ _) as [|code content].
  - intros [= <- <-]. auto.
  - destruct (_ && _)%nat.
    + intros [= <- <-]. auto.
    + destruct (open_wb path); [|intros [= <- <-]; auto].
      destruct (file_write path content) as [partial|]; intros [= <- <-]; simpl.
      * split; [done|]. right. exists partial. auto.
      * split; [done|]. right. exists content. auto.
Qed.

(** X13. What a run adds to the trace is a sequence of attempts, at most one
    for each record: a request followed by the report of a failure, or a
    request followed by the report of the download and then the delay. So
    the delay is taken after the successful downloads only, and every file
    the run creates or changes is the archive of an id it reports as
    downloaded, or as failed with an OS error when the write raised after
    the archive was opened. *)
Theorem run_is_a_sequence_of_attempts exts st r st' :
  download_all exts st = (r, st') →
  ∃ evs, trace st' = trace st ++ evs
         ∧ paced evs = true
         ∧ (length (network_calls evs) ≤ length exts)%nat
         ∧ ∀ path, files st' !! path ≠ files st !! path →
             ∃ ext_id status,
               SetPostfix ext_id status ∈ evs ∧ path = output_file_of ext_id
               ∧ (status = Downloaded ∨ status = Failed OSError).
Proof.
  revert st r st'. induction exts as [|ext exts IH]; intros st r st'; simpl.
  { intros [= <- <-]. exists []. rewrite app_nil_r.
    split; [done|]. split; [done|]. split; [simpl; lia|]. by intros path Hpath. }
  destruct (py_get ext "id" JNull) as [ext_id|e].
  2:{ intros [= <- <-]. exists []. rewrite app_nil_r.
      split; [done|]. split; [done|]. split; [simpl; lia|]. by intros path Hpath. }
  assert (Hskip : download_all exts st = (r, st') →
    ∃ evs, trace st' = trace st ++ evs ∧ paced evs = true
           ∧ (length (network_calls evs) ≤ S (length exts))%nat
           ∧ ∀ path, files st' !! path ≠ files st !! path →
               ∃ ext_id status,
                 SetPostfix ext_id status ∈ evs ∧ path = output_file_of ext_id
                 ∧ (status = Downloaded ∨ status = Failed OSError)).
  { intros H. apply IH in H as (evs & ? & ? & ? & ?). exists evs.
    split; [done|]. split; [done|]. split; [lia|done]. }
  destruct (negb (truthy ext_id)); [exact Hskip|].
  destruct (isfile _ st); [exact Hskip|]. clear Hskip.
  set (url := build_crx_download_url ext_id).
  destruct (download_extension ext_id (output_file_of ext_id) st) as [o st1] eqn:Hd.
  apply download_extension_outcome in Hd as [Htr1 Hfiles]. fold url in Htr1.
  set (report := match o with
                 | None => [SetPostfix ext_id Downloaded; Sleep]
                 | Some e => [SetPostfix ext_id (Failed e)]
                 end).
  assert (Hrest : download_all exts (emit report st1) = (r, st') →
    ∃ evs, trace st' = trace st ++ evs ∧ paced evs = true
           ∧ (length (network_calls evs) ≤ S (length exts))%nat
           ∧ ∀ path, files st' !! path ≠ files st !! path →
               ∃ ext_id status,
                 SetPostfix ext_id status ∈ evs ∧ path = output_file_of ext_id
                 ∧ (status = Downloaded ∨ status = Failed OSError)).
  { intros H. apply IH in H as (evs & Htr & Hp & Hn & Hf).
    exists ((Get url :: report) ++ evs).
    split; [rewrite Htr; simpl; rewrite Htr1; by rewrite <- !app_assoc|].
    split; [subst report; by destruct o|].
    split; [rewrite network_calls_app; subst report; destruct o; simpl; lia|].
    intros path Hpath. simpl in Hf.
    assert (Hlater : files st' !! path ≠ files st1 !! path →
              ∃ ext_id status,
                SetPostfix ext_id status ∈ (Get url :: report) ++ evs
                ∧ path = output_file_of ext_id
                ∧ (status = Downloaded ∨ status = Failed OSError)).
    { intros Hdiff. destruct (Hf path Hdiff) as (id' & status & Hin & -> & Hst).
      exists id', status. split; [|done]. apply elem_of_app. by right. }
    destruct Hfiles as [Heq|(content & Heq & Ho)]; [apply Hlater; congruence|].
    destruct (decide (path = output_file_of ext_id)) as [->|Hne].
    2:{ apply Hlater. by rewrite Heq, lookup_insert_ne. }
    exists ext_id, (match o with None => Downloaded | Some e => Failed e end).
    split; [|split; [done|]].
    + apply elem_of_app. left. apply elem_of_cons. right. subst report.
      destruct o; apply elem_of_cons; by left.
    + destruct Ho as [->| ->]; auto. }
  subst report. destruct o as [e|]; exact Hrest.
Qed.

(** A run with nothing to do: every record has a falsy id or its archive. *)
Lemma download_all_nothing_to_do exts st :
  Forall (λ ext, ∃ ext_id, py_get ext "id" JNull = Ok ext_id
                           ∧ (truthy ext_id = true →
                              isfile (output_file_of ext_id) st = true)) exts →
  download_all exts st = (Ok tt, st).
Proof.
  intros H. induction H as [|ext exts (ext_id & Hid & Hfile) _ IH]; [done|].
  simpl. rewrite Hid. destruct (truthy ext_id); [|done]. simpl.
  by rewrite Hfile.
Qed.

Lemma isfile_kept path st st' :
  (∀ p content, files st !! p = Some content → files st' !! p = Some content) →
  isfile path st = true → isfile path st' = true.
Proof.
  unfold isfile. rewrite !bool_decide_eq_true. intros Hkeep [content Hc].
  exists content. by apply Hkeep.
Qed.

(** X14. When the network answers every request with a status outside 400 to
    599 and every archive can be opened and written, a run over records that are
    objects reaches the end of the list and leaves an archive for every
    record with a truthy id; run again over the same records, the
    downloader then sends no request and changes nothing. *)
Theorem successful_run_is_complete exts st :
  (∀ n url, ∃ status_code content,
      http_get n url = Response status_code content
      ∧ ((400 <=? status_code) && (status_code <? 600))%nat = false) →
  (∀ path, open_wb path = true) →
  (∀ path content, file_write path content = None) →
  Forall (λ ext, is_dict ext = true) exts →
  ∃ st', download_all exts st = (Ok tt, st')
         ∧ (∀ ext ext_id, ext ∈ exts → py_get ext "id" JNull = Ok ext_id →
                          truthy ext_id = true →
                          isfile (output_file_of ext_id) st' = true)
         ∧ download_all exts st' = (Ok tt, st').
Proof.
  intros Hnet Hopen Hwrite Hdict.
  assert (Hrun : ∀ st, ∃ st', download_all exts st = (Ok tt, st')
    ∧ (∀ p content, files st !! p = Some content → files st' !! p = Some content)
    ∧ ∀ ext ext_id, ext ∈ exts → py_get ext "id" JNull = Ok ext_id →
                     truthy ext_id = true → isfile (output_file_of ext_id) st' = true).
  { clear st. induction Hdict as [|ext exts Hd _ IH]; intros st.
    { exists st. split; [done|]. split; [done|]. intros ext ext_id Hin.
      by apply elem_of_nil in Hin. }
    destruct ext as [| | | | | |items]; try done.
    simpl. set (ext_id := match dict_lookup "id" items with Some x => x | None => JNull end).
    assert (Hrest : ∀ st1,
      (∀ p content, files st !! p = Some content → files st1 !! p = Some content) →
      (truthy ext_id = true → isfile (output_file_of ext_id) st1 = true) →
      ∃ st', download_all exts st1 = (Ok tt, st')
        ∧ (∀ p content, files st !! p = Some content → files st' !! p = Some content)
        ∧ ∀ ext ext_id0, ext ∈ JObj items :: exts → py_get ext "id" JNull = Ok ext_id0 →
            truthy ext_id0 = true → isfile (output_file_of ext_id0) st' = true).
    { intros st1 Hkeep Hhere. destruct (IH st1) as (st' & Hrun & Hkeep' & Hall).
      exists st'. split; [done|]. split; [auto|].
      intros ext ext_id0 Hin Hid Ht. apply elem_of_cons in Hin as [->|Hin]; [|eauto].
      injection Hid as <-. apply (isfile_kept _ st1); auto. }
    destruct (truthy ext_id) eqn:Ht; simpl; [|by apply Hrest].
    destruct (isfile _ st) eqn:Hfile; [by apply Hrest|].
    unfold Download.download_extension.
    destruct (Hnet (length (network_calls (trace st))) (build_crx_download_url ext_id))
      as (code & content & -> & ->).
    rewrite Hopen, Hwrite. apply Hrest.
    - intros p c Hp. simpl. rewrite lookup_insert_ne; [done|].
      intros <-. apply isfile_false in Hfile. congruence.
    - intros _. unfold isfile. simpl. apply bool_decide_eq_true.
      rewrite lookup_insert_eq. eauto. }
  destruct (Hrun st) as (st' & Hst & _ & Hall). exists st'.
  split; [done|]. split; [done|].
  apply download_all_nothing_to_do. apply Forall_forall. intros ext Hin.
  pose proof (proj1 (Forall_forall _ _) Hdict ext Hin) as Hd.
  destruct ext as [| | | | | |items]; try done.
  eexists. split; [reflexivity|]. intros Ht. by apply (Hall (JObj items)).
Qed.

(** X15. The body of a successful answer, once the archive is opened and
    the write returns, is stored as it came at the archive path of the id,
    and the rest of the run keeps it: whatever the later records are, the
    file holds that body when the run is over. *)
Theorem stored_body_is_kept ext ext_id rest st status_code content :
  py_get ext "id" JNull = Ok ext_id →
  truthy ext_id = true →
  isfile (output_file_of ext_id) st = false →
  http_get (length (network_calls (trace st))) (build_crx_download_url ext_id)
  = Response status_code content →
  ((400 <=? status_code) && (status_code <? 600))%nat = false →
  open_wb (output_file_of ext_id) = true →
  file_write (output_file_of ext_id) content = None →
  files (download_all (ext :: rest) st).2 !! output_file_of ext_id = Some content.
Proof.
  intros Hid Ht Hfile Hnet Hcode Hopen Hwrite. simpl.
  rewrite Hid, Ht, Hfile. simpl. unfold Download.download_extension.
  rewrite Hnet, Hcode, Hopen, Hwrite.
  destruct (download_all rest _) as [r st'] eqn:Hrest.
  apply download_all_frame in Hrest as [Hkeep _]. apply Hkeep.
  simpl. apply lookup_insert_eq.
Qed.

End DownloaderRuns.

Lemma run_is_a_sequence_of_attempts_witness :
  ∃ evs,
    trace (download_all always_ok Served.writable Served.full
             [Served.entry "aaa"; Served.nameless; Served.entry "ccc"] Served.nothing).2
    = trace Served.nothing ++ evs
    ∧ paced evs = true
    ∧ (length (network_calls evs)
       ≤ length [Served.entry "aaa"; Served.nameless; Served.entry "ccc"])%nat
    ∧ ∀ path,
        files (download_all always_ok Served.writable Served.full
                 [Served.entry "aaa"; Served.nameless; Served.entry "ccc"]
                 Served.nothing).2 !! path
        ≠ files Served.nothing !! path →
        ∃ ext_id status,
          SetPostfix ext_id status ∈ evs ∧ path = output_file_of ext_id
          ∧ (status = Downloaded ∨ status = Failed OSError).
Proof.
  apply (run_is_a_sequence_of_attempts always_ok Served.writable Served.full
           [Served.entry "aaa"; Served.nameless; Served.entry "ccc"] Served.nothing
           (download_all always_ok Served.writable Served.full
              [Served.entry "aaa"; Served.nameless; Served.entry "ccc"]
              Served.nothing).1).
  apply surjective_pairing.
Defined.

Lemma successful_run_is_complete_witness :
  ∃ st', download_all always_ok Served.writable Served.flushes
           [Served.entry "aaa"; Served.nameless] Served.nothing = (Ok tt, st')
         ∧ (∀ ext ext_id, ext ∈ [Served.entry "aaa"; Served.nameless] →
                          py_get ext "id" JNull = Ok ext_id → truthy ext_id = true →
                          isfile (output_file_of ext_id) st' = true)
         ∧ download_all always_ok Served.writable Served.flushes
             [Served.entry "aaa"; Served.nameless] st' = (Ok tt, st').
Proof.
  apply (successful_run_is_complete always_ok Served.writable Served.flushes).
  - intros n url. exists 200%nat, [Byte.x50; Byte.x4b]. split; reflexivity.
  - reflexivity.
  - reflexivity.
  - repeat constructor.
Defined.

Lemma stored_body_is_kept_witness :
  files (download_all always_ok Served.writable Served.flushes
           [Served.entry "aaa"; Served.entry "aaa"; Served.entry "ccc"] Served.nothing).2
    !! output_file_of (JStr "aaa")
  = Some [Byte.x50; Byte.x4b].
Proof.
  apply (stored_body_is_kept always_ok Served.writable Served.flushes
           (Served.entry "aaa") (JStr "aaa")
           [Served.entry "aaa"; Served.entry "ccc"] Served.nothing 200);
    reflexivity.
Defined.

(** * Further properties of the classifier *)

(** ** What the capability predicate reads *)

Section SameCapabilities.

Context (items1 items2 : list (string * json)).
Hypothesis same : ∀ k, k ∈ capability_keys → dict_lookup k items1 = dict_lookup k items2.

Lemma same_get k default :
  k ∈ capability_keys → py_get (JObj items1) k default = py_get (JObj items2) k default.
Proof. intros Hk. simpl. by rewrite (same k Hk). Qed.

Lemma same_in k :
  k ∈ capability_keys → py_in k (JObj items1) = py_in k (JObj items2).
Proof. intros Hk. simpl. by rewrite (same k Hk). Qed.

Lemma same_classification :
  is_network_related (JObj items1) = is_network_related (JObj items2).
Proof.
  assert (Hk : ∀ k, bool_decide (k ∈ capability_keys) = true → k ∈ capability_keys).
  { intros k. apply bool_decide_eq_true. }
  unfold is_network_related, web_accessible, content_scripts, has_permissions, has_action.
  rewrite (same_get "web_accessible_resources"), (same_get "content_scripts"),
    (same_get "permissions"), (same_get "browser_action"),
    (same_in "host_permissions"), (same_in "chrome_url_overrides"),
    (same_in "browser_action"), (same_in "action"), (same_in "optional_permissions")
    by (by apply Hk).
  cbn [py_get]. rewrite (same "action") by (by apply Hk). reflexivity.
Qed.

End SameCapabilities.

(** X16. The capability predicate reads a descriptor through eight keys only:
    two descriptors that agree on them are classified alike, exceptions
    included. A descriptor that declares none of them is classified
    not-network-related, whatever else it holds. *)
Theorem classification_reads_eight_keys items1 items2 :
  ((∀ k, k ∈ capability_keys → dict_lookup k items1 = dict_lookup k items2) →
   is_network_related (JObj items1) = is_network_related (JObj items2))
  ∧ ((∀ k, k ∈ capability_keys → dict_lookup k items1 = None) →
     is_network_related (JObj items1) = Ok false).
Proof.
  split; [apply same_classification|].
  intros Hnone. rewrite (same_classification items1 []); [done|].
  intros k Hk. by rewrite Hnone.
Qed.

Lemma classification_reads_eight_keys_witness :
  is_network_related Descriptors.plain_theme = Ok false.
Proof.
  apply (classification_reads_eight_keys
           [("manifest_version", JInt 3); ("name", JStr "Theme"); ("version", JStr "1.0");
            ("description", JStr "colours"); ("icons", JObj [("16", JStr "i.png")]);
            ("default_locale", JStr "en"); ("short_name", JStr "T");
            ("update_url", JStr "https://example.test/u"); ("theme", JObj [])] []).
  intros k Hk. unfold capability_keys in Hk.
  repeat (apply elem_of_cons in Hk as [->|Hk]; [reflexivity|]).
  by apply elem_of_nil in Hk.
Defined.

Lemma clean_manifest_filter items :
  clean_manifest (JObj items)
  = Ok (JObj (filter (λ kv, kv.1 ∉ keys_to_remove) items)).
Proof. unfold clean_manifest. by rewrite dict_pop_keys. Qed.

Lemma capability_keys_are_kept :
  Forall (λ k, k ∉ keys_to_remove) capability_keys.
Proof. apply (bool_decide_unpack _). by vm_compute. Qed.

(** X17. Stripping is idempotent and never changes the classification: the
    seven fields it removes are none of the keys the predicate reads. *)
Theorem stripping_keeps_classification manifest cleaned :
  clean_manifest manifest = Ok cleaned →
  clean_manifest cleaned = Ok cleaned
  ∧ is_network_related cleaned = is_network_related manifest.
Proof.
  destruct manifest as [| | | | | |items]; try done.
  rewrite clean_manifest_filter. intros Hc.
  assert (cleaned = JObj (filter (λ kv, kv.1 ∉ keys_to_remove) items)) as ->
    by congruence.
  clear Hc. split.
  - rewrite clean_manifest_filter. do 2 f_equal. rewrite list_filter_filter. apply list_filter_iff. tauto.
  - apply same_classification. intros k Hk. rewrite dict_lookup_without.
    destruct (decide (k ∈ keys_to_remove)) as [Hrem|]; [|done].
    by destruct (proj1 (Forall_forall _ _) capability_keys_are_kept k Hk).
Qed.

Lemma stripping_keeps_classification_witness :
  clean_manifest (JObj [("manifest_version", JInt 3); ("theme", JObj [])])
  = Ok (JObj [("manifest_version", JInt 3); ("theme", JObj [])])
  ∧ is_network_related (JObj [("manifest_version", JInt 3); ("theme", JObj [])])
    = is_network_related Descriptors.plain_theme.
Proof.
  apply (stripping_keeps_classification Descriptors.plain_theme). reflexivity.
Defined.

(** ** The disjuncts of the capability predicate *)

Lemma classified items b :
  is_network_related (JObj items) = Ok b →
  ∃ w cs p a,
    web_accessible (JObj items) = Ok w ∧ content_scripts (JObj items) = Ok cs
    ∧ has_permissions (JObj items) = Ok p ∧ has_action (JObj items) = Ok a
    ∧ b = w || p || bool_decide (is_Some (dict_lookup "host_permissions" items))
          || cs || a
          || bool_decide (is_Some (dict_lookup "optional_permissions" items))
          || bool_decide (is_Some (dict_lookup "chrome_url_overrides" items)).
Proof.
  unfold is_network_related.
  bind_ok (web_accessible (JObj items)). cbn [py_in mbind result_bind].
  bind_ok (content_scripts (JObj items)).
  bind_ok (has_permissions (JObj items)).
  bind_ok (has_action (JObj items)).
  intros [= <-]. by eexists _, _, _, _.
Qed.

Lemma concat_map_app f s t :
  concat_map f (s +:+ t) = concat_map f s +:+ concat_map f t.
Proof.
  induction s as [|a s IH]; [done|].
  rewrite sapp_cons. simpl. by rewrite IH, sapp_assoc.
Qed.

Lemma contains_join n x l sep :
  x ∈ l → contains n x = true → contains n (join sep l) = true.
Proof.
  intros Hx Hn. induction l as [|y l IH]; [by apply elem_of_nil in Hx|].
  apply elem_of_cons in Hx as [<-|Hx].
  - destruct l; [done|]. by apply contains_app_r.
  - destruct l as [|z l]; [by apply elem_of_nil in Hx|].
    change (join sep (y :: z :: l)) with (y +:+ sep +:+ join sep (z :: l)).
    apply contains_app_l, contains_app_l. by apply IH.
Qed.

Lemma flag_in_repr flag s :
  flag ∈ permissions_flags → contains flag s = true →
  contains flag (repr_str s) = true.
Proof.
  intros Hflag. rewrite !contains_iff. intros (a & b & ->).
  unfold repr_str.
  set (q := if contains (str1 apostrophe) (a +:+ flag +:+ b)
               && negb (contains (str1 quote) (a +:+ flag +:+ b))
            then quote else apostrophe).
  assert (concat_map (repr_char q) flag = flag) as Hsame.
  { unfold permissions_flags in Hflag. subst q.
    repeat (apply elem_of_cons in Hflag as [->|Hflag];
            [by destruct (_ && _)|]).
    by apply elem_of_nil in Hflag. }
  rewrite !concat_map_app, Hsame.
  exists (str1 q +:+ concat_map (repr_char q) a), (concat_map (repr_char q) b +:+ str1 q).
  by rewrite !sapp_assoc.
Qed.

(** X18. The permission test is textual: a permission list holding a text
    in which ["://"], ["<all_urls>"] or ["webRequest"] occurs anywhere makes
    the descriptor network-related, whatever the other entries of the list
    are. *)
Theorem permission_text_is_searched items l s flag :
  dict_lookup "permissions" items = Some (JArr l) →
  JStr s ∈ l → flag ∈ permissions_flags → contains flag s = true →
  has_permissions (JObj items) = Ok true
  ∧ ∀ b, is_network_related (JObj items) = Ok b → b = true.
Proof.
  intros Hp Hs Hflag Hin.
  assert (has_permissions (JObj items) = Ok true) as Hper.
  { unfold has_permissions. cbn [py_get mbind result_bind]. rewrite Hp. f_equal.
    apply existsb_exists. exists flag. split; [by apply list_elem_of_In|].
    cbn [py_str py_repr]. apply contains_app_l, contains_app_r.
    apply (contains_join _ (py_repr (JStr s))).
    - apply list_elem_of_fmap. by exists (JStr s).
    - by apply flag_in_repr. }
  split; [done|]. intros b (w & cs & p & a & _ & _ & Hp' & _ & ->)%classified.
  rewrite Hper in Hp'. injection Hp' as <-. by rewrite orb_true_r.
Qed.

Lemma permission_text_is_searched_witness :
  has_permissions
    (JObj [("name", JStr "Blocker");
           ("permissions", JArr [JStr "storage"; JStr "webRequestBlocking"])])
  = Ok true
  ∧ ∀ b, is_network_related
           (JObj [("name", JStr "Blocker");
                  ("permissions", JArr [JStr "storage"; JStr "webRequestBlocking"])])
         = Ok b → b = true.
Proof.
  apply (permission_text_is_searched _ [JStr "storage"; JStr "webRequestBlocking"]
           "webRequestBlocking" "webRequest").
  - reflexivity.
  - apply list_elem_of_lookup. by exists 1%nat.
  - apply list_elem_of_lookup. by exists 2%nat.
  - reflexivity.
Defined.

(** X19. Three keys count by their presence alone: a descriptor that
    declares [host_permissions], [optional_permissions] or
    [chrome_url_overrides] is never classified not-network-related, whatever
    the value under the key is. *)
Theorem declared_key_is_enough items k v :
  k ∈ ["host_permissions"; "optional_permissions"; "chrome_url_overrides"] →
  dict_lookup k items = Some v →
  is_network_related (JObj items) ≠ Ok false.
Proof.
  intros Hk Hv (w & cs & p & a & _ & _ & _ & _ & Hb)%classified.
  repeat (apply elem_of_cons in Hk as [->|Hk];
          [rewrite Hv in Hb; cbn in Hb; by rewrite ?orb_true_r in Hb|]).
  by apply elem_of_nil in Hk.
Qed.

Lemma declared_key_is_enough_witness :
  is_network_related (JObj [("optional_permissions", JNull)]) ≠ Ok false.
Proof.
  apply (declared_key_is_enough _ "optional_permissions" JNull).
  - apply list_elem_of_lookup. by exists 1%nat.
  - reflexivity.
Defined.

(** X20. A declared [action] shadows [browser_action]: the action
    capability is then decided by the value under [action] alone, and it is
    absent when that value has no popup, whatever [browser_action] holds. *)
Theorem action_shadows_browser_action items action :
  dict_lookup "action" items = Some action →
  has_action (JObj items) = has_action (JObj [("action", action)])
  ∧ (∀ fields, action = JObj fields → dict_lookup "default_popup" fields = None →
     has_action (JObj items) = Ok false).
Proof.
  intros Ha.
  assert (has_action (JObj items) = has_action (JObj [("action", action)])) as Heq.
  { unfold has_action. cbn [py_in py_get mbind result_bind dict_lookup].
    rewrite Ha. cbn. by destruct (dict_lookup "browser_action" items). }
  split; [done|]. intros fields -> Hnone. rewrite Heq.
  unfold has_action. cbn. destruct fields; [done|]. cbn in *. by rewrite Hnone.
Qed.

Lemma action_shadows_browser_action_witness :
  has_action
    (JObj [("browser_action", JObj [("default_popup", JStr "popup.html")]);
           ("action", JObj [("default_title", JStr "t")])])
  = Ok false.
Proof.
  destruct (action_shadows_browser_action
              [("browser_action", JObj [("default_popup", JStr "popup.html")]);
               ("action", JObj [("default_title", JStr "t")])]
              (JObj [("default_title", JStr "t")]) eq_refl) as [_ H].
  by apply (H [("default_title", JStr "t")]).
Defined.

(** ** The ids of the download directory *)

Lemma endswith_iff s t : endswith s t = true ↔ ∃ stem, s = stem +:+ t.
Proof.
  induction s as [|a s IH]; rewrite endswith_unfold.
  - rewrite orb_false_r, String.eqb_eq. split.
    + intros <-. by exists "".
    + intros [stem H]. destruct stem; [done|]. by rewrite sapp_cons in H.
  - rewrite orb_true_iff, String.eqb_eq, IH. split.
    + intros [<-|[stem ->]]; [by exists ""|]. by exists (String a stem).
    + intros [[|b stem] H]; [left; by rewrite sapp_empty_l in H|].
      rewrite sapp_cons in H. injection H as -> ->. right. by exists stem.
Qed.

Lemma splitext_root_dots stem :
  all_dots stem = true → splitext_root (stem +:+ ".crx") = stem +:+ ".crx".
Proof.
  intros H. unfold splitext_root. rewrite string_rev_app.
  change (string_rev ".crx") with "xrc.". rewrite !sapp_cons. simpl after_dot.
  by rewrite sapp_empty_l, all_dots_rev, H.
Qed.

Lemma assoc_lookup_is_Some {A} k (l : list (string * A)) :
  is_Some (assoc_lookup k l) ↔ k ∈ l.*1.
Proof.
  induction l as [|[k' v] l IH]; simpl.
  - rewrite elem_of_nil. split; [by intros [? ?]|done].
  - rewrite elem_of_cons. destruct (String.eqb_spec k k') as [->|Hne].
    + split; [by left|by eexists].
    + rewrite IH. split; [by right|]. by intros [?|?].
Qed.

Lemma list_extension_ids_spec d x :
  x ∈ list_extension_ids d
  ↔ ∃ name, name ∈ (downloads d).*1 ∧ endswith name ".crx" = true
            ∧ x = splitext_root name.
Proof.
  unfold list_extension_ids. rewrite merge_sort_Permutation, list_elem_of_fmap.
  split.
  - intros (name & -> & Hin). apply list_elem_of_In, filter_In in Hin as [Hin Hcrx].
    exists name. by rewrite list_elem_of_In.
  - intros (name & Hin & Hcrx & ->). exists name. split; [done|].
    apply list_elem_of_In, filter_In. by rewrite <- list_elem_of_In.
Qed.

(** X21. The ids are listed in ascending order, one for every file of the
    download directory whose name ends in [.crx]. The id of [stem.crx] is
    [stem], under which step 3 finds that file again, unless [stem] is
    empty or made of dots only: such a file is listed under its whole name,
    and step 3 looks for a file with [.crx] added to that name. *)
Theorem listed_ids d :
  Sorted String.le (list_extension_ids d)
  ∧ (∀ stem, stem +:+ ".crx" ∈ (downloads d).*1 →
       splitext_root (stem +:+ ".crx") ∈ list_extension_ids d
       ∧ (all_dots stem = false →
          splitext_root (stem +:+ ".crx") = stem
          ∧ ∃ p, find_crx_file_by_id stem d = Some (stem +:+ ".crx", p))
       ∧ (all_dots stem = true →
          splitext_root (stem +:+ ".crx") = stem +:+ ".crx"
          ∧ ((stem +:+ ".crx") +:+ ".crx" ∉ (downloads d).*1 →
             find_crx_file_by_id (stem +:+ ".crx") d = None)))
  ∧ (∀ x, x ∈ list_extension_ids d →
       ∃ stem, stem +:+ ".crx" ∈ (downloads d).*1 ∧ x = splitext_root (stem +:+ ".crx")).
Proof.
  split; [apply Sorted_merge_sort, _|]. split.
  - intros stem Hin. split.
    { apply list_extension_ids_spec. exists (stem +:+ ".crx").
      split; [done|]. split; [|done]. apply endswith_iff. by exists stem. }
    split.
    + intros Hdots. split; [by apply splitext_root_crx|].
      apply assoc_lookup_is_Some in Hin as [p Hp]. exists p.
      unfold find_crx_file_by_id. by rewrite Hp.
    + intros Hdots. split; [by apply splitext_root_dots|].
      intros Hnot. unfold find_crx_file_by_id.
      destruct (assoc_lookup _ _) as [p|] eqn:Hp; [|done].
      destruct Hnot. apply assoc_lookup_is_Some. by exists p.
  - intros x (name & Hin & (stem & ->)%endswith_iff & ->)%list_extension_ids_spec.
    by exists stem.
Qed.

Lemma listed_ids_witness :
  splitext_root ("theme" +:+ ".crx") = "theme"
  ∧ ∃ p, find_crx_file_by_id "theme" Shelf.disk0 = Some ("theme" +:+ ".crx", p).
Proof.
  destruct (listed_ids Shelf.disk0) as (_ & H & _).
  destruct (H "theme") as (_ & Hstem & _).
  - apply list_elem_of_lookup. by exists 0%nat.
  - by apply Hstem.
Defined.

(** ** The classification of a download directory *)

Section ClassifierRun.

Context (json_load : string → option json).

Lemma identify_loop_spec d ext_ids network_exts memory network_exts' memory' :
  identify_loop json_load d ext_ids network_exts memory = Ok (network_exts', memory') →
  ∀ x, x ∈ network_exts' ↔ x ∈ network_exts ∨ (x ∈ ext_ids ∧ selected json_load d x).
Proof.
  revert network_exts memory.
  induction ext_ids as [|ext_id ext_ids IH]; intros network_exts memory; simpl.
  - intros [= <- <-] x. rewrite elem_of_nil. tauto.
  - destruct (manifest_file ext_id d) as [text|] eqn:Hfile.
    2:{ intros H x. rewrite (IH _ _ H x), elem_of_cons. split; [tauto|].
        intros [?|[[->|?] Hsel]]; [tauto| |tauto].
        destruct Hsel as (? & ? & ? & _). congruence. }
    destruct (json_load text) as [manifest|] eqn:Hload; [|done].
    destruct (is_network_related manifest) as [[]|] eqn:Hnet; [| |done].
    + intros H x. rewrite (IH _ _ H x), elem_of_union, elem_of_singleton, elem_of_cons.
      split; [|tauto]. intros [[->|?]|?]; [|tauto..].
      right. split; [by left|]. by exists text, manifest.
    + destruct (clean_manifest manifest) as [cleaned|]; [|done].
      intros H x. rewrite (IH _ _ H x), elem_of_cons. split; [tauto|].
      intros [?|[[->|?] Hsel]]; [tauto| |tauto].
      destruct Hsel as (? & ? & ? & ? & ?). congruence.
Qed.

Lemma identify_loop_raises d ext_ids network_exts memory x :
  x ∈ ext_ids →
  (∃ text, manifest_file x d = Some text
           ∧ match json_load text with
             | None => True
             | Some manifest => is_dict manifest = false
             end) →
  ∃ e, identify_loop json_load d ext_ids network_exts memory = Raise e.
Proof.
  intros Hx (text & Hfile & Hbad). revert network_exts memory.
  induction ext_ids as [|ext_id ext_ids IH]; intros network_exts memory;
    [by apply elem_of_nil in Hx|].
  simpl. destruct (decide (ext_id = x)) as [->|Hne].
  - rewrite Hfile. destruct (json_load text) as [manifest|]; [|by eexists].
    destruct manifest; try done; by eexists.
  - apply elem_of_cons in Hx as [->|Hx]; [done|].
    destruct (manifest_file ext_id d) as [text'|]; [|by apply IH].
    destruct (json_load text') as [manifest|]; [|by eexists].
    destruct (is_network_related manifest) as [[]|]; [by apply IH| |by eexists].
    destruct (clean_manifest manifest); [by apply IH|by eexists].
Qed.


(** X22. The result of the identification is in ascending order and
    without repetition, and it holds exactly the listed ids whose
    descriptor file is read, decodes, and is classified network-related. *)
Theorem identified_ids_are_exact d ids memory :
  identify_network_related_extensions json_load d = Ok (ids, memory) →
  Sorted String.le ids ∧ NoDup ids
  ∧ ∀ x, x ∈ ids ↔
         x ∈ list_extension_ids d
         ∧ ∃ text manifest,
             manifest_file x d = Some text ∧ json_load text = Some manifest
             ∧ is_network_related manifest = Ok true.
Proof.
  unfold identify_network_related_extensions.
  destruct (identify_loop _ _ _ _ _) as [[network_exts mem]|] eqn:H; [|done].
  intros [= <- <-]. split; [apply Sorted_merge_sort, _|]. split.
  - rewrite merge_sort_Permutation. apply NoDup_elements.
  - intros x. rewrite merge_sort_Permutation, elem_of_elements.
    rewrite (identify_loop_spec _ _ _ _ _ _ H x), elem_of_empty. unfold selected. tauto.
Qed.

(** X23. An id without directory under the source directory is classified
    by the [manifest.json] of the working directory when there is one: if
    that descriptor is network-related, so is every such id. *)
Theorem working_directory_descriptor_is_used d x text manifest ids memory :
  x ∈ list_extension_ids d → source d !! x = None →
  cwd_manifest d = Some text → json_load text = Some manifest →
  is_network_related manifest = Ok true →
  identify_network_related_extensions json_load d = Ok (ids, memory) →
  x ∈ ids.
Proof.
  intros Hx Hdir Hcwd Hload Hnet Hrun.
  unfold identify_network_related_extensions in Hrun.
  destruct (identify_loop _ _ _ _ _) as [[network_exts mem]|] eqn:H; [|done].
  injection Hrun as <- <-. rewrite merge_sort_Permutation, elem_of_elements.
  apply (identify_loop_spec _ _ _ _ _ _ H x). right. split; [done|].
  exists text, manifest. split; [|done].
  unfold manifest_file, find_extracted_dir_by_id. rewrite Hdir.
  by rewrite bool_decide_eq_false_2 by (by intros [? ?]).
Qed.

(** X24. One descriptor that does not decode, or that decodes to something
    other than an object, aborts the run: [main] raises, and no package is
    fully extracted, the network-related ones listed before it included;
    the disk is as the descriptor extraction of step 1 left it. *)
Theorem bad_descriptor_aborts_run d x text :
  x ∈ list_extension_ids (extract_manifests d).2 →
  manifest_file x (extract_manifests d).2 = Some text →
  match json_load text with
  | None => True
  | Some manifest => is_dict manifest = false
  end →
  ∃ e, main json_load d = (Raise e, (extract_manifests d).2).
Proof.
  intros Hx Hfile Hbad. unfold main, identify_network_related_extensions.
  destruct (extract_manifests d) as [[e|] d1]; [by exists e|]. simpl in *.
  destruct (identify_loop_raises d1 (list_extension_ids d1) ∅ [] x Hx) as [e ->];
    [by exists text|].
  by exists e.
Qed.

End ClassifierRun.

Lemma identified_ids_are_exact_witness :
  Sorted String.le ["script"] ∧ NoDup ["script"]
  ∧ ∀ x, x ∈ ["script"] ↔
         x ∈ list_extension_ids (extract_manifests Shelf.disk0).2
         ∧ ∃ text manifest,
             manifest_file x (extract_manifests Shelf.disk0).2 = Some text
             ∧ Shelf.decode text = Some manifest
             ∧ is_network_related manifest = Ok true.
Proof.
  eapply (identified_ids_are_exact Shelf.decode (extract_manifests Shelf.disk0).2
            ["script"] _).
  vm_compute. reflexivity.
Defined.

Lemma working_directory_descriptor_is_used_witness :
  identify_network_related_extensions Shelf.decode Damaged.stray
  = Ok (["broken"], [("broken", Descriptors.page_script)])
  ∧ "broken" ∈ ["broken"].
Proof.
  split; [by vm_compute|].
  eapply (working_directory_descriptor_is_used Shelf.decode Damaged.stray "broken"
            "script" Descriptors.page_script ["broken"] _).
  - apply list_elem_of_lookup. by exists 0%nat.
  - reflexivity.
  - reflexivity.
  - reflexivity.
  - reflexivity.
  - vm_compute. reflexivity.
Defined.

Lemma bad_descriptor_aborts_run_witness :
  ∃ e, main Shelf.decode Damaged.garbled
       = (Raise e, (extract_manifests Damaged.garbled).2).
Proof.
  apply (bad_descriptor_aborts_run Shelf.decode Damaged.garbled "zzz" "garbage").
  - apply list_elem_of_lookup. by exists 1%nat.
  - reflexivity.
  - exact I.
Defined.

(** ** The descriptor extraction of step 1 *)

Lemma set_source_same d s : s = source d → set_source d s = d.
Proof. intros ->. by destruct d. Qed.

Lemma makedirs_existing ext_id d :
  is_Some (source d !! ext_id) → makedirs ext_id d = d.
Proof.
  intros [tree Htree]. unfold makedirs. apply set_source_same.
  unfold tree_of. rewrite Htree. by apply insert_id.
Qed.

Lemma makedirs_tree ext_id d x : tree_of (makedirs ext_id d) x = tree_of d x.
Proof.
  unfold makedirs. rewrite tree_of_set_source. by destruct (decide (x = ext_id)) as [->|].
Qed.

Lemma makedirs_exists ext_id d : is_Some (source (makedirs ext_id d) !! ext_id).
Proof. simpl. rewrite lookup_insert_eq. by eexists. Qed.

Lemma write_file_exists ext_id path text d :
  is_Some (source (write_file ext_id path text d) !! ext_id).
Proof. simpl. rewrite lookup_insert_eq. by eexists. Qed.

Lemma write_file_tree ext_id path text d x p :
  tree_of (write_file ext_id path text d) x !! p
  = if decide (x = ext_id ∧ p = path) then Some text else tree_of d x !! p.
Proof.
  unfold write_file. rewrite tree_of_set_source.
  destruct (decide (x = ext_id)) as [->|Hx].
  - destruct (decide (p = path)) as [->|Hp].
    + rewrite lookup_insert_eq. by rewrite decide_True.
    + rewrite lookup_insert_ne by done. rewrite decide_False; [done|]. by intros [_ ?].
  - rewrite decide_False; [done|]. by intros [? _].
Qed.

Lemma makedirs_adds ext_id d : only_descriptors_added d (makedirs ext_id d).
Proof.
  split; [done|]. split; [done|]. split; [|split].
  - intros x Hdir. simpl. destruct (decide (x = ext_id)) as [->|Hne].
    + rewrite lookup_insert_eq. by eexists.
    + by rewrite lookup_insert_ne.
  - intros x path text. by rewrite makedirs_tree.
  - intros x path _. by rewrite makedirs_tree.
Qed.

Lemma write_descriptor_adds ext_id text d :
  tree_of d ext_id !! "manifest.json" = None →
  only_descriptors_added d (write_file ext_id "manifest.json" text d).
Proof.
  intros Hnone. split; [done|]. split; [done|]. split; [|split].
  - intros x Hdir. simpl. destruct (decide (x = ext_id)) as [->|Hne].
    + rewrite lookup_insert_eq. by eexists.
    + by rewrite lookup_insert_ne.
  - intros x path v Hv. rewrite write_file_tree.
    destruct (decide (x = ext_id ∧ path = "manifest.json")) as [[-> ->]|]; [congruence|done].
  - intros x path Hp. rewrite write_file_tree. rewrite decide_False; [done|]. by intros [_ ?].
Qed.

Lemma only_descriptors_added_refl d : only_descriptors_added d d.
Proof. by repeat split. Qed.

Lemma only_descriptors_added_trans d1 d2 d3 :
  only_descriptors_added d1 d2 → only_descriptors_added d2 d3 →
  only_descriptors_added d1 d3.
Proof.
  intros (H1 & H2 & H3 & H4 & H5) (K1 & K2 & K3 & K4 & K5).
  split; [congruence|]. split; [congruence|]. split; [auto|]. split; [auto|].
  intros ext_id path Hp. by rewrite K5, H5.
Qed.

(** What one call of [unzip_manifest_only] does, by the member the archive
    has under the name of the descriptor. *)
Lemma unzip_manifest_only_cases name p d :
  let ext_id := splitext_root name in
  unzip_manifest_only name p d
  = if bool_decide (is_Some (tree_of d ext_id !! "manifest.json")) then (None, d)
    else
      match p with
      | Unopened e => (if caught_by_unzip_manifest_only e then None else Some e, d)
      | Zip members =>
          match getinfo "manifest.json" members with
          | None => (None, d)
          | Some (Stored text) => (None, write_file ext_id "manifest.json" text d)
          | Some (Broken e None) =>
              (if caught_by_unzip_manifest_only e then None else Some e,
               makedirs ext_id d)
          | Some (Broken e (Some written)) =>
              (if caught_by_unzip_manifest_only e then None else Some e,
               write_file ext_id "manifest.json" written d)
          end
      end.
Proof.
  intros ext_id. unfold unzip_manifest_only. fold ext_id.
  destruct (bool_decide _); [done|].
  destruct p as [e|members]; simpl; [by destruct (caught_by_unzip_manifest_only e)|].
  unfold extract_member.
  change (is_dir "manifest.json") with false.
  change (arcname "manifest.json") with "manifest.json".
  change (String.eqb "manifest.json" "") with false. cbv iota.
  destruct (getinfo "manifest.json" members) as [[text|e [written|]]|]; simpl; try done;
    by destruct (caught_by_unzip_manifest_only e).
Qed.

Lemma unzip_manifest_only_adds name p d :
  only_descriptors_added d (unzip_manifest_only name p d).2.
Proof.
  rewrite unzip_manifest_only_cases.
  destruct (bool_decide _) eqn:Hhas; [apply only_descriptors_added_refl|].
  apply bool_decide_eq_false in Hhas. apply eq_None_not_Some in Hhas.
  destruct p as [e|members]; [apply only_descriptors_added_refl|].
  destruct (getinfo "manifest.json" members) as [[text|e [written|]]|]; simpl.
  - by apply write_descriptor_adds.
  - by apply write_descriptor_adds.
  - apply makedirs_adds.
  - apply only_descriptors_added_refl.
Qed.

Lemma extract_manifests_from_adds files d :
  only_descriptors_added d (extract_manifests_from files d).2.
Proof.
  revert d. induction files as [|file files IH]; intros d;
    [apply only_descriptors_added_refl|].
  simpl. destruct (endswith file.1 ".crx"); [|apply IH].
  pose proof (unzip_manifest_only_adds file.1 file.2 d) as H.
  destruct (unzip_manifest_only file.1 file.2 d) as [[e|] d1]; [done|].
  eapply only_descriptors_added_trans; [exact H|apply IH].
Qed.

(** X25. Step 1 of [main] only adds descriptor files, whether it returns or
    raises: the download directory and the working directory are as
    before, every directory and every file of the source directory is kept
    with its content, an existing descriptor included, and no file other
    than a [manifest.json] appears. *)
Theorem descriptor_extraction_only_adds d :
  downloads (extract_manifests d).2 = downloads d
  ∧ cwd_manifest (extract_manifests d).2 = cwd_manifest d
  ∧ (∀ ext_id, is_Some (source d !! ext_id)
               → is_Some (source (extract_manifests d).2 !! ext_id))
  ∧ (∀ ext_id path text,
       tree_of d ext_id !! path = Some text
       → tree_of (extract_manifests d).2 ext_id !! path = Some text)
  ∧ (∀ ext_id path,
       path ≠ "manifest.json"
       → tree_of (extract_manifests d).2 ext_id !! path = tree_of d ext_id !! path).
Proof. unfold extract_manifests. apply extract_manifests_from_adds. Qed.

Lemma descriptor_extraction_only_adds_witness :
  tree_of (extract_manifests Shelf.disk0).2 "theme" !! "bg.png"
  = tree_of Shelf.disk0 "theme" !! "bg.png".
Proof.
  destruct (descriptor_extraction_only_adds Shelf.disk0) as (_ & _ & _ & _ & H).
  by apply H.
Defined.





(** Once a call of [unzip_manifest_only] has returned, the same call on the
    disk it left returns without changing it. *)
Lemma unzip_manifest_only_again name p d d1 :
  unzip_manifest_only name p d = (None, d1) →
  unzip_manifest_only name p d1 = (None, d1).
Proof.
  rewrite !unzip_manifest_only_cases.
  destruct (bool_decide (is_Some (tree_of d _ !! _))) eqn:Hhas.
  { intros [= <-]. by rewrite Hhas. }
  destruct p as [e|members].
  { intros [= He <-]. by rewrite Hhas, He. }
  destruct (getinfo "manifest.json" members) as [[text|e [written|]]|].
  - intros [= <-]. rewrite bool_decide_eq_true_2; [done|].
    rewrite write_file_tree, decide_True by done. by eexists.
  - intros [= He <-]. rewrite bool_decide_eq_true_2; [done|].
    rewrite write_file_tree, decide_True by done. by eexists.
  - intros [= He <-]. rewrite makedirs_tree, Hhas, He.
    by rewrite (makedirs_existing _ (makedirs _ d)) by apply makedirs_exists.
  - intros [= <-]. by rewrite Hhas.
Qed.

(** A call that returns without changing the disk still does on a disk to
    which descriptors were added. *)
Lemma unzip_manifest_only_settled name p d d' :
  unzip_manifest_only name p d = (None, d) →
  only_descriptors_added d d' →
  unzip_manifest_only name p d' = (None, d').
Proof.
  intros Hfix (_ & _ & Hdirs & Hfiles & _). revert Hfix.
  rewrite !unzip_manifest_only_cases.
  destruct (bool_decide (is_Some (tree_of d _ !! _))) eqn:Hhas.
  { intros _. apply bool_decide_eq_true in Hhas as [v Hv].
    rewrite bool_decide_eq_true_2; [done|]. exists v. by apply Hfiles. }
  apply bool_decide_eq_false in Hhas.
  assert (Hwritten : ∀ text,
    write_file (splitext_root name) "manifest.json" text d ≠ d).
  { intros text Heq. apply Hhas. exists text. rewrite <- Heq at 1.
    rewrite write_file_tree. by rewrite decide_True. }
  destruct (bool_decide (is_Some (tree_of d' _ !! _))); [done|].
  destruct p as [e|members]; [by intros [= ->]|].
  destruct (getinfo "manifest.json" members) as [[text|e [written|]]|].
  - intros [= Heq]. by destruct (Hwritten text).
  - intros [= _ Heq]. by destruct (Hwritten written).
  - intros [= -> Heq]. rewrite makedirs_existing; [done|].
    apply Hdirs. rewrite <- Heq. apply makedirs_exists.
  - done.
Qed.

Lemma extract_manifests_from_settles files d d1 :
  extract_manifests_from files d = (None, d1) →
  Forall (λ file, settled file d1) files.
Proof.
  revert d. induction files as [|file files IH]; intros d Hrun; [done|].
  simpl in Hrun. destruct (endswith file.1 ".crx") eqn:Hcrx.
  2:{ constructor; [|by apply (IH d)]. intros H. congruence. }
  destruct (unzip_manifest_only file.1 file.2 d) as [[e|] d'] eqn:Hstep; [done|].
  constructor; [|by apply (IH d')]. intros _.
  apply (unzip_manifest_only_settled _ _ d').
  - by apply (unzip_manifest_only_again _ _ d).
  - pose proof (extract_manifests_from_adds files d') as H. by rewrite Hrun in H.
Qed.

Lemma extract_manifests_from_settled files d :
  Forall (λ file, settled file d) files →
  extract_manifests_from files d = (None, d).
Proof.
  induction 1 as [|file files Hfile _ IH]; [done|]. simpl.
  destruct (endswith file.1 ".crx") eqn:Hcrx; [|done]. by rewrite (Hfile Hcrx).
Qed.

(** X27. Step 1 is idempotent: when it has returned, run again on the disk
    it left it returns again and changes nothing. *)
Theorem descriptor_extraction_is_idempotent d :
  (extract_manifests d).1 = None →
  extract_manifests (extract_manifests d).2 = extract_manifests d.
Proof.
  unfold extract_manifests.
  destruct (extract_manifests_from_adds (downloads d) d) as (Hsame & _).
  destruct (extract_manifests_from (downloads d) d) as [o d1] eqn:Hrun.
  simpl in *. intros ->. rewrite Hsame.
  by apply extract_manifests_from_settled, (extract_manifests_from_settles _ d).
Qed.

Lemma descriptor_extraction_is_idempotent_witness :
  extract_manifests (extract_manifests Damaged.torn).2 = extract_manifests Damaged.torn.
Proof. by apply (descriptor_extraction_is_idempotent Damaged.torn). Defined.

(** ** The full extraction of step 3 *)









Lemma nothing_removed_refl d : nothing_removed d d.
Proof. by repeat split. Qed.

Lemma nothing_removed_trans d1 d2 d3 :
  nothing_removed d1 d2 → nothing_removed d2 d3 → nothing_removed d1 d3.
Proof.
  intros (H1 & H2 & H3 & H4) (K1 & K2 & K3 & K4).
  split; [congruence|]. split; [congruence|]. split; auto.
Qed.

Lemma only_descriptors_added_keeps d d' :
  only_descriptors_added d d' → nothing_removed d d'.
Proof.
  intros (H1 & H2 & H3 & H4 & _). split; [done|]. split; [done|]. split; [done|].
  intros ext_id path [text Ht]. exists text. by apply H4.
Qed.

Lemma write_file_keeps ext_id path text d :
  nothing_removed d (write_file ext_id path text d).
Proof.
  split; [done|]. split; [done|]. split.
  - intros x Hdir. simpl. destruct (decide (x = ext_id)) as [->|Hne].
    + rewrite lookup_insert_eq. by eexists.
    + by rewrite lookup_insert_ne.
  - intros x p Hfile. rewrite write_file_tree. by destruct (decide _).
Qed.

Lemma extract_member_keeps ext_id name members d :
  nothing_removed d (extract_member ext_id name members d).2.
Proof.
  destruct (extract_member_disk ext_id name members d) as [->|[->|(path & text & ->)]].
  - apply nothing_removed_refl.
  - apply only_descriptors_added_keeps, makedirs_adds.
  - apply write_file_keeps.
Qed.

Lemma extract_names_keeps ext_id names members d :
  nothing_removed d (extract_names ext_id names members d).2.
Proof.
  revert d. induction names as [|name names IH]; intros d; [apply nothing_removed_refl|].
  simpl. pose proof (extract_member_keeps ext_id name members d) as H.
  destruct (extract_member ext_id name members d) as [[e|] d1]; [done|].
  eapply nothing_removed_trans; [exact H|apply IH].
Qed.

Lemma unzip_all_files_keeps name p d : nothing_removed d (unzip_all_files name p d).2.
Proof.
  unfold unzip_all_files. rewrite swallow_disk.
  destruct p as [e|members]; [apply nothing_removed_refl|]. apply extract_names_keeps.
Qed.

Lemma extract_selected_keeps ids d : nothing_removed d (extract_selected ids d).2.
Proof.
  revert d. induction ids as [|ext_id ids IH]; intros d; [apply nothing_removed_refl|].
  rewrite extract_selected_cons.
  destruct (find_crx_file_by_id ext_id d) as [[name p]|]; [|apply IH].
  pose proof (unzip_all_files_keeps name p d) as H.
  destruct (unzip_all_files name p d) as [[e|] d1]; [done|].
  eapply nothing_removed_trans; [exact H|apply IH].
Qed.

Section ClassifierDisk.

Context (json_load : string → option json).


(** X29. The classifier never removes anything: whatever the outcome of
    [main], the download directory and the working directory are as
    before, and every directory and every file of the source directory is
    still there. *)
Theorem classifier_removes_nothing d :
  downloads (main json_load d).2 = downloads d
  ∧ cwd_manifest (main json_load d).2 = cwd_manifest d
  ∧ (∀ ext_id, is_Some (source d !! ext_id)
               → is_Some (source (main json_load d).2 !! ext_id))
  ∧ (∀ ext_id path, is_Some (tree_of d ext_id !! path)
                    → is_Some (tree_of (main json_load d).2 ext_id !! path)).
Proof.
  change (nothing_removed d (main json_load d).2).
  pose proof (only_descriptors_added_keeps _ _
                (extract_manifests_from_adds (downloads d) d)) as H1.
  fold (extract_manifests d) in H1. unfold main.
  destruct (extract_manifests d) as [[e|] d1]; [done|]. simpl in H1.
  destruct (identify_network_related_extensions _ _) as [[ids memory]|e]; [|done].
  pose proof (extract_selected_keeps ids d1) as H2.
  destruct (extract_selected ids d1) as [[e|] d2]; simpl in *;
    by apply (nothing_removed_trans _ d1).
Qed.

End ClassifierDisk.


Lemma classifier_removes_nothing_witness :
  downloads (main Shelf.decode Damaged.torn).2 = downloads Damaged.torn.
Proof. by destruct (classifier_removes_nothing Shelf.decode Damaged.torn) as (H & _). Defined.

(** ** Extraction without [force] *)

(** X30. Without [force] the full extraction does nothing once step 1 has
    looked into a package that has a descriptor, whether it could read it
    or not: the directory exists. With [force] it is the extraction step 3
    performs. *)
Theorem unforced_extraction_is_skipped name members m p d :
  getinfo "manifest.json" members = Some m →
  unzip_all_files_force false name p (unzip_manifest_only name (Zip members) d).2
  = (None, (unzip_manifest_only name (Zip members) d).2)
  ∧ unzip_all_files_force true name p d = unzip_all_files name p d.
Proof.
  intros Hm. split.
  2:{ unfold unzip_all_files_force. by rewrite andb_false_r. }
  unfold unzip_all_files_force. rewrite bool_decide_eq_true_2; [done|].
  rewrite unzip_manifest_only_cases, Hm.
  destruct (bool_decide _) eqn:Hhas.
  - apply bool_decide_eq_true in Hhas as [v Hv]. simpl. unfold tree_of in Hv.
    destruct (source d !! splitext_root name); [by eexists|done].
  - destruct m as [text|e [written|]]; simpl; rewrite lookup_insert_eq; by eexists.
Qed.

Lemma unforced_extraction_is_skipped_witness :
  unzip_all_files_force false "script.crx"
    (Zip [("manifest.json", Stored "script"); ("inject.js", Stored "code")])
    (unzip_manifest_only "script.crx"
       (Zip [("manifest.json", Stored "script"); ("inject.js", Stored "code")])
       Shelf.disk0).2
  = (None,
     (unzip_manifest_only "script.crx"
        (Zip [("manifest.json", Stored "script"); ("inject.js", Stored "code")])
        Shelf.disk0).2)
  ∧ unzip_all_files_force true "script.crx"
      (Zip [("manifest.json", Stored "script"); ("inject.js", Stored "code")]) Shelf.disk0
    = unzip_all_files "script.crx"
        (Zip [("manifest.json", Stored "script"); ("inject.js", Stored "code")])
        Shelf.disk0.
Proof.
  by apply (unforced_extraction_is_skipped "script.crx" _ (Stored "script")).
Defined.
